(** * MK5717_Clock_OTA: a shallow embedding of the clock firmware's state machines

    The sketch [MK5717_Clock_OTA.ino] keeps all of its state in global
    variables and runs a cooperative main loop.  The functions embedded here
    are pure state transformers over a record of those globals; the two
    output-only collaborators the functions talk to (the serial console and
    the RMT pulse peripheral) are modelled as append-only logs, and the
    ezTime source is a record of the fields read during one call.

    Fixed-width integers are [Z] with the wrap-around written out
    ([uint32], [uint8]). *)

From Stdlib Require Import ZArith List String Ascii Bool Lia.
From Stdlib Require DecimalString.
Import ListNotations.
Local Open Scope string_scope.
Local Open Scope Z_scope.

(** ** Machine integers *)

Definition uint32 (z : Z) : Z := z mod 2 ^ 32.
Definition uint8 (z : Z) : Z := z mod 2 ^ 8.

(** ** Enumerations and records of the sketch *)

Inductive DisplayMode := MODE_TIME | MODE_DATE | MODE_SET | MODE_MESSAGE.

Inductive EditTarget := EDIT_TIME | EDIT_ALARM | EDIT_DATE | EDIT_MODEL.

Inductive AlarmState := ALARM_IDLE | ALARM_ARMED | ALARM_SOUNDING | ALARM_SNOOZE.

Definition DisplayMode_eqb (a b : DisplayMode) : bool :=
  match a, b with
  | MODE_TIME, MODE_TIME | MODE_DATE, MODE_DATE
  | MODE_SET, MODE_SET | MODE_MESSAGE, MODE_MESSAGE => true
  | _, _ => false
  end.

Definition EditTarget_eqb (a b : EditTarget) : bool :=
  match a, b with
  | EDIT_TIME, EDIT_TIME | EDIT_ALARM, EDIT_ALARM
  | EDIT_DATE, EDIT_DATE | EDIT_MODEL, EDIT_MODEL => true
  | _, _ => false
  end.

Definition AlarmState_eqb (a b : AlarmState) : bool :=
  match a, b with
  | ALARM_IDLE, ALARM_IDLE | ALARM_ARMED, ALARM_ARMED
  | ALARM_SOUNDING, ALARM_SOUNDING | ALARM_SNOOZE, ALARM_SNOOZE => true
  | _, _ => false
  end.

(** [enum Emulation : uint8_t] and [enum Model : uint8_t] have a fixed
    underlying type and are produced by [static_cast] from stored bytes, so
    they are kept as their byte values, with the enumerators as constants. *)
Definition Emulation := Z.
Definition WIFI : Emulation := 0.
Definition MK5017 : Emulation := 1.
Definition EmulationCount : Z := 2.

Definition Model := Z.
Definition MODEL_GC_1005 : Model := 0.
Definition MODEL_GC_1092D : Model := 1.
Definition MODEL_GC_1092A : Model := 2.
Definition MODEL_GC_1094 : Model := 3.
Definition MODEL_BOGUS : Model := 4.
Definition ModelCount : Z := 5.

Record EmulationInfo := mkInfo { emulation : Emulation; model : Model }.

Definition EEPROM_ADDR_EMULATION : nat := 0.
Definition EEPROM_ADDR_MODEL : nat := 1.
Definition defaultEmulation : Emulation := WIFI.
Definition defaultModel : Model := MODEL_GC_1005.

(** Commands sent to the RMT pulse peripheral by the tone functions. *)
Inductive RmtCmd :=
| RmtWriteItems   (* rmt_write_items(RMT_CH, pulse_items, TOTAL_ITEMS, false) *)
| RmtTxStop.      (* rmt_tx_stop(RMT_CH) *)

Definition NUM_DIGITS : nat := 6.
Definition SEGS_OFF : Z := 0.
Definition CHAR_BLANK : Z := 26.
Definition CHAR_DASH : Z := 27.

(** Segment patterns for characters, bit order Dgfedcba. *)
Definition chars : list Z :=
  [ 63; 6; 91; 79; 102; 109; 125; 7; 127; 111;   (* 0 .. 9 *)
    119; 95; 57; 88; 94; 121; 113; 56; 84; 63;   (* A a C c d E F L n O *)
    92; 115; 80; 109; 120; 62; 0; 64 ].          (* o P r S t U blank dash *)

Definition MESSAGE_COUNT : Z := 10.
Definition messagearray : list (list Z) :=
  [ [1; 0; 0; 5; CHAR_BLANK; CHAR_BLANK];
    [1; 0; 9; 2; 14; CHAR_BLANK];
    [1; 0; 9; 2; 10; CHAR_BLANK];
    [1; 0; 9; 4; CHAR_BLANK; CHAR_BLANK];
    [23; 24; 10; 22; 24; CHAR_BLANK];
    [12; 20; 18; 13; 24; 14];
    [23; 15; 24; 25; 21; CHAR_BLANK];
    [8; 8; 8; 8; 8; 8];
    [CHAR_DASH; CHAR_DASH; CHAR_DASH; CHAR_DASH; CHAR_DASH; CHAR_DASH];
    [CHAR_BLANK; CHAR_BLANK; CHAR_BLANK; CHAR_BLANK; CHAR_BLANK; CHAR_BLANK] ].

(** Array reads.  An index outside an array is an out-of-bounds read in the
    sketch; the model reads 0 (all segments off) there. *)
Definition index {A} (l : list A) (i : Z) (d : A) : A :=
  if (0 <=? i) && (i <? Z.of_nat (List.length l)) then nth (Z.to_nat i) l d else d.

Definition chars_at (digit : Z) : Z := index chars digit 0.

Definition messagearray_at (m : Z) (i : nat) : Z :=
  index (index messagearray m []) (Z.of_nat i) 0.

(** ** Strings (Arduino [String], [sprintf]) *)

(** [String::charAt]: the character code, 0 past the end. *)
Definition charAt (s : string) (i : nat) : Z :=
  match String.get i s with
  | Some c => Z.of_nat (nat_of_ascii c)
  | None => 0
  end.

Definition strlen (s : string) : nat := String.length s.

Definition digit_char (d : Z) : ascii := ascii_of_nat (48 + Z.to_nat d).

(** [%02d] for the non-negative values it is applied to here (bytes and
    calendar fields): at least two digits, zero padded. *)
Definition fmt02d (n : Z) : string :=
  if n <? 10 then String "0" (String (digit_char n) EmptyString)
  else if n <? 100 then
    String (digit_char (n / 10)) (String (digit_char (n mod 10)) EmptyString)
  else
    String (digit_char (n / 100))
      (String (digit_char (n / 10 mod 10))
         (String (digit_char (n mod 10)) EmptyString)).

(** [String::toInt] on a string that starts with its digits: the value of
    the leading run of decimal digits. *)
Fixpoint toInt_from (acc : Z) (s : string) : Z :=
  match s with
  | EmptyString => acc
  | String c rest =>
      let d := Z.of_nat (nat_of_ascii c) - 48 in
      if (0 <=? d) && (d <=? 9) then toInt_from (acc * 10 + d) rest else acc
  end.

Definition toInt (s : string) : Z := toInt_from 0 s.

(** ** The time source (ezTime [Timezone tz])

    The fields of "now" that one call reads.  [dateTime] interprets the
    format letters the sketch uses. *)
Record Timezone := mkTz {
  tz_hour : Z;        (* 0-23 *)
  tz_minute : Z;      (* 0-59 *)
  tz_second : Z;      (* 0-59 *)
  tz_month : Z;       (* 1-12 *)
  tz_day : Z;         (* 1-31 *)
  tz_weekday : string (* full English name of the day of the week *)
}.

Definition hour12 (h : Z) : Z := if h mod 12 =? 0 then 12 else h mod 12.

Definition dateTime_letter (tz : Timezone) (c : ascii) : string :=
  if Ascii.eqb c "H"%char then fmt02d (tz_hour tz)
  else if Ascii.eqb c "h"%char then fmt02d (hour12 (tz_hour tz))
  else if Ascii.eqb c "i"%char then fmt02d (tz_minute tz)
  else if Ascii.eqb c "s"%char then fmt02d (tz_second tz)
  else if Ascii.eqb c "m"%char then fmt02d (tz_month tz)
  else if Ascii.eqb c "d"%char then fmt02d (tz_day tz)
  else if Ascii.eqb c "l"%char then tz_weekday tz
  else String c EmptyString.

Fixpoint dateTime (tz : Timezone) (fmt : string) : string :=
  match fmt with
  | EmptyString => EmptyString
  | String c rest => (dateTime_letter tz c ++ dateTime tz rest)%string
  end.

(** ** Switches (struct DebouncedSwitch, debounceSwitch) *)

Record DebouncedSwitch := mkSwitch {
  state : bool;      (* current stable state *)
  changed : bool;    (* true for one call when state toggles *)
  lastRead : bool;   (* last raw sample *)
  lastChange : Z;    (* micros() of last raw transition, uint32_t *)
  changedAt : Z      (* declared by the struct, never assigned *)
}.

(** The default member initialisers of the struct. *)
Definition switch0 : DebouncedSwitch := mkSwitch false false false 0 0.

Definition debounceDelay : Z := 1000. (* us *)

Definition set_changed (b : bool) (sw : DebouncedSwitch) : DebouncedSwitch :=
  mkSwitch (state sw) b (lastRead sw) (lastChange sw) (changedAt sw).

Definition set_raw (raw : bool) (nowMicros : Z) (sw : DebouncedSwitch)
  : DebouncedSwitch :=
  mkSwitch (state sw) (changed sw) raw nowMicros (changedAt sw).

Definition set_stable (raw : bool) (sw : DebouncedSwitch) : DebouncedSwitch :=
  mkSwitch raw true (lastRead sw) (lastChange sw) (changedAt sw).

(** [bool debounceSwitch(DebouncedSwitch &sw, bool raw, uint32_t nowMicros)]:
    the switch is passed by reference, so the model returns the updated
    switch together with the returned flag. *)
Definition debounceSwitch (sw : DebouncedSwitch) (raw : bool) (nowMicros : Z)
  : DebouncedSwitch * bool :=
  let sw1 := set_changed false sw in
  let sw2 := if negb (Bool.eqb raw (lastRead sw1))
             then set_raw raw nowMicros sw1 else sw1 in
  let sw3 := if debounceDelay <? uint32 (nowMicros - lastChange sw2)
             then (if negb (Bool.eqb raw (state sw2))
                   then set_stable raw sw2 else sw2)
             else sw2 in
  (sw3, changed sw3).

(** A sequence of calls on one switch: the switch after each call. *)
Fixpoint debounceRun (sw : DebouncedSwitch) (samples : list (bool * Z))
  : list DebouncedSwitch :=
  match samples with
  | [] => []
  | (raw, nowMicros) :: rest =>
      let sw' := fst (debounceSwitch sw raw nowMicros) in
      sw' :: debounceRun sw' rest
  end.

(** ** The globals of the sketch

    One record field per global variable that the embedded functions read
    or write.  Of the eight switches only [sw_5] and [sw_HOLD] are read by
    those functions.  [pinAM], [serial] and [rmt] stand for the output side
    of [digitalWrite(pinAM, _)], [Serial.println] and the RMT driver. *)

Record Globals := mkGlobals {
  timeBlankingEnabled : bool;  (* enable/disable time blanking *)
  ontime : Z;  (* int, HHMMSS without leading zero *)
  offtime : Z;  (* int, HHMMSS without leading zero *)
  weekendBlankingEnabled : bool;  (* enable/disable weekend blanking *)
  weekendDay1 : string;  (* days to blank display *)
  weekendDay2 : string;  (* days to blank display *)
  toneActive : bool;  (* static bool toneActive *)
  datecounter : Z;  (* int *)
  manualOverride : bool;  (* user override state *)
  overrideForBlank : bool;  (* true if override is forcing blank *)
  touchoverride : bool;  (* short-term override for date display *)
  displayBuffer : list Z;  (* uint8_t displayBuffer[NUM_DIGITS] *)
  currentDisplayMode : DisplayMode;
  messageindex : Z;  (* int *)
  info : EmulationInfo;
  sw_5 : DebouncedSwitch;  (* Snooze / Show Date *)
  sw_HOLD : DebouncedSwitch;  (* Hold (60 Hz presence) *)
  is24HourMode : bool;
  halfSecond : bool;  (* one-loop pulse *)
  topOfSecond : bool;  (* one-loop pulse *)
  timestring : string;
  hr24 : Z;  (* uint8_t, 0-23, 255 means unset *)
  minutes : Z;  (* uint8_t, 0-59 *)
  seconds : Z;  (* uint8_t, 0-59 *)
  datestring : string;
  setstring : string;
  displaystring : string;
  activeTarget : EditTarget;
  inEditMode : bool;
  autoDate : bool;
  alarmState : AlarmState;
  alarmEnabled : bool;
  timeSeconds : Z;  (* uint32_t *)
  alarmSeconds : Z;  (* uint32_t *)
  snoozeTargetS : Z;  (* uint32_t *)
  pinAM : bool;  (* level last written to the AM pin, true = HIGH *)
  serial : list string;  (* lines printed on the serial console, oldest first *)
  rmt : list RmtCmd  (* commands issued to the pulse peripheral, oldest first *)
}.

(** Field updates. *)

Definition set_toneActive (v : bool) (g : Globals) : Globals :=
  mkGlobals (timeBlankingEnabled g) (ontime g) (offtime g)
    (weekendBlankingEnabled g) (weekendDay1 g) (weekendDay2 g) v
    (datecounter g) (manualOverride g) (overrideForBlank g)
    (touchoverride g) (displayBuffer g) (currentDisplayMode g)
    (messageindex g) (info g) (sw_5 g) (sw_HOLD g) (is24HourMode g)
    (halfSecond g) (topOfSecond g) (timestring g) (hr24 g) (minutes g)
    (seconds g) (datestring g) (setstring g) (displaystring g)
    (activeTarget g) (inEditMode g) (autoDate g) (alarmState g)
    (alarmEnabled g) (timeSeconds g) (alarmSeconds g) (snoozeTargetS g)
    (pinAM g) (serial g) (rmt g).

Definition set_datecounter (v : Z) (g : Globals) : Globals :=
  mkGlobals (timeBlankingEnabled g) (ontime g) (offtime g)
    (weekendBlankingEnabled g) (weekendDay1 g) (weekendDay2 g)
    (toneActive g) v (manualOverride g) (overrideForBlank g)
    (touchoverride g) (displayBuffer g) (currentDisplayMode g)
    (messageindex g) (info g) (sw_5 g) (sw_HOLD g) (is24HourMode g)
    (halfSecond g) (topOfSecond g) (timestring g) (hr24 g) (minutes g)
    (seconds g) (datestring g) (setstring g) (displaystring g)
    (activeTarget g) (inEditMode g) (autoDate g) (alarmState g)
    (alarmEnabled g) (timeSeconds g) (alarmSeconds g) (snoozeTargetS g)
    (pinAM g) (serial g) (rmt g).

Definition set_manualOverride (v : bool) (g : Globals) : Globals :=
  mkGlobals (timeBlankingEnabled g) (ontime g) (offtime g)
    (weekendBlankingEnabled g) (weekendDay1 g) (weekendDay2 g)
    (toneActive g) (datecounter g) v (overrideForBlank g) (touchoverride g)
    (displayBuffer g) (currentDisplayMode g) (messageindex g) (info g)
    (sw_5 g) (sw_HOLD g) (is24HourMode g) (halfSecond g) (topOfSecond g)
    (timestring g) (hr24 g) (minutes g) (seconds g) (datestring g)
    (setstring g) (displaystring g) (activeTarget g) (inEditMode g)
    (autoDate g) (alarmState g) (alarmEnabled g) (timeSeconds g)
    (alarmSeconds g) (snoozeTargetS g) (pinAM g) (serial g) (rmt g).

Definition set_touchoverride (v : bool) (g : Globals) : Globals :=
  mkGlobals (timeBlankingEnabled g) (ontime g) (offtime g)
    (weekendBlankingEnabled g) (weekendDay1 g) (weekendDay2 g)
    (toneActive g) (datecounter g) (manualOverride g) (overrideForBlank g) v
    (displayBuffer g) (currentDisplayMode g) (messageindex g) (info g)
    (sw_5 g) (sw_HOLD g) (is24HourMode g) (halfSecond g) (topOfSecond g)
    (timestring g) (hr24 g) (minutes g) (seconds g) (datestring g)
    (setstring g) (displaystring g) (activeTarget g) (inEditMode g)
    (autoDate g) (alarmState g) (alarmEnabled g) (timeSeconds g)
    (alarmSeconds g) (snoozeTargetS g) (pinAM g) (serial g) (rmt g).

Definition set_displayBuffer (v : list Z) (g : Globals) : Globals :=
  mkGlobals (timeBlankingEnabled g) (ontime g) (offtime g)
    (weekendBlankingEnabled g) (weekendDay1 g) (weekendDay2 g)
    (toneActive g) (datecounter g) (manualOverride g) (overrideForBlank g)
    (touchoverride g) v (currentDisplayMode g) (messageindex g) (info g)
    (sw_5 g) (sw_HOLD g) (is24HourMode g) (halfSecond g) (topOfSecond g)
    (timestring g) (hr24 g) (minutes g) (seconds g) (datestring g)
    (setstring g) (displaystring g) (activeTarget g) (inEditMode g)
    (autoDate g) (alarmState g) (alarmEnabled g) (timeSeconds g)
    (alarmSeconds g) (snoozeTargetS g) (pinAM g) (serial g) (rmt g).

Definition set_currentDisplayMode (v : DisplayMode) (g : Globals) : Globals :=
  mkGlobals (timeBlankingEnabled g) (ontime g) (offtime g)
    (weekendBlankingEnabled g) (weekendDay1 g) (weekendDay2 g)
    (toneActive g) (datecounter g) (manualOverride g) (overrideForBlank g)
    (touchoverride g) (displayBuffer g) v (messageindex g) (info g) (sw_5 g)
    (sw_HOLD g) (is24HourMode g) (halfSecond g) (topOfSecond g)
    (timestring g) (hr24 g) (minutes g) (seconds g) (datestring g)
    (setstring g) (displaystring g) (activeTarget g) (inEditMode g)
    (autoDate g) (alarmState g) (alarmEnabled g) (timeSeconds g)
    (alarmSeconds g) (snoozeTargetS g) (pinAM g) (serial g) (rmt g).

Definition set_messageindex (v : Z) (g : Globals) : Globals :=
  mkGlobals (timeBlankingEnabled g) (ontime g) (offtime g)
    (weekendBlankingEnabled g) (weekendDay1 g) (weekendDay2 g)
    (toneActive g) (datecounter g) (manualOverride g) (overrideForBlank g)
    (touchoverride g) (displayBuffer g) (currentDisplayMode g) v (info g)
    (sw_5 g) (sw_HOLD g) (is24HourMode g) (halfSecond g) (topOfSecond g)
    (timestring g) (hr24 g) (minutes g) (seconds g) (datestring g)
    (setstring g) (displaystring g) (activeTarget g) (inEditMode g)
    (autoDate g) (alarmState g) (alarmEnabled g) (timeSeconds g)
    (alarmSeconds g) (snoozeTargetS g) (pinAM g) (serial g) (rmt g).

Definition set_timestring (v : string) (g : Globals) : Globals :=
  mkGlobals (timeBlankingEnabled g) (ontime g) (offtime g)
    (weekendBlankingEnabled g) (weekendDay1 g) (weekendDay2 g)
    (toneActive g) (datecounter g) (manualOverride g) (overrideForBlank g)
    (touchoverride g) (displayBuffer g) (currentDisplayMode g)
    (messageindex g) (info g) (sw_5 g) (sw_HOLD g) (is24HourMode g)
    (halfSecond g) (topOfSecond g) v (hr24 g) (minutes g) (seconds g)
    (datestring g) (setstring g) (displaystring g) (activeTarget g)
    (inEditMode g) (autoDate g) (alarmState g) (alarmEnabled g)
    (timeSeconds g) (alarmSeconds g) (snoozeTargetS g) (pinAM g) (serial g)
    (rmt g).

Definition set_datestring (v : string) (g : Globals) : Globals :=
  mkGlobals (timeBlankingEnabled g) (ontime g) (offtime g)
    (weekendBlankingEnabled g) (weekendDay1 g) (weekendDay2 g)
    (toneActive g) (datecounter g) (manualOverride g) (overrideForBlank g)
    (touchoverride g) (displayBuffer g) (currentDisplayMode g)
    (messageindex g) (info g) (sw_5 g) (sw_HOLD g) (is24HourMode g)
    (halfSecond g) (topOfSecond g) (timestring g) (hr24 g) (minutes g)
    (seconds g) v (setstring g) (displaystring g) (activeTarget g)
    (inEditMode g) (autoDate g) (alarmState g) (alarmEnabled g)
    (timeSeconds g) (alarmSeconds g) (snoozeTargetS g) (pinAM g) (serial g)
    (rmt g).

Definition set_minutes (v : Z) (g : Globals) : Globals :=
  mkGlobals (timeBlankingEnabled g) (ontime g) (offtime g)
    (weekendBlankingEnabled g) (weekendDay1 g) (weekendDay2 g)
    (toneActive g) (datecounter g) (manualOverride g) (overrideForBlank g)
    (touchoverride g) (displayBuffer g) (currentDisplayMode g)
    (messageindex g) (info g) (sw_5 g) (sw_HOLD g) (is24HourMode g)
    (halfSecond g) (topOfSecond g) (timestring g) (hr24 g) v (seconds g)
    (datestring g) (setstring g) (displaystring g) (activeTarget g)
    (inEditMode g) (autoDate g) (alarmState g) (alarmEnabled g)
    (timeSeconds g) (alarmSeconds g) (snoozeTargetS g) (pinAM g) (serial g)
    (rmt g).

Definition set_setstring (v : string) (g : Globals) : Globals :=
  mkGlobals (timeBlankingEnabled g) (ontime g) (offtime g)
    (weekendBlankingEnabled g) (weekendDay1 g) (weekendDay2 g)
    (toneActive g) (datecounter g) (manualOverride g) (overrideForBlank g)
    (touchoverride g) (displayBuffer g) (currentDisplayMode g)
    (messageindex g) (info g) (sw_5 g) (sw_HOLD g) (is24HourMode g)
    (halfSecond g) (topOfSecond g) (timestring g) (hr24 g) (minutes g)
    (seconds g) (datestring g) v (displaystring g) (activeTarget g)
    (inEditMode g) (autoDate g) (alarmState g) (alarmEnabled g)
    (timeSeconds g) (alarmSeconds g) (snoozeTargetS g) (pinAM g) (serial g)
    (rmt g).

Definition set_displaystring (v : string) (g : Globals) : Globals :=
  mkGlobals (timeBlankingEnabled g) (ontime g) (offtime g)
    (weekendBlankingEnabled g) (weekendDay1 g) (weekendDay2 g)
    (toneActive g) (datecounter g) (manualOverride g) (overrideForBlank g)
    (touchoverride g) (displayBuffer g) (currentDisplayMode g)
    (messageindex g) (info g) (sw_5 g) (sw_HOLD g) (is24HourMode g)
    (halfSecond g) (topOfSecond g) (timestring g) (hr24 g) (minutes g)
    (seconds g) (datestring g) (setstring g) v (activeTarget g)
    (inEditMode g) (autoDate g) (alarmState g) (alarmEnabled g)
    (timeSeconds g) (alarmSeconds g) (snoozeTargetS g) (pinAM g) (serial g)
    (rmt g).

Definition set_alarmState (v : AlarmState) (g : Globals) : Globals :=
  mkGlobals (timeBlankingEnabled g) (ontime g) (offtime g)
    (weekendBlankingEnabled g) (weekendDay1 g) (weekendDay2 g)
    (toneActive g) (datecounter g) (manualOverride g) (overrideForBlank g)
    (touchoverride g) (displayBuffer g) (currentDisplayMode g)
    (messageindex g) (info g) (sw_5 g) (sw_HOLD g) (is24HourMode g)
    (halfSecond g) (topOfSecond g) (timestring g) (hr24 g) (minutes g)
    (seconds g) (datestring g) (setstring g) (displaystring g)
    (activeTarget g) (inEditMode g) (autoDate g) v (alarmEnabled g)
    (timeSeconds g) (alarmSeconds g) (snoozeTargetS g) (pinAM g) (serial g)
    (rmt g).

Definition set_snoozeTargetS (v : Z) (g : Globals) : Globals :=
  mkGlobals (timeBlankingEnabled g) (ontime g) (offtime g)
    (weekendBlankingEnabled g) (weekendDay1 g) (weekendDay2 g)
    (toneActive g) (datecounter g) (manualOverride g) (overrideForBlank g)
    (touchoverride g) (displayBuffer g) (currentDisplayMode g)
    (messageindex g) (info g) (sw_5 g) (sw_HOLD g) (is24HourMode g)
    (halfSecond g) (topOfSecond g) (timestring g) (hr24 g) (minutes g)
    (seconds g) (datestring g) (setstring g) (displaystring g)
    (activeTarget g) (inEditMode g) (autoDate g) (alarmState g)
    (alarmEnabled g) (timeSeconds g) (alarmSeconds g) v (pinAM g) (serial g)
    (rmt g).

Definition set_pinAM (v : bool) (g : Globals) : Globals :=
  mkGlobals (timeBlankingEnabled g) (ontime g) (offtime g)
    (weekendBlankingEnabled g) (weekendDay1 g) (weekendDay2 g)
    (toneActive g) (datecounter g) (manualOverride g) (overrideForBlank g)
    (touchoverride g) (displayBuffer g) (currentDisplayMode g)
    (messageindex g) (info g) (sw_5 g) (sw_HOLD g) (is24HourMode g)
    (halfSecond g) (topOfSecond g) (timestring g) (hr24 g) (minutes g)
    (seconds g) (datestring g) (setstring g) (displaystring g)
    (activeTarget g) (inEditMode g) (autoDate g) (alarmState g)
    (alarmEnabled g) (timeSeconds g) (alarmSeconds g) (snoozeTargetS g) v
    (serial g) (rmt g).

Definition set_serial (v : list string) (g : Globals) : Globals :=
  mkGlobals (timeBlankingEnabled g) (ontime g) (offtime g)
    (weekendBlankingEnabled g) (weekendDay1 g) (weekendDay2 g)
    (toneActive g) (datecounter g) (manualOverride g) (overrideForBlank g)
    (touchoverride g) (displayBuffer g) (currentDisplayMode g)
    (messageindex g) (info g) (sw_5 g) (sw_HOLD g) (is24HourMode g)
    (halfSecond g) (topOfSecond g) (timestring g) (hr24 g) (minutes g)
    (seconds g) (datestring g) (setstring g) (displaystring g)
    (activeTarget g) (inEditMode g) (autoDate g) (alarmState g)
    (alarmEnabled g) (timeSeconds g) (alarmSeconds g) (snoozeTargetS g)
    (pinAM g) v (rmt g).

Definition set_rmt (v : list RmtCmd) (g : Globals) : Globals :=
  mkGlobals (timeBlankingEnabled g) (ontime g) (offtime g)
    (weekendBlankingEnabled g) (weekendDay1 g) (weekendDay2 g)
    (toneActive g) (datecounter g) (manualOverride g) (overrideForBlank g)
    (touchoverride g) (displayBuffer g) (currentDisplayMode g)
    (messageindex g) (info g) (sw_5 g) (sw_HOLD g) (is24HourMode g)
    (halfSecond g) (topOfSecond g) (timestring g) (hr24 g) (minutes g)
    (seconds g) (datestring g) (setstring g) (displaystring g)
    (activeTarget g) (inEditMode g) (autoDate g) (alarmState g)
    (alarmEnabled g) (timeSeconds g) (alarmSeconds g) (snoozeTargetS g)
    (pinAM g) (serial g) v.

(** Updates of globals that are assigned only by functions not embedded
    here (switch scanning, the timed dispatcher, set-mode entry and exit). *)

Definition set_overrideForBlank (v : bool) (g : Globals) : Globals :=
  mkGlobals (timeBlankingEnabled g) (ontime g) (offtime g)
    (weekendBlankingEnabled g) (weekendDay1 g) (weekendDay2 g)
    (toneActive g) (datecounter g) (manualOverride g) v (touchoverride g)
    (displayBuffer g) (currentDisplayMode g) (messageindex g) (info g)
    (sw_5 g) (sw_HOLD g) (is24HourMode g) (halfSecond g) (topOfSecond g)
    (timestring g) (hr24 g) (minutes g) (seconds g) (datestring g)
    (setstring g) (displaystring g) (activeTarget g) (inEditMode g)
    (autoDate g) (alarmState g) (alarmEnabled g) (timeSeconds g)
    (alarmSeconds g) (snoozeTargetS g) (pinAM g) (serial g) (rmt g).

Definition set_info (v : EmulationInfo) (g : Globals) : Globals :=
  mkGlobals (timeBlankingEnabled g) (ontime g) (offtime g)
    (weekendBlankingEnabled g) (weekendDay1 g) (weekendDay2 g)
    (toneActive g) (datecounter g) (manualOverride g) (overrideForBlank g)
    (touchoverride g) (displayBuffer g) (currentDisplayMode g)
    (messageindex g) v (sw_5 g) (sw_HOLD g) (is24HourMode g) (halfSecond g)
    (topOfSecond g) (timestring g) (hr24 g) (minutes g) (seconds g)
    (datestring g) (setstring g) (displaystring g) (activeTarget g)
    (inEditMode g) (autoDate g) (alarmState g) (alarmEnabled g)
    (timeSeconds g) (alarmSeconds g) (snoozeTargetS g) (pinAM g) (serial g)
    (rmt g).

Definition set_sw_5 (v : DebouncedSwitch) (g : Globals) : Globals :=
  mkGlobals (timeBlankingEnabled g) (ontime g) (offtime g)
    (weekendBlankingEnabled g) (weekendDay1 g) (weekendDay2 g)
    (toneActive g) (datecounter g) (manualOverride g) (overrideForBlank g)
    (touchoverride g) (displayBuffer g) (currentDisplayMode g)
    (messageindex g) (info g) v (sw_HOLD g) (is24HourMode g) (halfSecond g)
    (topOfSecond g) (timestring g) (hr24 g) (minutes g) (seconds g)
    (datestring g) (setstring g) (displaystring g) (activeTarget g)
    (inEditMode g) (autoDate g) (alarmState g) (alarmEnabled g)
    (timeSeconds g) (alarmSeconds g) (snoozeTargetS g) (pinAM g) (serial g)
    (rmt g).

Definition set_sw_HOLD (v : DebouncedSwitch) (g : Globals) : Globals :=
  mkGlobals (timeBlankingEnabled g) (ontime g) (offtime g)
    (weekendBlankingEnabled g) (weekendDay1 g) (weekendDay2 g)
    (toneActive g) (datecounter g) (manualOverride g) (overrideForBlank g)
    (touchoverride g) (displayBuffer g) (currentDisplayMode g)
    (messageindex g) (info g) (sw_5 g) v (is24HourMode g) (halfSecond g)
    (topOfSecond g) (timestring g) (hr24 g) (minutes g) (seconds g)
    (datestring g) (setstring g) (displaystring g) (activeTarget g)
    (inEditMode g) (autoDate g) (alarmState g) (alarmEnabled g)
    (timeSeconds g) (alarmSeconds g) (snoozeTargetS g) (pinAM g) (serial g)
    (rmt g).

Definition set_halfSecond (v : bool) (g : Globals) : Globals :=
  mkGlobals (timeBlankingEnabled g) (ontime g) (offtime g)
    (weekendBlankingEnabled g) (weekendDay1 g) (weekendDay2 g)
    (toneActive g) (datecounter g) (manualOverride g) (overrideForBlank g)
    (touchoverride g) (displayBuffer g) (currentDisplayMode g)
    (messageindex g) (info g) (sw_5 g) (sw_HOLD g) (is24HourMode g) v
    (topOfSecond g) (timestring g) (hr24 g) (minutes g) (seconds g)
    (datestring g) (setstring g) (displaystring g) (activeTarget g)
    (inEditMode g) (autoDate g) (alarmState g) (alarmEnabled g)
    (timeSeconds g) (alarmSeconds g) (snoozeTargetS g) (pinAM g) (serial g)
    (rmt g).

Definition set_topOfSecond (v : bool) (g : Globals) : Globals :=
  mkGlobals (timeBlankingEnabled g) (ontime g) (offtime g)
    (weekendBlankingEnabled g) (weekendDay1 g) (weekendDay2 g)
    (toneActive g) (datecounter g) (manualOverride g) (overrideForBlank g)
    (touchoverride g) (displayBuffer g) (currentDisplayMode g)
    (messageindex g) (info g) (sw_5 g) (sw_HOLD g) (is24HourMode g)
    (halfSecond g) v (timestring g) (hr24 g) (minutes g) (seconds g)
    (datestring g) (setstring g) (displaystring g) (activeTarget g)
    (inEditMode g) (autoDate g) (alarmState g) (alarmEnabled g)
    (timeSeconds g) (alarmSeconds g) (snoozeTargetS g) (pinAM g) (serial g)
    (rmt g).

Definition set_inEditMode (v : bool) (g : Globals) : Globals :=
  mkGlobals (timeBlankingEnabled g) (ontime g) (offtime g)
    (weekendBlankingEnabled g) (weekendDay1 g) (weekendDay2 g)
    (toneActive g) (datecounter g) (manualOverride g) (overrideForBlank g)
    (touchoverride g) (displayBuffer g) (currentDisplayMode g)
    (messageindex g) (info g) (sw_5 g) (sw_HOLD g) (is24HourMode g)
    (halfSecond g) (topOfSecond g) (timestring g) (hr24 g) (minutes g)
    (seconds g) (datestring g) (setstring g) (displaystring g)
    (activeTarget g) v (autoDate g) (alarmState g) (alarmEnabled g)
    (timeSeconds g) (alarmSeconds g) (snoozeTargetS g) (pinAM g) (serial g)
    (rmt g).

Definition set_autoDate (v : bool) (g : Globals) : Globals :=
  mkGlobals (timeBlankingEnabled g) (ontime g) (offtime g)
    (weekendBlankingEnabled g) (weekendDay1 g) (weekendDay2 g)
    (toneActive g) (datecounter g) (manualOverride g) (overrideForBlank g)
    (touchoverride g) (displayBuffer g) (currentDisplayMode g)
    (messageindex g) (info g) (sw_5 g) (sw_HOLD g) (is24HourMode g)
    (halfSecond g) (topOfSecond g) (timestring g) (hr24 g) (minutes g)
    (seconds g) (datestring g) (setstring g) (displaystring g)
    (activeTarget g) (inEditMode g) v (alarmState g) (alarmEnabled g)
    (timeSeconds g) (alarmSeconds g) (snoozeTargetS g) (pinAM g) (serial g)
    (rmt g).

Definition set_alarmEnabled (v : bool) (g : Globals) : Globals :=
  mkGlobals (timeBlankingEnabled g) (ontime g) (offtime g)
    (weekendBlankingEnabled g) (weekendDay1 g) (weekendDay2 g)
    (toneActive g) (datecounter g) (manualOverride g) (overrideForBlank g)
    (touchoverride g) (displayBuffer g) (currentDisplayMode g)
    (messageindex g) (info g) (sw_5 g) (sw_HOLD g) (is24HourMode g)
    (halfSecond g) (topOfSecond g) (timestring g) (hr24 g) (minutes g)
    (seconds g) (datestring g) (setstring g) (displaystring g)
    (activeTarget g) (inEditMode g) (autoDate g) (alarmState g) v
    (timeSeconds g) (alarmSeconds g) (snoozeTargetS g) (pinAM g) (serial g)
    (rmt g).

Definition set_timeSeconds (v : Z) (g : Globals) : Globals :=
  mkGlobals (timeBlankingEnabled g) (ontime g) (offtime g)
    (weekendBlankingEnabled g) (weekendDay1 g) (weekendDay2 g)
    (toneActive g) (datecounter g) (manualOverride g) (overrideForBlank g)
    (touchoverride g) (displayBuffer g) (currentDisplayMode g)
    (messageindex g) (info g) (sw_5 g) (sw_HOLD g) (is24HourMode g)
    (halfSecond g) (topOfSecond g) (timestring g) (hr24 g) (minutes g)
    (seconds g) (datestring g) (setstring g) (displaystring g)
    (activeTarget g) (inEditMode g) (autoDate g) (alarmState g)
    (alarmEnabled g) v (alarmSeconds g) (snoozeTargetS g) (pinAM g)
    (serial g) (rmt g).

Definition set_alarmSeconds (v : Z) (g : Globals) : Globals :=
  mkGlobals (timeBlankingEnabled g) (ontime g) (offtime g)
    (weekendBlankingEnabled g) (weekendDay1 g) (weekendDay2 g)
    (toneActive g) (datecounter g) (manualOverride g) (overrideForBlank g)
    (touchoverride g) (displayBuffer g) (currentDisplayMode g)
    (messageindex g) (info g) (sw_5 g) (sw_HOLD g) (is24HourMode g)
    (halfSecond g) (topOfSecond g) (timestring g) (hr24 g) (minutes g)
    (seconds g) (datestring g) (setstring g) (displaystring g)
    (activeTarget g) (inEditMode g) (autoDate g) (alarmState g)
    (alarmEnabled g) (timeSeconds g) v (snoozeTargetS g) (pinAM g)
    (serial g) (rmt g).

(** The globals as their initialisers leave them (globals without an
    initialiser are zero-initialised; the AM pin has not been written). *)
Definition boot : Globals :=
  mkGlobals true 73000 180000 true "Saturday" "Sunday"
    false 0 false false false
    [SEGS_OFF; SEGS_OFF; SEGS_OFF; SEGS_OFF; SEGS_OFF; SEGS_OFF]
    MODE_MESSAGE 7 (mkInfo 0 0) switch0 switch0
    false false false
    EmptyString 255 0 0 EmptyString EmptyString EmptyString
    EDIT_TIME false false
    ALARM_IDLE false (uint32 (-1)) 0 0
    false [] [].

(** [Serial.println(msg)]. *)
Definition println (msg : string) (g : Globals) : Globals :=
  set_serial (serial g ++ [msg]) g.

(** ** Tone generation (alarmToneStart, alarmToneStop) *)

Definition alarmToneStart (g : Globals) : Globals :=
  if toneActive g then g
  else
    let g := println "AlarmStart" g in
    let g := set_rmt (rmt g ++ [RmtWriteItems]) g in (* play once *)
    set_toneActive true g.

Definition alarmToneStop (g : Globals) : Globals :=
  if negb (toneActive g) then g
  else
    let g := println "AlarmStop" g in
    let g := set_rmt (rmt g ++ [RmtTxStop]) g in
    set_toneActive false g.

(** Whether the pulse peripheral has a burst under way as far as the
    commands it has received tell: the last one was a play command.  A
    peripheral that has received nothing is idle. *)
Definition rmtPlaying (log : list RmtCmd) : bool :=
  match last log RmtTxStop with
  | RmtWriteItems => true
  | RmtTxStop => false
  end.

(** ** Alarm engine (updateAlarm, requestSnooze, alarmToneDriver) *)

Definition SNOOZE_MIN : Z := 7.
Definition ALARM_MAX_MIN : Z := 60.

Definition updateAlarm (g : Globals) : Globals :=
  match alarmState g with
  | ALARM_IDLE =>
      if alarmEnabled g then
        let g := set_alarmState ALARM_ARMED g in
        println "ALARM_ARMED" g
      else g
  | ALARM_ARMED =>
      if negb (alarmEnabled g) then
        let g := set_alarmState ALARM_IDLE g in
        println "ALARM_IDLE" g
      else if timeSeconds g =? alarmSeconds g then
        let g := set_alarmState ALARM_SOUNDING g in
        println "ALARM_SOUNDING" g
      else g
  | ALARM_SOUNDING =>
      if negb (alarmEnabled g) then
        let g := alarmToneStop g in
        set_alarmState ALARM_IDLE g
      else
        let elapsed := uint32 (timeSeconds g - alarmSeconds g) in
        if ALARM_MAX_MIN * 60 <=? elapsed then
          let g := alarmToneStop g in
          let g := println "Alarm reached max duration" g in
          set_alarmState ALARM_IDLE g
        else g
  | ALARM_SNOOZE =>
      if negb (alarmEnabled g) then set_alarmState ALARM_IDLE g
      else if snoozeTargetS g <=? timeSeconds g then
        set_alarmState ALARM_SOUNDING g
      else g
  end.

Definition requestSnooze (g : Globals) : Globals :=
  let g := println "Snooze" g in
  if AlarmState_eqb (alarmState g) ALARM_SOUNDING then
    let g := set_snoozeTargetS (uint32 (timeSeconds g + SNOOZE_MIN * 60)) g in
    let g := alarmToneStop g in
    set_alarmState ALARM_SNOOZE g
  else g.

Definition alarmToneDriver (g : Globals) : Globals :=
  if negb (AlarmState_eqb (alarmState g) ALARM_SOUNDING) then
    alarmToneStop g (* ensure silence in all other states *)
  else
    (* Only SOUNDING state reaches here *)
    let g := if topOfSecond g then alarmToneStart g else g in
    let g := if halfSecond g then alarmToneStop g else g in
    g.

(** ** Snooze dispatch (DispatchSwitches, the [sw_5] statement)

    C++ evaluates [MODEL_GC_1092D || MODEL_BOGUS] to a [bool], which the
    comparison with [info.model] promotes to the integer 0 or 1. *)

Definition c_or (a b : Z) : bool := negb (a =? 0) || negb (b =? 0).
Definition bool_to_int (b : bool) : Z := if b then 1 else 0.

(** [sw_5.changed && (info.model != (MODEL_GC_1092D || MODEL_BOGUS))] *)
Definition snoozeGuard (g : Globals) : bool :=
  changed (sw_5 g)
  && negb (model (info g) =? bool_to_int (c_or MODEL_GC_1092D MODEL_BOGUS)).

(** The guard the spec takes to be intended, following its words: the switch
    changed and the model is neither MODEL_GC_1092D nor MODEL_BOGUS. *)
Definition snoozeGuard_intended (g : Globals) : bool :=
  changed (sw_5 g)
  && negb (model (info g) =? MODEL_GC_1092D)
  && negb (model (info g) =? MODEL_BOGUS).

(** The [sw_5] statement of DispatchSwitches inside its
    [if (info.emulation == MK5017)] block; the statements before it in that
    block (set-mode entry on [sw_1] and [sw_2]) are not embedded. *)
Definition DispatchSwitches_snooze (g : Globals) : Globals :=
  if emulation (info g) =? MK5017 then
    if snoozeGuard g then requestSnooze g (* state machine will handle transition *)
    else g
  else g.

(** ** Persisted state (loadEEPROM)

    The byte store is the list of its bytes; [EEPROM.read] returns a
    [uint8_t], and 0 for an address past the end. *)

Definition EEPROM_read (eeprom : list Z) (addr : nat) : Z :=
  uint8 (nth addr eeprom 0).

Definition loadEEPROM (eeprom : list Z) : EmulationInfo :=
  let e := EEPROM_read eeprom EEPROM_ADDR_EMULATION in
  let md := EEPROM_read eeprom EEPROM_ADDR_MODEL in
  let emu := defaultEmulation in
  let model := defaultModel in
  let emu := if e <? uint8 EmulationCount then e else emu in
  let model := if md <? uint8 ModelCount then md else model in
  mkInfo emu model.

(** ** Display renderer (updateDisplayValue)

    Each case of the switch assigns all [NUM_DIGITS] entries of
    [displayBuffer], one per loop iteration. *)

Definition digit_of (s : string) (i : nat) : Z := charAt s i - 48. (* - '0' *)

Definition updateDisplayValue (g : Globals) : Globals :=
  match currentDisplayMode g with
  | MODE_TIME =>
      set_displayBuffer
        (map (fun i =>
                let digit := digit_of (timestring g) i in
                if (i =? 0)%nat && (digit =? 0) && negb (is24HourMode g)
                then SEGS_OFF (* blank leading zero in 12hr *)
                else chars_at digit)
             (seq 0 NUM_DIGITS)) g
  | MODE_DATE =>
      if (emulation (info g) =? WIFI) || (model (info g) =? MODEL_GC_1092D)
      then
        let len := strlen (datestring g) in
        set_displayBuffer
          (map (fun i =>
                  if (i <? len)%nat then
                    let digit := digit_of (datestring g) i in
                    if (i =? 0)%nat && (digit =? 0)
                    then SEGS_OFF (* blank leading zero *)
                    else chars_at digit
                  else chars_at CHAR_BLANK)
               (seq 0 NUM_DIGITS)) g
      else
        let g := set_currentDisplayMode MODE_TIME g in
        println "Date display not supported in MK5017 mode for this model, reverting to time display" g
  | MODE_SET =>
      let len := strlen (displaystring g) in
      set_displayBuffer
        (map (fun i =>
                if (i <? len)%nat then
                  let digit := digit_of (displaystring g) i in
                  if (i =? 0)%nat && (digit =? 0)
                     && (negb (is24HourMode g)
                         || EditTarget_eqb (activeTarget g) EDIT_DATE)
                  then SEGS_OFF
                  else chars_at digit
                else chars_at CHAR_BLANK)
             (seq 0 NUM_DIGITS)) g
  | MODE_MESSAGE =>
      set_displayBuffer
        (map (fun i => chars_at (messagearray_at (messageindex g) i))
             (seq 0 NUM_DIGITS)) g
  end.

(** ** Set-mode editing (updateStrings, incrementMinuteOnes)

    [sprintf(buf, "%02d%02d%02d", ...)] into [char buf[7]]: six characters
    when each field is below 100. *)

Definition updateStrings (g : Globals) : Globals :=
  (* Canonical string *)
  let g := set_setstring
             (fmt02d (hr24 g) ++ fmt02d (minutes g) ++ fmt02d (seconds g)) g in
  (* AM/PM pin: LOW from noon on, HIGH before *)
  let g := if negb (model (info g) =? MODEL_GC_1092D)
           then set_pinAM (negb (12 <=? hr24 g)) g else g in
  (* Display string *)
  let hrDisp := uint8 (if is24HourMode g then hr24 g
                       else if hr24 g mod 12 =? 0 then 12 else hr24 g mod 12) in
  let g := set_displaystring
             (fmt02d hrDisp ++ fmt02d (minutes g) ++ fmt02d (seconds g)) g in
  updateDisplayValue g.

Definition incrementMinuteOnes (g : Globals) : Globals :=
  (* Original behavior is only ones digit increment, no rollover *)
  let tens := uint8 (minutes g / 10) in
  let ones := uint8 (minutes g mod 10) in
  let ones := uint8 ((ones + 1) mod 10) in
  let g := set_minutes (uint8 (tens * 10 + ones)) g in
  updateStrings g.

(** ** Display mode sequencer (updateDisplayStateIfNeeded)

    [tz] is the time source as read during this call.  [tz.second()] is a
    [uint8_t], so [%] on it is [mod].  The [int] countdown is only
    decremented when positive, so no wrap-around is written out. *)

Definition updateDisplayStateIfNeeded (tz : Timezone) (g : Globals) : Globals :=
  let currentTime := toInt (dateTime tz "His") in (* HHMMSS as int *)
  let currentDay := dateTime tz "l" in
  (* Update time and date so they are never stale, except hold *)
  let g := if negb (state (sw_HOLD g)) then
             let g := set_timestring
                        (dateTime tz (if is24HourMode g then "His" else "his")) g in
             set_datestring (dateTime tz "md") g
           else g in
  let isWeekend :=
    weekendBlankingEnabled g
    && (String.eqb currentDay (weekendDay1 g)
        || String.eqb currentDay (weekendDay2 g)) in
  let withinDisplayWindow :=
    negb (timeBlankingEnabled g)
    || ((ontime g <=? currentTime) && (currentTime <? offtime g)) in
  if emulation (info g) =? MK5017 then
    if model (info g) =? MODEL_BOGUS then g
    else
      (* blanking is disabled in MK5017: the two flags are overwritten and
         not read again before the return *)
      if (model (info g) =? MODEL_GC_1092D) && negb (inEditMode g) then
        (* 1092D date stuff *)
        let g :=
          if autoDate g || touchoverride g then
            if (tz_second tz mod 10 =? 8) || (tz_second tz mod 10 =? 9) then
              set_currentDisplayMode MODE_DATE g
            else if negb (DisplayMode_eqb (currentDisplayMode g) MODE_TIME)
                    && negb (touchoverride g) then
              set_currentDisplayMode MODE_TIME g
            else g
          else g in
        (* Date display logic *)
        if (1 <? datecounter g) && (negb (autoDate g) || touchoverride g) then
          set_datecounter (datecounter g - 1) g
        else if DisplayMode_eqb (currentDisplayMode g) MODE_DATE
                && (negb (autoDate g) || touchoverride g) then
          let g := set_datecounter 0 g in
          let g := if touchoverride g then set_touchoverride false g else g in
          set_currentDisplayMode MODE_TIME g
        else g
      else g
  else
    (* Date display logic *)
    let g :=
      if (0 <? datecounter g) && DisplayMode_eqb (currentDisplayMode g) MODE_DATE
      then set_datecounter (datecounter g - 1) g
      else if DisplayMode_eqb (currentDisplayMode g) MODE_DATE then
        if datecounter g =? 0 then
          let g := if touchoverride g then set_touchoverride false g else g in
          set_currentDisplayMode MODE_TIME g
        else g
      else g in
    (* Normal blanking logic, then the final redraw *)
    let blanking := fun g : Globals =>
      let g :=
        if negb (DisplayMode_eqb (currentDisplayMode g) MODE_DATE)
           && negb (overrideForBlank g) then
          if isWeekend && negb (overrideForBlank g) then
            let g := set_currentDisplayMode MODE_MESSAGE g in
            let g := set_messageindex 9 g in
            println "Weekend blanking active" g
          else if negb isWeekend && negb withinDisplayWindow
                  && negb (overrideForBlank g) then
            let g := set_currentDisplayMode MODE_MESSAGE g in
            let g := set_messageindex 9 g in
            println "Time-of-day blanking active" g
          else if negb isWeekend && withinDisplayWindow
                  && negb (overrideForBlank g) then
            set_currentDisplayMode MODE_TIME g
          else g
        else g in
      updateDisplayValue g in
    (* Manual override logic *)
    if manualOverride g then
      if DisplayMode_eqb (currentDisplayMode g) MODE_DATE then blanking g
      else if (negb (overrideForBlank g) && withinDisplayWindow)
              || (overrideForBlank g && negb withinDisplayWindow) then
        blanking (set_manualOverride false g)
      else
        let g := set_currentDisplayMode
                   (if overrideForBlank g then MODE_MESSAGE else MODE_TIME) g in
        let g := if overrideForBlank g then set_messageindex 9 g else g in
        updateDisplayValue g (* return *)
    else blanking g.

(** *** The sequencer block by block

    The blocks of [updateDisplayStateIfNeeded], in the order of the source,
    as functions of their own; [updateDisplayStateIfNeeded_blocks] below
    shows that the function is their composition. *)

(** Refresh of [timestring] and [datestring] unless hold is active. *)
Definition refreshStrings (tz : Timezone) (g : Globals) : Globals :=
  if negb (state (sw_HOLD g)) then
    let g := set_timestring
               (dateTime tz (if is24HourMode g then "His" else "his")) g in
    set_datestring (dateTime tz "md") g
  else g.

Definition isWeekendNow (tz : Timezone) (g : Globals) : bool :=
  weekendBlankingEnabled g
  && (String.eqb (dateTime tz "l") (weekendDay1 g)
      || String.eqb (dateTime tz "l") (weekendDay2 g)).

Definition withinDisplayWindowNow (tz : Timezone) (g : Globals) : bool :=
  negb (timeBlankingEnabled g)
  || ((ontime g <=? toInt (dateTime tz "His"))
      && (toInt (dateTime tz "His") <? offtime g)).

(** GC-1092D, first statement: the date for seconds ending in 8 or 9. *)
Definition autoDateStep (tz : Timezone) (g : Globals) : Globals :=
  if autoDate g || touchoverride g then
    if (tz_second tz mod 10 =? 8) || (tz_second tz mod 10 =? 9) then
      set_currentDisplayMode MODE_DATE g
    else if negb (DisplayMode_eqb (currentDisplayMode g) MODE_TIME)
            && negb (touchoverride g) then
      set_currentDisplayMode MODE_TIME g
    else g
  else g.

(** GC-1092D, second statement: countdown and reversion to the time. *)
Definition dateLogic1092D (g : Globals) : Globals :=
  if (1 <? datecounter g) && (negb (autoDate g) || touchoverride g) then
    set_datecounter (datecounter g - 1) g
  else if DisplayMode_eqb (currentDisplayMode g) MODE_DATE
          && (negb (autoDate g) || touchoverride g) then
    let g := set_datecounter 0 g in
    let g := if touchoverride g then set_touchoverride false g else g in
    set_currentDisplayMode MODE_TIME g
  else g.

(** WIFI: countdown and reversion to the time. *)
Definition dateLogicWifi (g : Globals) : Globals :=
  if (0 <? datecounter g) && DisplayMode_eqb (currentDisplayMode g) MODE_DATE
  then set_datecounter (datecounter g - 1) g
  else if DisplayMode_eqb (currentDisplayMode g) MODE_DATE then
    if datecounter g =? 0 then
      let g := if touchoverride g then set_touchoverride false g else g in
      set_currentDisplayMode MODE_TIME g
    else g
  else g.

(** WIFI: normal blanking logic and the final redraw. *)
Definition normalBlanking (isWeekend withinDisplayWindow : bool) (g : Globals)
  : Globals :=
  let g :=
    if negb (DisplayMode_eqb (currentDisplayMode g) MODE_DATE)
       && negb (overrideForBlank g) then
      if isWeekend && negb (overrideForBlank g) then
        let g := set_currentDisplayMode MODE_MESSAGE g in
        let g := set_messageindex 9 g in
        println "Weekend blanking active" g
      else if negb isWeekend && negb withinDisplayWindow
              && negb (overrideForBlank g) then
        let g := set_currentDisplayMode MODE_MESSAGE g in
        let g := set_messageindex 9 g in
        println "Time-of-day blanking active" g
      else if negb isWeekend && withinDisplayWindow
              && negb (overrideForBlank g) then
        set_currentDisplayMode MODE_TIME g
      else g
    else g in
  updateDisplayValue g.

(** WIFI: manual override logic, falling through to the blanking logic
    unless it returns. *)
Definition manualOverrideLogic (isWeekend withinDisplayWindow : bool)
    (g : Globals) : Globals :=
  if manualOverride g then
    if DisplayMode_eqb (currentDisplayMode g) MODE_DATE then
      normalBlanking isWeekend withinDisplayWindow g
    else if (negb (overrideForBlank g) && withinDisplayWindow)
            || (overrideForBlank g && negb withinDisplayWindow) then
      normalBlanking isWeekend withinDisplayWindow (set_manualOverride false g)
    else
      let g := set_currentDisplayMode
                 (if overrideForBlank g then MODE_MESSAGE else MODE_TIME) g in
      let g := if overrideForBlank g then set_messageindex 9 g else g in
      updateDisplayValue g
  else normalBlanking isWeekend withinDisplayWindow g.

(** ** Example states *)

Definition tonePlaying : Globals := set_toneActive true boot.

(** Alarm set for 07:00:00 and enabled; the clock reads [t] seconds since
    midnight. *)
Definition alarmAt7 (st : AlarmState) (t : Z) : Globals :=
  set_alarmState st
    (set_timeSeconds t (set_alarmSeconds 25200 (set_alarmEnabled true boot))).

(** WIFI emulation showing the date with three seconds of countdown left. *)
Definition dateCountdown3 : Globals :=
  set_datecounter 3 (set_currentDisplayMode MODE_DATE boot).

(** A Monday evening, outside the 7:30-18:00 display window of [boot]. *)
Definition mondayEvening : Timezone := mkTz 20 0 0 3 9 "Monday".

(** MK5017 emulation of a GC-1092D showing the time, auto-date on. *)
Definition autoDate1092D : Globals :=
  set_autoDate true
    (set_info (mkInfo MK5017 MODEL_GC_1092D)
       (set_currentDisplayMode MODE_TIME boot)).

(** Readings of the time source at 07:00:ss. *)
Definition sevenOClock (ss : Z) : Timezone := mkTz 7 0 ss 3 9 "Monday".

(** The auto-date rule as the spec words it, with the tens digit of the
    seconds, to be compared with what the sequencer does. *)
Definition autodate_tens_digit_claim : Prop :=
  forall (tz : Timezone) (g : Globals),
    emulation (info g) = MK5017 ->
    model (info g) = MODEL_GC_1092D ->
    autoDate g = true ->
    inEditMode g = false ->
    touchoverride g = false ->
    0 <= tz_second tz <= 59 ->
    (currentDisplayMode (updateDisplayStateIfNeeded tz g) = MODE_DATE <->
     tz_second tz / 10 mod 10 = 8 \/ tz_second tz / 10 mod 10 = 9).

(* ================================================================== *)
(** * Further functions of the sketch

    The functions below use globals that are not in [Globals]; each one is
    given the globals it reads and returns the ones it writes.  Readings of
    the collaborators ([digitalRead], [micros], [millis], the time source)
    are arguments. *)

(** Further field updates. *)

Definition set_hr24 (v : Z) (g : Globals) : Globals :=
  mkGlobals (timeBlankingEnabled g) (ontime g) (offtime g)
    (weekendBlankingEnabled g) (weekendDay1 g) (weekendDay2 g)
    (toneActive g) (datecounter g) (manualOverride g) (overrideForBlank g)
    (touchoverride g) (displayBuffer g) (currentDisplayMode g)
    (messageindex g) (info g) (sw_5 g) (sw_HOLD g) (is24HourMode g)
    (halfSecond g) (topOfSecond g) (timestring g) v (minutes g)
    (seconds g) (datestring g) (setstring g) (displaystring g)
    (activeTarget g) (inEditMode g) (autoDate g) (alarmState g)
    (alarmEnabled g) (timeSeconds g) (alarmSeconds g) (snoozeTargetS g)
    (pinAM g) (serial g) (rmt g).

Definition set_is24HourMode (v : bool) (g : Globals) : Globals :=
  mkGlobals (timeBlankingEnabled g) (ontime g) (offtime g)
    (weekendBlankingEnabled g) (weekendDay1 g) (weekendDay2 g)
    (toneActive g) (datecounter g) (manualOverride g) (overrideForBlank g)
    (touchoverride g) (displayBuffer g) (currentDisplayMode g)
    (messageindex g) (info g) (sw_5 g) (sw_HOLD g) v
    (halfSecond g) (topOfSecond g) (timestring g) (hr24 g) (minutes g)
    (seconds g) (datestring g) (setstring g) (displaystring g)
    (activeTarget g) (inEditMode g) (autoDate g) (alarmState g)
    (alarmEnabled g) (timeSeconds g) (alarmSeconds g) (snoozeTargetS g)
    (pinAM g) (serial g) (rmt g).

Definition set_activeTarget (v : EditTarget) (g : Globals) : Globals :=
  mkGlobals (timeBlankingEnabled g) (ontime g) (offtime g)
    (weekendBlankingEnabled g) (weekendDay1 g) (weekendDay2 g)
    (toneActive g) (datecounter g) (manualOverride g) (overrideForBlank g)
    (touchoverride g) (displayBuffer g) (currentDisplayMode g)
    (messageindex g) (info g) (sw_5 g) (sw_HOLD g) (is24HourMode g)
    (halfSecond g) (topOfSecond g) (timestring g) (hr24 g) (minutes g)
    (seconds g) (datestring g) (setstring g) (displaystring g)
    v (inEditMode g) (autoDate g) (alarmState g)
    (alarmEnabled g) (timeSeconds g) (alarmSeconds g) (snoozeTargetS g)
    (pinAM g) (serial g) (rmt g).

(** [String(n)] and [Serial.println(n)] for an [int]: decimal digits. *)
Definition String_int (n : Z) : string :=
  DecimalString.NilZero.string_of_int (Z.to_int n).

(** ** Persisted state (saveEEPROM)

    [EEPROM.write] stores a byte in the RAM image and ignores an address
    past its end; [EEPROM.commit] copies the image to flash, from where
    [EEPROM.begin] fills it after a restart. *)

Record EEPROMClass := mkEEPROM {
  eeprom_data : list Z;   (* RAM image, what read and write see *)
  eeprom_flash : list Z   (* what survives a restart *)
}.

Fixpoint list_set (l : list Z) (i : nat) (v : Z) : list Z :=
  match l, i with
  | [], _ => []
  | _ :: rest, O => v :: rest
  | x :: rest, S i' => x :: list_set rest i' v
  end.

Definition EEPROM_write (addr : nat) (v : Z) (e : EEPROMClass) : EEPROMClass :=
  mkEEPROM (list_set (eeprom_data e) addr (uint8 v)) (eeprom_flash e).

Definition EEPROM_commit (e : EEPROMClass) : EEPROMClass :=
  mkEEPROM (eeprom_data e) (eeprom_data e).

Definition saveEEPROM (emu : Emulation) (model : Model)
    (e : EEPROMClass) (g : Globals) : EEPROMClass * Globals :=
  let g := println "saveEEPROM" g in
  let eb := uint8 emu in
  let m := uint8 model in
  let e := EEPROM_write EEPROM_ADDR_EMULATION eb e in
  let e := EEPROM_write EEPROM_ADDR_MODEL m e in
  (EEPROM_commit e, g).

(** ** Set-mode editing (incrementHours, incrementMinuteTens, incrementDate) *)

Definition incrementHours (g : Globals) : Globals :=
  let g := set_hr24 (uint8 ((hr24 g + 1) mod 24)) g in
  updateStrings g.

Definition incrementMinuteTens (g : Globals) : Globals :=
  let g := set_minutes (uint8 ((minutes g + 10) mod 60)) g in
  updateStrings g.

(** [String::substring(left, right)] for [left <= right]. *)
Definition substring_lr (s : string) (left right : nat) : string :=
  String.substring left (right - left) s.

(** [incrementDate(bool m)]: [m] selects the day.  The global [dateChanged]
    is returned beside the globals. *)
Definition incrementDate (m : bool) (g : Globals) : Globals * bool :=
  let dateChanged := true in
  let month := toInt (substring_lr (displaystring g) 0 2) in (* MM *)
  let day := toInt (substring_lr (displaystring g) 2 4) in   (* DD *)
  let '(month, day) :=
    if m then
      let day := day + 1 in
      let '(month, day) := if 31 <? day then (month + 1, 1) else (month, day) in
      let month := if 12 <? month then 1 else month in
      (month, day)
    else
      let month := month + 1 in
      let month := if 12 <? month then 1 else month in
      (month, day) in
  (* Update string *)
  (set_displaystring (fmt02d month ++ fmt02d day) g, dateChanged).

(** ** Set-mode editing (handleSetMode, the increment block and the exit test)

    The six switches that [Globals] does not hold. *)
Record Switches := mkSwitches {
  sw_1 : DebouncedSwitch;  (* Time Set *)
  sw_2 : DebouncedSwitch;  (* Alarm Set / Date Set *)
  sw_3 : DebouncedSwitch;  (* Hour / Month Increment *)
  sw_4 : DebouncedSwitch;  (* Minute / Day Increment *)
  sw_6 : DebouncedSwitch;  (* Alarm Enable / Auto Date *)
  sw_7 : DebouncedSwitch   (* 12/24 Hour Mode *)
}.

Definition switches0 : Switches :=
  mkSwitches switch0 switch0 switch0 switch0 switch0 switch0.

(** The block [if (inEditMode && (topOfSecond || halfSecond)) { ... }] of
    handleSetMode: the increments applied on a timing pulse. *)
Definition handleSetMode_increments (sws : Switches) (dateChanged : bool)
    (g : Globals) : Globals * bool :=
  if inEditMode g && (topOfSecond g || halfSecond g) then
    if negb (state (sw_HOLD g)) then
      let '(g, dateChanged) :=
        match activeTarget g with
        | EDIT_TIME | EDIT_ALARM =>
            let g := if changed (sw_7 sws) then
                       let g := set_is24HourMode (state (sw_7 sws)) g in
                       updateStrings g
                     else g in
            let g := if state (sw_3 sws) && state (sw_4 sws)
                     then incrementMinuteTens g
                     else if state (sw_3 sws) then incrementHours g
                     else if state (sw_4 sws) then incrementMinuteOnes g
                     else g in
            (g, dateChanged)
        | EDIT_DATE =>
            let '(g, dateChanged) :=
              if state (sw_3 sws) then incrementDate false g
              else (g, dateChanged) in
            if state (sw_4 sws) then incrementDate true g
            else (g, dateChanged)
        | EDIT_MODEL =>
            let g := if state (sw_3 sws) then
                       let g := set_messageindex
                                  (Z.rem (messageindex g + 1) 4) g in
                       let g := println (String_int (messageindex g)) g in
                       updateDisplayValue g
                     else g in
            (g, dateChanged)
        end in
      (updateDisplayValue g, dateChanged)
    else (g, dateChanged)
  else (g, dateChanged).

(** The value handleSetMode computes for [exitRequested]. *)
Definition exitRequested (sws : Switches) (g : Globals) : bool :=
  match activeTarget g with
  | EDIT_TIME =>
      if state (sw_HOLD g)
      then changed (sw_HOLD g) && negb (state (sw_HOLD g))
      else negb (state (sw_1 sws))
  | EDIT_DATE | EDIT_ALARM => negb (state (sw_2 sws))
  | EDIT_MODEL => changed (sw_1 sws) && state (sw_1 sws)
  end.

(** The fields that select what an edit pulse does. *)
Definition editControls (g : Globals)
  : bool * EditTarget * bool * bool * DebouncedSwitch :=
  (inEditMode g, activeTarget g, topOfSecond g, halfSecond g, sw_HOLD g).

(** ** Switch multiplex reader (CheckSwitches)

    [KA], [KB] and [rawHold] are the levels read from the two sense lines
    and from the 60 Hz pin, [now] is [micros()], and [curdigit] is the scan
    index as this call reads it. *)

Record HoldDetect := mkHold {
  Disable_swHOLD : bool;
  hz_lastRead : bool;       (* static bool lastRead *)
  hz_lastTransition : Z     (* static uint32_t lastTransition *)
}.

Definition debounced (sw : DebouncedSwitch) (raw : bool) (now : Z)
  : DebouncedSwitch := fst (debounceSwitch sw raw now).

Definition CheckSwitches (KA KB rawHold : bool) (now : Z) (curdigit : Z)
    (sws : Switches) (hd : HoldDetect) (g : Globals)
  : Switches * HoldDetect * Globals :=
  let '(sws, g) :=
    if curdigit =? 1 then (* D6 *)
      (mkSwitches (debounced (sw_1 sws) KA now) (debounced (sw_2 sws) KB now)
         (sw_3 sws) (sw_4 sws) (sw_6 sws) (sw_7 sws), g)
    else if curdigit =? 2 then (* D5 *)
      (mkSwitches (sw_1 sws) (sw_2 sws)
         (debounced (sw_3 sws) KA now) (debounced (sw_4 sws) KB now)
         (sw_6 sws) (sw_7 sws), g)
    else if curdigit =? 3 then (* D4 *)
      (mkSwitches (sw_1 sws) (sw_2 sws) (sw_3 sws) (sw_4 sws)
         (debounced (sw_6 sws) KB now) (sw_7 sws),
       set_sw_5 (debounced (sw_5 g) KA now) g)
    else if curdigit =? 4 then (* D3 *)
      (mkSwitches (sw_1 sws) (sw_2 sws) (sw_3 sws) (sw_4 sws) (sw_6 sws)
         (debounced (sw_7 sws) KA now), g)
    else (sws, g) in
  (* 60Hz presence check *)
  let hd := if negb (Bool.eqb rawHold (hz_lastRead hd))
            then mkHold (Disable_swHOLD hd) rawHold now else hd in
  let rawHz := 100000 <? uint32 (now - hz_lastTransition hd) in
  let rawHz := if Disable_swHOLD hd then false else rawHz in
  (sws, hd, set_sw_HOLD (debounced (sw_HOLD g) rawHz now) g).

(** A sequence of calls of CheckSwitches, one record of readings per
    call. *)
Record SwitchReads := mkReads {
  rd_KA : bool; rd_KB : bool; rd_hold : bool; rd_now : Z; rd_curdigit : Z
}.

Fixpoint CheckSwitchesRun (reads : list SwitchReads) (sws : Switches)
    (hd : HoldDetect) (g : Globals) : Switches * HoldDetect * Globals :=
  match reads with
  | [] => (sws, hd, g)
  | r :: rest =>
      let '(sws, hd, g) :=
        CheckSwitches (rd_KA r) (rd_KB r) (rd_hold r) (rd_now r)
          (rd_curdigit r) sws hd g in
      CheckSwitchesRun rest sws hd g
  end.

(** ** Display scan (displayTask, one pass of its loop)

    What is shifted out and latched, and the next scan index.  [curdigit]
    is a [uint8_t]. *)

Definition digits : list Z := [128; 64; 32; 16; 8; 4]. (* Digit pin positions *)
Definition SEG_INVERT : Z := 0.
Definition DIG_INVERT : Z := 0.

Inductive ShiftOut :=
| ShiftMSB (b : Z)   (* shiftOut(pinData, pinClock, MSBFIRST, b) *)
| ShiftLSB (b : Z)   (* shiftOut(pinData, pinClock, LSBFIRST, b) *)
| Latch.             (* pinLatch raised *)

Definition displayTask_pass (buffer : list Z) (curdigit : Z)
  : list ShiftOut * Z :=
  let out :=
    [ ShiftMSB 0; ShiftMSB 0; Latch;
      ShiftLSB (Z.lxor (index digits curdigit 0) DIG_INVERT);
      ShiftMSB (Z.lxor (index buffer curdigit 0) SEG_INVERT); Latch ] in
  let curdigit := uint8 (curdigit + 1) in
  let curdigit := if Z.of_nat NUM_DIGITS <=? curdigit then 0 else curdigit in
  (out, curdigit).

(** Consecutive passes of the task loop, one per timer notification.
    [buffers] gives the display buffer as the main loop has left it at each
    pass; the result is everything shifted out and the scan index left for
    the next pass. *)
Fixpoint displayTask_run (buffers : list (list Z)) (curdigit : Z)
  : list ShiftOut * Z :=
  match buffers with
  | [] => ([], curdigit)
  | buffer :: rest =>
      let '(out, curdigit) := displayTask_pass buffer curdigit in
      let '(outs, curdigit) := displayTask_run rest curdigit in
      ((out ++ outs)%list, curdigit)
  end.

Definition ShiftOut_eq_dec (x y : ShiftOut) : {x = y} + {x <> y}.
Proof. decide equality; apply Z.eq_dec. Defined.

(** ** Touch and gestures (gotTouchEvent, handleTouchEvent) *)

Record Touch := mkTouch {
  threshold_lower : bool;   (* direction last given to the sensor *)
  touchActive : bool;
  lastTouchActive : bool;
  testingLower : bool;
  (* statics of handleTouchEvent, all [unsigned long] or [bool] *)
  lastChangeTime : Z;
  lastD555EndTime : Z;
  prevComputed : bool;
  sw_6_changed_last : bool;
  wasD555 : bool
}.

(** The touch globals and statics as initialised, after [setup] has given
    the sensor its first direction. *)
Definition touch0 : Touch := mkTouch true false true true 0 0 true false false.

(** The interrupt service routine of the capacitive sensor. *)
Definition gotTouchEvent (t : Touch) : Touch :=
  if negb (Bool.eqb (lastTouchActive t) (testingLower t)) then
    (* the threshold direction follows the new [testingLower] *)
    mkTouch (negb (testingLower t)) (negb (touchActive t)) (lastTouchActive t)
      (negb (testingLower t)) (lastChangeTime t) (lastD555EndTime t)
      (prevComputed t) (sw_6_changed_last t) (wasD555 t)
  else t.

Definition GRACE_MS : Z := 50.
Definition RELEASE_COOLDOWN_MS : Z := 500.

(** The four places where handleTouchEvent calls [millis()], in the order
    of the source. *)
Record MillisReads := mkMillis {
  ms_change : Z;    (* lastChangeTime = millis() *)
  ms_grace : Z;     (* millis() - lastChangeTime *)
  ms_cooldown : Z;  (* millis() - lastD555EndTime *)
  ms_release : Z    (* lastD555EndTime = millis() *)
}.

(** The switch heuristic of WIFI emulation: the updated statics and
    [computedTouchActive]. *)
Definition computeTouch (ms : MillisReads) (sws : Switches) (t : Touch)
    (g : Globals) : Touch * bool :=
  (* Start grace timer whenever any switch changes *)
  let '(changed_last, changeTime) :=
    if changed (sw_2 sws) || changed (sw_5 g) || changed (sw_6 sws) then
      (if changed (sw_6 sws) then true else sw_6_changed_last t, ms_change ms)
    else (sw_6_changed_last t, lastChangeTime t) in
  let D_555 := state (sw_2 sws) && state (sw_5 g) in
  let computed :=
    if GRACE_MS <=? uint32 (ms_grace ms - changeTime) then
      let Others := (changed_last && state (sw_6 sws)) || state (sw_5 g) in
      if D_555 then true (* D_555 wins *)
      else if RELEASE_COOLDOWN_MS
              <=? uint32 (ms_cooldown ms - lastD555EndTime t)
           then Others
           else false (* Block Others during cooldown *)
    else false (* Still in grace period *) in
  let '(changed_last, endTime) :=
    if negb D_555 && wasD555 t then (false, ms_release ms)
    else (changed_last, lastD555EndTime t) in
  let prev := if negb (Bool.eqb computed (prevComputed t))
              then computed else prevComputed t in
  (mkTouch (threshold_lower t) (touchActive t) (lastTouchActive t)
     (testingLower t) changeTime endTime prev changed_last D_555,
   computed).

(** The gesture on an edge of the fused touch signal.  [showdatesec] is the
    configured number of seconds for which a touch shows the date. *)
Definition showdatesec : Z := 10.

Definition touchGesture (effectiveTouchActive : bool) (t : Touch)
    (g : Globals) : Touch * Globals :=
  if negb (Bool.eqb (lastTouchActive t) effectiveTouchActive) then
    let t := mkTouch (threshold_lower t) (touchActive t) effectiveTouchActive
               (testingLower t) (lastChangeTime t) (lastD555EndTime t)
               (prevComputed t) (sw_6_changed_last t) (wasD555 t) in
    if effectiveTouchActive then
      if DisplayMode_eqb (currentDisplayMode g) MODE_TIME then
        let g := set_currentDisplayMode MODE_DATE g in
        let g := println "Touch event: Show date" g in
        let g := set_touchoverride true g in
        (t, set_datecounter
              (if emulation (info g) =? WIFI then showdatesec else 5) g)
      else if (emulation (info g) =? WIFI)
              && DisplayMode_eqb (currentDisplayMode g) MODE_DATE then
        let g := set_manualOverride true g in
        let g := set_overrideForBlank true g in
        let g := set_currentDisplayMode MODE_MESSAGE g in
        let g := set_messageindex 9 g in
        (t, println "Touch event: Blank display" g)
      else if (emulation (info g) =? WIFI)
              && DisplayMode_eqb (currentDisplayMode g) MODE_MESSAGE then
        let g := set_manualOverride true g in
        let g := set_overrideForBlank false g in
        let g := set_currentDisplayMode MODE_TIME g in
        (t, println "Touch event: Show time" g)
      else (t, g)
    else (t, g)
  else (t, g).

Definition handleTouchEvent (ms : MillisReads) (sws : Switches) (t : Touch)
    (g : Globals) : Touch * Globals :=
  let '(t, computedTouchActive) :=
    if emulation (info g) =? WIFI then computeTouch ms sws t g
    else (t, false) in
  let effectiveTouchActive := touchActive t || computedTouchActive in
  touchGesture effectiveTouchActive t g.

(** One tap on the capacitive sensor as the main loop sees it: the
    interrupt of the press, a pass of handleTouchEvent, the interrupt of
    the release, and another pass. *)
Definition tap (ms : MillisReads) (sws : Switches) (tg : Touch * Globals)
  : Touch * Globals :=
  let '(t, g) := tg in
  let '(t, g) := handleTouchEvent ms sws (gotTouchEvent t) g in
  handleTouchEvent ms sws (gotTouchEvent t) g.

(** The sensor's variables between taps: released, noted, and waiting for
    the value to fall below the threshold. *)
Definition armed (t : Touch) : Prop :=
  touchActive t = false /\ lastTouchActive t = false /\ testingLower t = true.

(** ** Timing pulses (handleTimedDispatches)

    [secondChanged] is what ezTime's [secondChanged()] returns, [tz] the time
    source as read by this call, [micros_edge] and [micros_now] the two
    readings of [micros()].  The returned flag tells whether
    [keepRTCinsync()] is called; that function belongs to the RTC
    collaborator and its effects are outside this model. *)

Record DateTime := mkDateTime { dt_hour : Z; dt_minute : Z; dt_second : Z }.

Record Timing := mkTiming {
  secondEdgeMicros : Z;   (* uint32_t *)
  halfSecondFired : bool;
  lastMinuteSeen : Z;     (* volatile int *)
  alarmDT : DateTime
}.

Definition HALF_OFFSET_US : Z := 500000.

Definition timing0 : Timing := mkTiming 0 false 0 (mkDateTime 0 0 0).

Definition handleTimedDispatches (secondChanged : bool) (tz : Timezone)
    (micros_edge micros_now : Z) (tm : Timing) (g : Globals)
  : Timing * Globals * bool :=
  let '(tm, g, sync) :=
    if secondChanged then
      let g := updateDisplayStateIfNeeded tz g in
      let g := set_topOfSecond true g in  (* one-loop pulse *)
      (* Keep these up to date for alarm *)
      let g := set_timeSeconds
                 (uint32 (uint32 (uint32 (tz_hour tz) * 3600)
                          + uint32 (uint32 (tz_minute tz) * 60)
                          + uint32 (tz_second tz))) g in
      let g := set_alarmSeconds
                 (uint32 (uint32 (uint32 (dt_hour (alarmDT tm)) * 3600)
                          + uint32 (uint32 (dt_minute (alarmDT tm)) * 60)
                          + uint32 (dt_second (alarmDT tm)))) g in
      (* Minute changed: seconds == 0 indicates top of minute *)
      let '(lastMinute, sync) :=
        if toInt (dateTime tz "s") mod 60 =? 0 then
          let minuteNow := toInt (dateTime tz "i") in
          if negb (minuteNow =? lastMinuteSeen tm)
             && negb (lastMinuteSeen tm =? 0) then
            (minuteNow,
             (minuteNow mod 5 =? 0) && (emulation (info g) =? MK5017))
          else (lastMinuteSeen tm + 1, false)
        else (lastMinuteSeen tm, false) in
      (mkTiming micros_edge false lastMinute (alarmDT tm), g, sync)
    else (tm, g, false) in
  if negb (halfSecondFired tm)
     && (HALF_OFFSET_US <=? uint32 (micros_now - secondEdgeMicros tm)) then
    (mkTiming (secondEdgeMicros tm) true (lastMinuteSeen tm) (alarmDT tm),
     set_halfSecond true g, (* one-loop pulse *)
     sync)
  else (tm, g, sync).

(** The last two statements of [loop()]: both pulses are cleared. *)
Definition loop_clearPulses (g : Globals) : Globals :=
  set_halfSecond false (set_topOfSecond false g).

(** ** Alarm engine in the main loop

    The statements of [loop()] that run the alarm: only in MK5017
    emulation, and not on the GC-1092D. *)
Definition loop_alarm (g : Globals) : Globals :=
  if emulation (info g) =? MK5017 then
    if negb (model (info g) =? MODEL_GC_1092D) then
      alarmToneDriver (updateAlarm g)
    else g
  else g.

(** ** Restart gesture (ResetOn3xTimeSet)

    [now] is [millis()].  The returned flag tells whether [ESP.restart()]
    is reached. *)

Record TimeSetPresses := mkPresses {
  timeSetCount : Z;   (* static int *)
  startTime : Z       (* static unsigned long *)
}.

Definition presses0 : TimeSetPresses := mkPresses 0 0.

Definition ResetOn3xTimeSet (now : Z) (p : TimeSetPresses) (g : Globals)
  : TimeSetPresses * Globals * bool :=
  if timeSetCount p =? 0 then (mkPresses 1 now, g, false)
  else if uint32 (now - startTime p) <=? 5000 then
    let p := mkPresses (timeSetCount p + 1) (startTime p) in
    let g := println ("timeSetCount: " ++ String_int (timeSetCount p)) g in
    if 3 <=? timeSetCount p then
      let g := println "Resetting ESP32..." g in
      (p, g, true)
    else (p, g, false)
  else (mkPresses 1 now, g, false).

(** A sequence of presses at the given times, stopping at a restart. *)
Fixpoint pressTimeSet (times : list Z) (p : TimeSetPresses) (g : Globals)
  : TimeSetPresses * Globals * bool :=
  match times with
  | [] => (p, g, false)
  | now :: rest =>
      let '(p, g, restart) := ResetOn3xTimeSet now p g in
      if restart then (p, g, true) else pressTimeSet rest p g
  end.

(** ** OTA mode (ArduinoOTA_begin, checkOtaTimeout) *)

Inductive WiFiCmd :=
| WiFi_disconnect
| WiFi_mode_AP
| WiFi_softAP (ssid pass : string)
| ArduinoOTA_begin_cmd
| WiFi_softAPdisconnect
| WiFi_mode_STA
| WiFi_begin.

Record Ota := mkOta {
  otaModeActive : bool;
  otaStartTime : Z;      (* unsigned long *)
  wifi : list WiFiCmd    (* calls made on the network stack, oldest first *)
}.

Definition otaTimeout : Z := 600000.
Definition wifiotassid : string := "Heathkit-OTA".
Definition wifiotapass : string := "update123".

Definition ArduinoOTA_begin (now : Z) (o : Ota) (g : Globals) : Ota * Globals :=
  (mkOta true now
     (wifi o ++ [WiFi_disconnect; WiFi_mode_AP;
                 WiFi_softAP wifiotassid wifiotapass; ArduinoOTA_begin_cmd]),
   println "OTA mode activated" g).

Definition checkOtaTimeout (now : Z) (o : Ota) (g : Globals) : Ota * Globals :=
  if otaModeActive o && (otaTimeout <? uint32 (now - otaStartTime o)) then
    let g := println "OTA timeout exceeded. Reverting to STA mode..." g in
    let w := (wifi o ++ [WiFi_softAPdisconnect])%list in
    let w := if emulation (info g) =? WIFI
             then (w ++ [WiFi_mode_STA; WiFi_begin])%list else w in
    (mkOta false (otaStartTime o) w, g)
  else (o, g).

(* ================================================================== *)
(** * Properties *)

(** Closed comparisons between numerals, after evaluation. *)
Ltac by_eval := vm_compute; intuition (first [reflexivity | discriminate]).

(** ** Machine integers *)

Lemma uint32_range (z : Z) : 0 <= uint32 z < 2 ^ 32.
Proof. unfold uint32. apply Z.mod_pos_bound. lia. Qed.

Lemma uint32_small (z : Z) : 0 <= z < 2 ^ 32 -> uint32 z = z.
Proof. intros H. unfold uint32. apply Z.mod_small. exact H. Qed.

Lemma uint8_small (z : Z) : 0 <= z < 2 ^ 8 -> uint8 z = z.
Proof. intros H. unfold uint8. apply Z.mod_small. exact H. Qed.

(** The unsigned difference of two wrapped time stamps is the time that
    really passed between them, as long as that is less than one full turn
    of the counter ([micros()] wraps every 2^32 microseconds). *)
Lemma uint32_elapsed (t0 t : Z) :
  0 <= t0 <= t -> t - t0 < 2 ^ 32 ->
  uint32 (uint32 t - uint32 t0) = t - t0.
Proof.
  intros H0 H1. unfold uint32.
  rewrite <- Zminus_mod. apply Z.mod_small. lia.
Qed.

(** ** Tone generation *)

Lemma alarmToneStart_active (g : Globals) : toneActive (alarmToneStart g) = true.
Proof. unfold alarmToneStart. destruct (toneActive g) eqn:E; [exact E | reflexivity]. Qed.

Lemma alarmToneStop_inactive (g : Globals) : toneActive (alarmToneStop g) = false.
Proof. unfold alarmToneStop. destruct (toneActive g) eqn:E; [reflexivity | exact E]. Qed.

Lemma alarmToneStart_noop (g : Globals) : toneActive g = true -> alarmToneStart g = g.
Proof. intros E. unfold alarmToneStart. rewrite E. reflexivity. Qed.

Lemma alarmToneStop_noop (g : Globals) : toneActive g = false -> alarmToneStop g = g.
Proof. intros E. unfold alarmToneStop. rewrite E. reflexivity. Qed.

(** Stopping the tone leaves the alarm variables alone. *)
Lemma alarmToneStop_alarm (g : Globals) :
  alarmState (alarmToneStop g) = alarmState g
  /\ snoozeTargetS (alarmToneStop g) = snoozeTargetS g
  /\ timeSeconds (alarmToneStop g) = timeSeconds g.
Proof. unfold alarmToneStop. destruct (toneActive g); repeat split. Qed.

Lemma alarmToneStart_alarm (g : Globals) :
  alarmState (alarmToneStart g) = alarmState g.
Proof. unfold alarmToneStart. destruct (toneActive g); reflexivity. Qed.

(** What stopping does to the pulse peripheral: one stop command when the
    tone was playing, nothing otherwise. *)
Lemma alarmToneStop_rmt (g : Globals) :
  rmt (alarmToneStop g)
  = if toneActive g then (rmt g ++ [RmtTxStop])%list else rmt g.
Proof. unfold alarmToneStop. destruct (toneActive g); reflexivity. Qed.

Lemma alarmToneStart_rmt (g : Globals) :
  rmt (alarmToneStart g)
  = if toneActive g then rmt g else (rmt g ++ [RmtWriteItems])%list.
Proof. unfold alarmToneStart. destruct (toneActive g); reflexivity. Qed.

(** C10 -- tone start/stop idempotence: [alarmToneStart] changes nothing
    (globals, serial log and pulse peripheral alike) when the tone is already
    active, [alarmToneStop] changes nothing when it is already inactive;
    calling either twice in a row equals calling it once; and after a call
    [toneActive] is the requested state. *)
Theorem tone_start_stop_idempotent (g : Globals) :
  (toneActive g = true -> alarmToneStart g = g)
  /\ (toneActive g = false -> alarmToneStop g = g)
  /\ alarmToneStart (alarmToneStart g) = alarmToneStart g
  /\ alarmToneStop (alarmToneStop g) = alarmToneStop g
  /\ toneActive (alarmToneStart g) = true
  /\ toneActive (alarmToneStop g) = false.
Proof.
  repeat split.
  - apply alarmToneStart_noop.
  - apply alarmToneStop_noop.
  - apply alarmToneStart_noop, alarmToneStart_active.
  - apply alarmToneStop_noop, alarmToneStop_inactive.
  - apply alarmToneStart_active.
  - apply alarmToneStop_inactive.
Qed.

Lemma tone_start_stop_idempotent_witness :
  alarmToneStart tonePlaying = tonePlaying
  /\ rmt (alarmToneStart tonePlaying) = []
  /\ alarmToneStop boot = boot
  /\ rmt (alarmToneStart boot) = [RmtWriteItems]
  /\ alarmToneStart (alarmToneStart boot) = alarmToneStart boot.
Proof.
  destruct (tone_start_stop_idempotent tonePlaying) as [Hstart _].
  destruct (tone_start_stop_idempotent boot) as [_ [Hstop [Htwice _]]].
  split; [apply Hstart; reflexivity |].
  split; [reflexivity |].
  split; [apply Hstop; reflexivity |].
  split; [reflexivity | exact Htwice].
Defined.

(** ** Alarm engine *)

Lemma AlarmState_eqb_eq (a b : AlarmState) : AlarmState_eqb a b = true <-> a = b.
Proof. destruct a, b; simpl; split; intros H; try reflexivity; discriminate. Qed.

Lemma AlarmState_eqb_neq (a b : AlarmState) : AlarmState_eqb a b = false <-> a <> b.
Proof.
  destruct a, b; simpl; split; intros H; try reflexivity; try discriminate;
    exfalso; apply H; reflexivity.
Qed.

Lemma alarmToneStart_pulses (g : Globals) :
  halfSecond (alarmToneStart g) = halfSecond g.
Proof. unfold alarmToneStart. destruct (toneActive g); reflexivity. Qed.

(** The tone driver never changes the alarm state. *)
Lemma alarmToneDriver_alarmState (g : Globals) :
  alarmState (alarmToneDriver g) = alarmState g.
Proof.
  unfold alarmToneDriver.
  destruct (AlarmState_eqb (alarmState g) ALARM_SOUNDING); simpl.
  - destruct (topOfSecond g).
    + rewrite alarmToneStart_pulses. destruct (halfSecond g).
      * rewrite (proj1 (alarmToneStop_alarm _)). apply alarmToneStart_alarm.
      * apply alarmToneStart_alarm.
    + destruct (halfSecond g); [apply alarmToneStop_alarm | reflexivity].
  - apply alarmToneStop_alarm.
Qed.

Lemma alarmToneDriver_sounding (g : Globals) :
  alarmState g = ALARM_SOUNDING ->
  alarmToneDriver g
  = (let g1 := if topOfSecond g then alarmToneStart g else g in
     if halfSecond g1 then alarmToneStop g1 else g1).
Proof.
  intros H. unfold alarmToneDriver. rewrite H. reflexivity.
Qed.

Lemma rmtPlaying_snoc (log : list RmtCmd) (c : RmtCmd) :
  rmtPlaying (log ++ [c])
  = match c with RmtWriteItems => true | RmtTxStop => false end.
Proof. unfold rmtPlaying. rewrite last_last. reflexivity. Qed.

(** The flag [toneActive] mirrors the peripheral: where it does before a
    call of [alarmToneStart] or [alarmToneStop], it does after it. *)
Lemma alarmToneStart_mirrors (g : Globals) :
  toneActive g = rmtPlaying (rmt g) ->
  toneActive (alarmToneStart g) = rmtPlaying (rmt (alarmToneStart g)).
Proof.
  intros H. rewrite alarmToneStart_active, alarmToneStart_rmt.
  destruct (toneActive g); [exact H | rewrite rmtPlaying_snoc; reflexivity].
Qed.

Lemma alarmToneStop_mirrors (g : Globals) :
  toneActive g = rmtPlaying (rmt g) ->
  toneActive (alarmToneStop g) = rmtPlaying (rmt (alarmToneStop g)).
Proof.
  intros H. rewrite alarmToneStop_inactive, alarmToneStop_rmt.
  destruct (toneActive g); [rewrite rmtPlaying_snoc; reflexivity | exact H].
Qed.

Lemma alarmToneDriver_other (g : Globals) :
  alarmState g <> ALARM_SOUNDING -> alarmToneDriver g = alarmToneStop g.
Proof.
  intros Hne. unfold alarmToneDriver.
  apply AlarmState_eqb_neq in Hne. rewrite Hne. reflexivity.
Qed.

Lemma alarmToneDriver_mirrors (g : Globals) :
  toneActive g = rmtPlaying (rmt g) ->
  toneActive (alarmToneDriver g) = rmtPlaying (rmt (alarmToneDriver g)).
Proof.
  intros H. unfold alarmToneDriver.
  destruct (negb (AlarmState_eqb (alarmState g) ALARM_SOUNDING)).
  - apply alarmToneStop_mirrors, H.
  - cbv zeta.
    assert (H1 : toneActive (if topOfSecond g then alarmToneStart g else g)
                 = rmtPlaying
                     (rmt (if topOfSecond g then alarmToneStart g else g))).
    { destruct (topOfSecond g); [apply alarmToneStart_mirrors, H | exact H]. }
    destruct (halfSecond (if topOfSecond g then alarmToneStart g else g));
      [apply alarmToneStop_mirrors, H1 | exact H1].
Qed.

(** C9 -- tone silence outside SOUNDING: after every run of
    [alarmToneDriver] the tone is active only if [alarmState] is
    ALARM_SOUNDING.  In every other state the driver leaves [toneActive]
    false and cuts the burst: the pulse peripheral receives one stop command
    if a burst was marked as playing, and nothing otherwise.  While SOUNDING
    the top-of-second pulse starts a burst (one play command if none was
    playing) and the half-second pulse stops it (one stop command if one was
    playing or has just been started); with neither pulse the driver changes
    nothing.  The flag keeps mirroring the peripheral, so that outside
    SOUNDING the last command the peripheral has received is never a play
    command: no burst is left running. *)
Theorem tone_silent_outside_sounding (g : Globals) :
  alarmState (alarmToneDriver g) = alarmState g
  /\ (toneActive (alarmToneDriver g) = true ->
      alarmState (alarmToneDriver g) = ALARM_SOUNDING)
  /\ (alarmState g <> ALARM_SOUNDING ->
      toneActive (alarmToneDriver g) = false
      /\ rmt (alarmToneDriver g)
         = if toneActive g then (rmt g ++ [RmtTxStop])%list else rmt g)
  /\ (alarmState g = ALARM_SOUNDING -> topOfSecond g = true ->
      halfSecond g = false ->
      toneActive (alarmToneDriver g) = true
      /\ rmt (alarmToneDriver g)
         = if toneActive g then rmt g else (rmt g ++ [RmtWriteItems])%list)
  /\ (alarmState g = ALARM_SOUNDING -> halfSecond g = true ->
      toneActive (alarmToneDriver g) = false)
  /\ (alarmState g = ALARM_SOUNDING -> topOfSecond g = false ->
      halfSecond g = true ->
      rmt (alarmToneDriver g)
      = if toneActive g then (rmt g ++ [RmtTxStop])%list else rmt g)
  /\ (alarmState g = ALARM_SOUNDING -> topOfSecond g = true ->
      halfSecond g = true ->
      rmt (alarmToneDriver g)
      = if toneActive g then (rmt g ++ [RmtTxStop])%list
        else (rmt g ++ [RmtWriteItems; RmtTxStop])%list)
  /\ (alarmState g = ALARM_SOUNDING -> topOfSecond g = false ->
      halfSecond g = false -> alarmToneDriver g = g)
  /\ (toneActive g = rmtPlaying (rmt g) ->
      toneActive (alarmToneDriver g) = rmtPlaying (rmt (alarmToneDriver g))
      /\ (alarmState g <> ALARM_SOUNDING ->
          rmtPlaying (rmt (alarmToneDriver g)) = false)).
Proof.
  assert (Hother : alarmState g <> ALARM_SOUNDING ->
                   toneActive (alarmToneDriver g) = false).
  { intros Hne. rewrite (alarmToneDriver_other g Hne).
    apply alarmToneStop_inactive. }
  split; [apply alarmToneDriver_alarmState |].
  split.
  { intros Hact. rewrite alarmToneDriver_alarmState.
    destruct (alarmState g) eqn:E; try reflexivity;
      rewrite Hother in Hact; discriminate. }
  split.
  { intros Hne. split; [apply Hother, Hne |].
    rewrite (alarmToneDriver_other g Hne). apply alarmToneStop_rmt. }
  split.
  { intros Hs Ht Hh. rewrite (alarmToneDriver_sounding g Hs). simpl.
    rewrite Ht, alarmToneStart_pulses, Hh.
    split; [apply alarmToneStart_active | apply alarmToneStart_rmt]. }
  split.
  { intros Hs Hh. rewrite (alarmToneDriver_sounding g Hs). simpl.
    destruct (topOfSecond g).
    - rewrite alarmToneStart_pulses, Hh. apply alarmToneStop_inactive.
    - rewrite Hh. apply alarmToneStop_inactive. }
  split.
  { intros Hs Ht Hh. rewrite (alarmToneDriver_sounding g Hs). simpl.
    rewrite Ht, Hh. apply alarmToneStop_rmt. }
  split.
  { intros Hs Ht Hh. rewrite (alarmToneDriver_sounding g Hs). simpl.
    rewrite Ht, alarmToneStart_pulses, Hh.
    rewrite alarmToneStop_rmt, alarmToneStart_active, alarmToneStart_rmt.
    destruct (toneActive g); [reflexivity |].
    rewrite <- app_assoc. reflexivity. }
  split.
  { intros Hs Ht Hh. rewrite (alarmToneDriver_sounding g Hs). simpl.
    rewrite Ht, Hh. reflexivity. }
  intros Hm. pose proof (alarmToneDriver_mirrors g Hm) as Hm'.
  split; [exact Hm' |].
  intros Hne. rewrite <- Hm'. apply Hother, Hne.
Qed.

Lemma tone_silent_outside_sounding_witness :
  (toneActive (alarmToneDriver (set_alarmState ALARM_SNOOZE tonePlaying)) = false
   /\ rmt (alarmToneDriver (set_alarmState ALARM_SNOOZE tonePlaying))
      = [RmtTxStop])
  /\ toneActive (alarmToneDriver
                   (set_topOfSecond true (alarmAt7 ALARM_SOUNDING 25200))) = true
  /\ toneActive (alarmToneDriver
                   (set_halfSecond true
                      (set_toneActive true (alarmAt7 ALARM_SOUNDING 25200))))
     = false
  /\ rmtPlaying (rmt (alarmToneDriver
                        (set_alarmState ALARM_SNOOZE (alarmToneStart boot))))
     = false.
Proof.
  split; [| split; [| split]].
  - destruct (tone_silent_outside_sounding
                (set_alarmState ALARM_SNOOZE tonePlaying))
      as (_ & _ & Hother & _).
    apply Hother. simpl. discriminate.
  - destruct (tone_silent_outside_sounding
                (set_topOfSecond true (alarmAt7 ALARM_SOUNDING 25200)))
      as (_ & _ & _ & Htop & _).
    apply Htop; reflexivity.
  - destruct (tone_silent_outside_sounding
                (set_halfSecond true
                   (set_toneActive true (alarmAt7 ALARM_SOUNDING 25200))))
      as (_ & _ & _ & _ & Hhalf & _).
    apply Hhalf; reflexivity.
  - destruct (tone_silent_outside_sounding
                (set_alarmState ALARM_SNOOZE (alarmToneStart boot)))
      as (_ & _ & _ & _ & _ & _ & _ & _ & Hmirror).
    destruct Hmirror as (_ & Hquiet); [reflexivity |].
    apply Hquiet. simpl. discriminate.
Defined.

(** In plain terms: when the clock reading is at least 3600 s past the alarm
    reading (both being [uint32_t] values), the wrapped difference that
    [updateAlarm] computes is that plain difference. *)
Lemma elapsed_no_wrap (t a : Z) :
  0 <= a -> a <= t -> t < 2 ^ 32 -> uint32 (t - a) = t - a.
Proof. intros Ha Hat Ht. apply uint32_small. lia. Qed.

(** C1 -- SOUNDING phase of the alarm engine.  ARMED, enabled and
    [timeSeconds = alarmSeconds]: the same call of [updateAlarm] moves to
    SOUNDING.  SOUNDING, still enabled and 3600 s or more elapsed since the
    alarm time: the call moves to IDLE and the tone is off, with a stop
    command sent to the peripheral if it was playing.  The elapsed time is
    stated twice, as the unsigned 32-bit difference the code computes and as
    the plain difference of the two readings. *)
Theorem alarm_sounding_lifecycle (g : Globals) :
  (alarmState g = ALARM_ARMED -> alarmEnabled g = true ->
   timeSeconds g = alarmSeconds g ->
   alarmState (updateAlarm g) = ALARM_SOUNDING)
  /\ (alarmState g = ALARM_SOUNDING -> alarmEnabled g = true ->
      3600 <= uint32 (timeSeconds g - alarmSeconds g) ->
      alarmState (updateAlarm g) = ALARM_IDLE
      /\ toneActive (updateAlarm g) = false
      /\ rmt (updateAlarm g)
         = if toneActive g then (rmt g ++ [RmtTxStop])%list else rmt g)
  /\ (alarmState g = ALARM_SOUNDING -> alarmEnabled g = true ->
      0 <= alarmSeconds g -> timeSeconds g < 2 ^ 32 ->
      alarmSeconds g + 3600 <= timeSeconds g ->
      alarmState (updateAlarm g) = ALARM_IDLE
      /\ toneActive (updateAlarm g) = false).
Proof.
  assert (Hmax : alarmState g = ALARM_SOUNDING -> alarmEnabled g = true ->
                 3600 <= uint32 (timeSeconds g - alarmSeconds g) ->
                 alarmState (updateAlarm g) = ALARM_IDLE
                 /\ toneActive (updateAlarm g) = false
                 /\ rmt (updateAlarm g)
                    = if toneActive g then (rmt g ++ [RmtTxStop])%list
                      else rmt g).
  { intros Hs He Hel. unfold updateAlarm. rewrite Hs, He. simpl negb. cbv iota.
    change (ALARM_MAX_MIN * 60) with 3600.
    apply Z.leb_le in Hel. rewrite Hel. cbv zeta.
    split; [reflexivity |]. split.
    - simpl. apply alarmToneStop_inactive.
    - simpl. apply alarmToneStop_rmt. }
  split.
  { intros Hs He Ht. unfold updateAlarm. rewrite Hs, He. simpl negb. cbv iota.
    apply Z.eqb_eq in Ht. rewrite Ht. reflexivity. }
  split; [exact Hmax |].
  intros Hs He Ha Ht Hel.
  destruct (Hmax Hs He) as (H1 & H2 & _).
  { rewrite elapsed_no_wrap; lia. }
  split; assumption.
Qed.

Lemma alarm_sounding_lifecycle_witness :
  alarmState (updateAlarm (alarmAt7 ALARM_ARMED 25200)) = ALARM_SOUNDING
  /\ alarmState (updateAlarm (alarmAt7 ALARM_SOUNDING 28800)) = ALARM_IDLE
  /\ toneActive (updateAlarm (set_toneActive true (alarmAt7 ALARM_SOUNDING 28800)))
     = false.
Proof.
  split; [| split].
  - destruct (alarm_sounding_lifecycle (alarmAt7 ALARM_ARMED 25200))
      as (Harmed & _).
    apply Harmed; reflexivity.
  - destruct (alarm_sounding_lifecycle (alarmAt7 ALARM_SOUNDING 28800))
      as (_ & Hmax & _).
    apply Hmax; [reflexivity | reflexivity | by_eval].
  - destruct (alarm_sounding_lifecycle
                (set_toneActive true (alarmAt7 ALARM_SOUNDING 28800)))
      as (_ & _ & Hplain).
    apply Hplain; [reflexivity | reflexivity | | | ]; by_eval.
Defined.

(** Below the limit a running alarm keeps sounding. *)
Lemma updateAlarm_keeps_sounding (g : Globals) :
  alarmState g = ALARM_SOUNDING -> alarmEnabled g = true ->
  uint32 (timeSeconds g - alarmSeconds g) < 3600 ->
  updateAlarm g = g.
Proof.
  intros Hs He Hel. unfold updateAlarm. rewrite Hs, He. simpl negb. cbv iota.
  change (ALARM_MAX_MIN * 60) with 3600.
  apply Z.leb_gt in Hel. rewrite Hel. reflexivity.
Qed.

(** The elapsed time is an unsigned difference of two times of day, so it
    is large as soon as the clock passes midnight: an alarm set for 23:59:00
    stops sounding at 00:00:00. *)
Lemma updateAlarm_past_midnight :
  alarmState
    (updateAlarm
       (set_alarmSeconds 86340 (alarmAt7 ALARM_SOUNDING 0))) = ALARM_IDLE.
Proof. reflexivity. Qed.

(** C2 -- snooze semantics.  While SOUNDING [requestSnooze] sets
    [snoozeTargetS] to [timeSeconds + 420] in 32-bit unsigned arithmetic;
    with the time of day [timeSeconds = T] (a reading below 86400) that is
    [T + 420], the tone is turned off (one stop command if it was playing)
    and the state moves to SNOOZE.  In IDLE, ARMED and SNOOZE the call
    only prints its serial line: alarm state, wake target, tone flag and
    pulse peripheral are unchanged. *)
Theorem snooze_semantics (g : Globals) :
  (alarmState g = ALARM_SOUNDING ->
   snoozeTargetS (requestSnooze g) = uint32 (timeSeconds g + 420))
  /\ (alarmState g = ALARM_SOUNDING -> 0 <= timeSeconds g < 86400 ->
      snoozeTargetS (requestSnooze g) = timeSeconds g + 420
      /\ toneActive (requestSnooze g) = false
      /\ rmt (requestSnooze g)
         = (if toneActive g then (rmt g ++ [RmtTxStop])%list else rmt g)
      /\ alarmState (requestSnooze g) = ALARM_SNOOZE)
  /\ (alarmState g = ALARM_IDLE \/ alarmState g = ALARM_ARMED
      \/ alarmState g = ALARM_SNOOZE ->
      requestSnooze g = println "Snooze" g
      /\ alarmState (requestSnooze g) = alarmState g
      /\ snoozeTargetS (requestSnooze g) = snoozeTargetS g
      /\ toneActive (requestSnooze g) = toneActive g
      /\ rmt (requestSnooze g) = rmt g).
Proof.
  assert (Hsnooze : alarmState g = ALARM_SOUNDING ->
                    requestSnooze g
                    = set_alarmState ALARM_SNOOZE
                        (alarmToneStop
                           (set_snoozeTargetS (uint32 (timeSeconds g + 420))
                              (println "Snooze" g)))).
  { intros Hs. unfold requestSnooze.
    change (alarmState (println "Snooze" g)) with (alarmState g).
    rewrite Hs. reflexivity. }
  split; [| split].
  - intros Hs. rewrite (Hsnooze Hs). simpl.
    rewrite (proj1 (proj2 (alarmToneStop_alarm _))). reflexivity.
  - intros Hs HT. rewrite (Hsnooze Hs).
    rewrite (uint32_small (timeSeconds g + 420)) by lia.
    split; [| split; [| split]].
    + simpl. rewrite (proj1 (proj2 (alarmToneStop_alarm _))). reflexivity.
    + simpl. apply alarmToneStop_inactive.
    + simpl. rewrite alarmToneStop_rmt. reflexivity.
    + reflexivity.
  - intros Hst.
    assert (E : requestSnooze g = println "Snooze" g).
    { unfold requestSnooze.
      change (alarmState (println "Snooze" g)) with (alarmState g).
      destruct Hst as [H | [H | H]]; rewrite H; reflexivity. }
    rewrite E. repeat split.
Qed.

Lemma snooze_semantics_witness :
  snoozeTargetS (requestSnooze (alarmAt7 ALARM_SOUNDING 25260)) = 25680
  /\ alarmState (requestSnooze (alarmAt7 ALARM_SOUNDING 25260)) = ALARM_SNOOZE
  /\ alarmState (requestSnooze (alarmAt7 ALARM_ARMED 25260)) = ALARM_ARMED.
Proof.
  destruct (snooze_semantics (alarmAt7 ALARM_SOUNDING 25260)) as (_ & Hs & _).
  destruct Hs as (Ht & _ & _ & Hst);
    [reflexivity | by_eval |].
  destruct (snooze_semantics (alarmAt7 ALARM_ARMED 25260)) as (_ & _ & Hno).
  destruct Hno as (_ & Harmed & _); [right; left; reflexivity |].
  split; [exact Ht | split; [exact Hst | exact Harmed]].
Defined.

(** Outside the range of a time of day the 32-bit addition wraps: from the
    initial value of [timeSeconds] (all ones) the target is 419. *)
Lemma requestSnooze_wraps :
  snoozeTargetS (requestSnooze (set_alarmState ALARM_SOUNDING boot)) = 419.
Proof. reflexivity. Qed.

(** ** Debounce engine *)

Section Debounce.

Variable sw : DebouncedSwitch.
Variable raw : bool.
Variable nowMicros : Z.

Let sw' := fst (debounceSwitch sw raw nowMicros).

(** The returned flag is the [changed] member after the call. *)
Lemma debounceSwitch_returns :
  snd (debounceSwitch sw raw nowMicros) = changed sw'.
Proof. reflexivity. Qed.

(** The time stamp of the last raw transition after the call. *)
Lemma debounceSwitch_lastChange :
  lastChange sw'
  = if Bool.eqb raw (lastRead sw) then lastChange sw else nowMicros.
Proof.
  unfold sw', debounceSwitch. simpl.
  destruct (Bool.eqb raw (lastRead sw)); simpl;
    repeat match goal with |- context [if ?c then _ else _] => destruct c end;
    reflexivity.
Qed.

Lemma debounceSwitch_lastRead : lastRead sw' = raw.
Proof.
  unfold sw', debounceSwitch. simpl.
  destruct (Bool.eqb raw (lastRead sw)) eqn:E; simpl;
    repeat match goal with |- context [if ?c then _ else _] => destruct c end;
    simpl; try reflexivity; symmetry; apply Bool.eqb_prop; exact E.
Qed.

(** The whole call, by cases on whether the quiet interval has passed
    since the last raw transition and whether the sample differs from
    the stable state. *)
Lemma debounceSwitch_cases :
  (state sw' = raw /\ changed sw' = true
   /\ debounceDelay < uint32 (nowMicros - lastChange sw')
   /\ raw <> state sw)
  \/ (state sw' = state sw /\ changed sw' = false
      /\ (uint32 (nowMicros - lastChange sw') <= debounceDelay
          \/ raw = state sw)).
Proof.
  rewrite debounceSwitch_lastChange.
  unfold sw', debounceSwitch. simpl.
  destruct (Bool.eqb raw (lastRead sw)); simpl.
  - destruct (debounceDelay <? uint32 (nowMicros - lastChange sw)) eqn:Eq.
    + apply Z.ltb_lt in Eq.
      destruct (Bool.eqb raw (state sw)) eqn:Es; simpl.
      * right. apply Bool.eqb_prop in Es. auto.
      * left. apply Bool.eqb_false_iff in Es. auto.
    + apply Z.ltb_ge in Eq. right. auto.
  - destruct (debounceDelay <? uint32 (nowMicros - nowMicros)) eqn:Eq.
    + apply Z.ltb_lt in Eq.
      destruct (Bool.eqb raw (state sw)) eqn:Es; simpl.
      * right. apply Bool.eqb_prop in Es. auto.
      * left. apply Bool.eqb_false_iff in Es. auto.
    + apply Z.ltb_ge in Eq. right. auto.
Qed.

End Debounce.

(** Once the stable state equals the held raw value, further calls with
    that value change nothing but the time stamps. *)
Lemma debounceRun_settled (later : list (bool * Z)) :
  forall (sw : DebouncedSwitch) (raw : bool),
    state sw = raw ->
    Forall (fun smp => fst smp = raw) later ->
    Forall (fun r => state r = raw /\ changed r = false) (debounceRun sw later).
Proof.
  induction later as [| [r t] rest IH]; intros sw raw Hst Hall; simpl.
  - constructor.
  - inversion Hall as [| x l Hr Hrest]; subst. simpl in Hr. subst r.
    destruct (debounceSwitch_cases sw (state sw) t)
      as [(_ & _ & _ & Hne) | (Hs & Hc & _)].
    + exfalso. apply Hne. reflexivity.
    + constructor; [split; assumption |].
      apply IH; assumption.
Qed.

(** In real (unwrapped) time: a switch whose raw value last changed at [t0]
    and is sampled unchanged at [t], no more than the quiet interval later,
    keeps its stable state; the time stamps the code sees are [t0] and [t]
    modulo 2^32. *)
Lemma debounce_quiet_real_time (sw : DebouncedSwitch) (t0 t : Z) :
  lastChange sw = uint32 t0 ->
  0 <= t0 <= t -> t - t0 <= debounceDelay ->
  state (fst (debounceSwitch sw (lastRead sw) (uint32 t))) = state sw
  /\ changed (fst (debounceSwitch sw (lastRead sw) (uint32 t))) = false.
Proof.
  intros Hlc Ht Hq.
  pose proof (debounceSwitch_lastChange sw (lastRead sw) (uint32 t)) as Hl.
  rewrite Bool.eqb_reflx, Hlc in Hl.
  destruct (debounceSwitch_cases sw (lastRead sw) (uint32 t))
    as [(_ & _ & Hlong & _) | (Hs & Hc & _)].
  - rewrite Hl, uint32_elapsed in Hlong; unfold debounceDelay in *; lia.
  - split; assumption.
Qed.

(** C3 -- debounce contract, for any switch, sample and time stamp, hence
    along any sequence of calls.  (1) The returned flag is [changed], which
    is true exactly when this call flipped the stable state, so it is
    cleared by every call that does not flip it.  (2) While the time since
    the last raw transition is at most the quiet interval the stable state
    does not change.  (3) A sample that differs from the previous one
    restarts the quiet timer at [nowMicros] and changes nothing else.
    (4) A sample equal to the previous one, held for more than the quiet
    interval and different from the stable state, flips the stable state to
    the raw value with [changed] true; in every later call in which the raw
    value is still held the state stays and [changed] is false. *)
Theorem debounce_contract (sw : DebouncedSwitch) (raw : bool) (nowMicros : Z) :
  snd (debounceSwitch sw raw nowMicros)
  = changed (fst (debounceSwitch sw raw nowMicros))
  /\ (changed (fst (debounceSwitch sw raw nowMicros)) = true <->
      state (fst (debounceSwitch sw raw nowMicros)) <> state sw)
  /\ (uint32 (nowMicros - lastChange (fst (debounceSwitch sw raw nowMicros)))
      <= debounceDelay ->
      state (fst (debounceSwitch sw raw nowMicros)) = state sw
      /\ changed (fst (debounceSwitch sw raw nowMicros)) = false)
  /\ (raw <> lastRead sw ->
      lastChange (fst (debounceSwitch sw raw nowMicros)) = nowMicros
      /\ lastRead (fst (debounceSwitch sw raw nowMicros)) = raw
      /\ state (fst (debounceSwitch sw raw nowMicros)) = state sw
      /\ changed (fst (debounceSwitch sw raw nowMicros)) = false)
  /\ (raw = lastRead sw ->
      debounceDelay < uint32 (nowMicros - lastChange sw) ->
      raw <> state sw ->
      state (fst (debounceSwitch sw raw nowMicros)) = raw
      /\ changed (fst (debounceSwitch sw raw nowMicros)) = true
      /\ forall later : list (bool * Z),
          Forall (fun smp => fst smp = raw) later ->
          Forall (fun r => state r = raw /\ changed r = false)
                 (debounceRun (fst (debounceSwitch sw raw nowMicros)) later)).
Proof.
  pose proof (debounceSwitch_cases sw raw nowMicros) as Hcases.
  pose proof (debounceSwitch_lastChange sw raw nowMicros) as Hlc.
  split; [reflexivity |].
  split.
  { destruct Hcases as [(Hs & Hc & _ & Hne) | (Hs & Hc & _)].
    - rewrite Hs, Hc. split; auto.
    - rewrite Hs, Hc. split; [discriminate | intros H; exfalso; auto]. }
  split.
  { intros Hquiet.
    destruct Hcases as [(_ & _ & Hlong & _) | (Hs & Hc & _)]; [lia | auto]. }
  split.
  { intros Hflick.
    assert (E : Bool.eqb raw (lastRead sw) = false)
      by (apply Bool.eqb_false_iff; exact Hflick).
    rewrite E in Hlc.
    destruct Hcases as [(_ & _ & Hlong & _) | (Hs & Hc & _)].
    - exfalso. rewrite Hlc, Z.sub_diag in Hlong.
      unfold uint32, debounceDelay in Hlong. rewrite Z.mod_0_l in Hlong; lia.
    - repeat split; try assumption. apply debounceSwitch_lastRead. }
  intros Hsame Hlong Hne.
  assert (E : Bool.eqb raw (lastRead sw) = true)
    by (rewrite Hsame; apply Bool.eqb_reflx).
  rewrite E in Hlc.
  destruct Hcases as [(Hs & Hc & _) | (_ & _ & [Hshort | Heq])].
  - split; [exact Hs |]. split; [exact Hc |].
    intros later Hall. apply debounceRun_settled; assumption.
  - rewrite Hlc in Hshort. lia.
  - contradiction.
Qed.

Lemma debounce_contract_witness :
  (* pressed at 100 us, sampled again 500 us later: nothing yet *)
  state (fst (debounceSwitch (mkSwitch false false true 100 0) true 600)) = false
  (* a flicker at 700 us restarts the timer *)
  /\ lastChange (fst (debounceSwitch (mkSwitch false false true 100 0) false 700))
     = 700
  (* held for 1001 us: accepted, and reported once *)
  /\ state (fst (debounceSwitch (mkSwitch false false true 100 0) true 1101))
     = true
  /\ Forall (fun r => state r = true /\ changed r = false)
       (debounceRun (fst (debounceSwitch (mkSwitch false false true 100 0)
                                         true 1101))
          [(true, 1200); (true, 5000)]).
Proof.
  destruct (debounce_contract (mkSwitch false false true 100 0) true 600)
    as (_ & _ & Hquiet & _).
  destruct (debounce_contract (mkSwitch false false true 100 0) false 700)
    as (_ & _ & _ & Hflick & _).
  destruct (debounce_contract (mkSwitch false false true 100 0) true 1101)
    as (_ & _ & _ & _ & Haccept).
  split; [apply Hquiet; by_eval |].
  split; [apply Hflick; discriminate |].
  destruct Haccept as (Hs & _ & Hlater);
    [reflexivity | by_eval | discriminate |].
  split; [exact Hs |].
  apply Hlater. repeat constructor.
Defined.

(** ** Set-mode editing *)

(** Redrawing and rebuilding the strings do not touch the edit buffer. *)
Lemma updateDisplayValue_minutes (g : Globals) :
  minutes (updateDisplayValue g) = minutes g.
Proof.
  unfold updateDisplayValue.
  destruct (currentDisplayMode g); try reflexivity.
  destruct ((emulation (info g) =? WIFI) || (model (info g) =? MODEL_GC_1092D));
    reflexivity.
Qed.

Lemma updateStrings_minutes (g : Globals) :
  minutes (updateStrings g) = minutes g.
Proof.
  unfold updateStrings. cbv zeta. rewrite updateDisplayValue_minutes. simpl.
  destruct (negb (model (info g) =? MODEL_GC_1092D)); reflexivity.
Qed.

Lemma incrementMinuteOnes_minutes (g : Globals) :
  minutes (incrementMinuteOnes g)
  = uint8 (uint8 (minutes g / 10) * 10
           + uint8 ((uint8 (minutes g mod 10) + 1) mod 10)).
Proof.
  unfold incrementMinuteOnes. cbv zeta. rewrite updateStrings_minutes.
  reflexivity.
Qed.

(** C4 -- minute-ones increment: for minutes in 0..59 the ones digit
    becomes (ones + 1) mod 10 and the tens digit is unchanged; from 59 the
    result is 50. *)
Theorem minute_ones_increment (g : Globals) :
  0 <= minutes g <= 59 ->
  minutes (incrementMinuteOnes g)
  = (minutes g / 10) * 10 + (minutes g mod 10 + 1) mod 10
  /\ minutes (incrementMinuteOnes g) / 10 = minutes g / 10
  /\ minutes (incrementMinuteOnes g) mod 10 = (minutes g mod 10 + 1) mod 10
  /\ (minutes g = 59 -> minutes (incrementMinuteOnes g) = 50).
Proof.
  intros Hm. rewrite incrementMinuteOnes_minutes.
  assert (Ht : 0 <= minutes g / 10 < 6)
    by (split; [apply Z.div_pos; lia | apply Z.div_lt_upper_bound; lia]).
  assert (Ho : 0 <= minutes g mod 10 < 10) by (apply Z.mod_pos_bound; lia).
  assert (Hn : 0 <= (minutes g mod 10 + 1) mod 10 < 10)
    by (apply Z.mod_pos_bound; lia).
  rewrite (uint8_small (minutes g / 10)) by (simpl; lia).
  rewrite (uint8_small (minutes g mod 10)) by (simpl; lia).
  rewrite (uint8_small ((minutes g mod 10 + 1) mod 10)) by (simpl; lia).
  rewrite uint8_small by (simpl; lia).
  split; [reflexivity |].
  split.
  { rewrite Z.add_comm, Z.div_add by lia.
    rewrite (Z.div_small ((minutes g mod 10 + 1) mod 10)) by lia. lia. }
  split.
  { rewrite Z.add_comm, Z.mod_add by lia. apply Z.mod_small. lia. }
  intros E. rewrite E. reflexivity.
Qed.

Lemma minute_ones_increment_witness :
  minutes (incrementMinuteOnes (set_minutes 59 boot)) = 50
  /\ minutes (incrementMinuteOnes (set_minutes 37 boot)) = 38.
Proof.
  destruct (minute_ones_increment (set_minutes 59 boot)) as (_ & _ & _ & H59);
    [by_eval |].
  destruct (minute_ones_increment (set_minutes 37 boot)) as (H37 & _);
    [by_eval |].
  split; [apply H59; reflexivity | exact H37].
Defined.

(** ** Persisted state *)

(** C8 -- persisted-state fallback: for stored bytes [e] at offset 0 and
    [md] at offset 1, [loadEEPROM] returns [e] as the emulation when
    [e < EmulationCount = 2] and WIFI otherwise, and [md] as the model when
    [md < ModelCount = 5] and MODEL_GC_1005 otherwise; the result is always
    a defined emulation and model.  [loadEEPROM] is total, so a stored 99
    yields the default and nothing else happens. *)
Theorem loadEEPROM_fallback (e md : Z) (rest : list Z) :
  0 <= e < 256 -> 0 <= md < 256 ->
  emulation (loadEEPROM (e :: md :: rest)) = (if e <? 2 then e else WIFI)
  /\ model (loadEEPROM (e :: md :: rest))
     = (if md <? 5 then md else MODEL_GC_1005)
  /\ 0 <= emulation (loadEEPROM (e :: md :: rest)) < EmulationCount
  /\ 0 <= model (loadEEPROM (e :: md :: rest)) < ModelCount.
Proof.
  intros He Hmd. unfold loadEEPROM, EEPROM_read. simpl nth.
  rewrite (uint8_small e), (uint8_small md) by (simpl; lia).
  change (uint8 EmulationCount) with 2. change (uint8 ModelCount) with 5.
  cbv zeta. simpl emulation. simpl model.
  unfold defaultEmulation, defaultModel, WIFI, MODEL_GC_1005,
    EmulationCount, ModelCount.
  destruct (e <? 2) eqn:E1; destruct (md <? 5) eqn:E2;
    try apply Z.ltb_lt in E1; try apply Z.ltb_lt in E2;
    repeat split; lia.
Qed.

Lemma loadEEPROM_fallback_witness :
  emulation (loadEEPROM [99; 3]) = WIFI
  /\ model (loadEEPROM [99; 3]) = MODEL_GC_1094
  /\ model (loadEEPROM [1; 200]) = MODEL_GC_1005.
Proof.
  destruct (loadEEPROM_fallback 99 3 []) as (He & Hm & _); [by_eval | by_eval |].
  destruct (loadEEPROM_fallback 1 200 []) as (_ & Hm' & _);
    [by_eval | by_eval |].
  split; [exact He | split; [exact Hm | exact Hm']].
Defined.

(** ** Snooze dispatch *)

Lemma snoozeGuard_eq (g : Globals) :
  snoozeGuard g = changed (sw_5 g) && negb (model (info g) =? MODEL_GC_1092D).
Proof. reflexivity. Qed.

(** C6 -- the snooze guard of DispatchSwitches.  The right operand of [!=]
    is the constant 1, so for every model value the guard equals
    [sw_5.changed && info.model != MODEL_GC_1092D]; it differs from the
    intended guard exactly when [sw_5] changed and the model is MODEL_BOGUS;
    and in that case the dispatch statement calls [requestSnooze]. *)
Theorem snooze_guard_ignores_bogus :
  (forall g, snoozeGuard g
             = changed (sw_5 g) && negb (model (info g) =? MODEL_GC_1092D))
  /\ (forall g, snoozeGuard g <> snoozeGuard_intended g <->
                changed (sw_5 g) = true /\ model (info g) = MODEL_BOGUS)
  /\ (exists g, snoozeGuard g <> snoozeGuard_intended g)
  /\ (forall g, emulation (info g) = MK5017 -> model (info g) = MODEL_BOGUS ->
                changed (sw_5 g) = true ->
                snoozeGuard g = true
                /\ snoozeGuard_intended g = false
                /\ DispatchSwitches_snooze g = requestSnooze g).
Proof.
  assert (Hdiff : forall g, snoozeGuard g <> snoozeGuard_intended g <->
                            changed (sw_5 g) = true
                            /\ model (info g) = MODEL_BOGUS).
  { intros g. rewrite snoozeGuard_eq. unfold snoozeGuard_intended.
    unfold MODEL_GC_1092D, MODEL_BOGUS.
    destruct (changed (sw_5 g)); simpl.
    - destruct (model (info g) =? 1) eqn:E1; simpl.
      + apply Z.eqb_eq in E1. split; [intros H; exfalso; auto | lia].
      + destruct (model (info g) =? 4) eqn:E4; simpl.
        * apply Z.eqb_eq in E4. split; [auto | discriminate].
        * apply Z.eqb_neq in E4. split; [intros H; exfalso; auto | tauto].
    - split; [intros H; exfalso; auto | intros [H _]; discriminate]. }
  split; [exact snoozeGuard_eq |].
  split; [exact Hdiff |].
  split.
  { exists (set_sw_5 (mkSwitch true true true 0 0)
              (set_info (mkInfo MK5017 MODEL_BOGUS) boot)).
    apply Hdiff. split; reflexivity. }
  intros g He Hm Hc.
  assert (Hg : snoozeGuard g = true).
  { rewrite snoozeGuard_eq, Hc, Hm. reflexivity. }
  split; [exact Hg |].
  split.
  - unfold snoozeGuard_intended. rewrite Hc, Hm. reflexivity.
  - unfold DispatchSwitches_snooze. rewrite He, Hg. reflexivity.
Qed.

Lemma snooze_guard_ignores_bogus_witness :
  DispatchSwitches_snooze
    (set_sw_5 (mkSwitch true true true 0 0)
       (set_info (mkInfo MK5017 MODEL_BOGUS) (alarmAt7 ALARM_SOUNDING 25260)))
  = requestSnooze
      (set_sw_5 (mkSwitch true true true 0 0)
         (set_info (mkInfo MK5017 MODEL_BOGUS) (alarmAt7 ALARM_SOUNDING 25260)))
  /\ alarmState
       (DispatchSwitches_snooze
          (set_sw_5 (mkSwitch true true true 0 0)
             (set_info (mkInfo MK5017 MODEL_BOGUS)
                (alarmAt7 ALARM_SOUNDING 25260))))
     = ALARM_SNOOZE.
Proof.
  destruct snooze_guard_ignores_bogus as (_ & _ & _ & Hbogus).
  destruct (Hbogus (set_sw_5 (mkSwitch true true true 0 0)
                      (set_info (mkInfo MK5017 MODEL_BOGUS)
                         (alarmAt7 ALARM_SOUNDING 25260))))
    as (_ & _ & Hcall); [reflexivity | reflexivity | reflexivity |].
  split; [exact Hcall | reflexivity].
Defined.

(** ** Display mode sequencer *)

Lemma updateDisplayStateIfNeeded_blocks (tz : Timezone) (g : Globals) :
  updateDisplayStateIfNeeded tz g
  = (let g1 := refreshStrings tz g in
     if emulation (info g1) =? MK5017 then
       if model (info g1) =? MODEL_BOGUS then g1
       else if (model (info g1) =? MODEL_GC_1092D) && negb (inEditMode g1)
            then dateLogic1092D (autoDateStep tz g1)
            else g1
     else
       manualOverrideLogic (isWeekendNow tz g1) (withinDisplayWindowNow tz g1)
         (dateLogicWifi g1)).
Proof. reflexivity. Qed.

(** The refresh only writes [timestring] and [datestring]. *)
Lemma refreshStrings_frame (tz : Timezone) (g : Globals) :
  info (refreshStrings tz g) = info g
  /\ currentDisplayMode (refreshStrings tz g) = currentDisplayMode g
  /\ datecounter (refreshStrings tz g) = datecounter g
  /\ manualOverride (refreshStrings tz g) = manualOverride g
  /\ overrideForBlank (refreshStrings tz g) = overrideForBlank g
  /\ touchoverride (refreshStrings tz g) = touchoverride g
  /\ messageindex (refreshStrings tz g) = messageindex g
  /\ autoDate (refreshStrings tz g) = autoDate g
  /\ inEditMode (refreshStrings tz g) = inEditMode g.
Proof.
  unfold refreshStrings. destruct (negb (state (sw_HOLD g)));
    repeat split; reflexivity.
Qed.

Lemma DisplayMode_eqb_eq (a b : DisplayMode) :
  DisplayMode_eqb a b = true <-> a = b.
Proof. destruct a, b; simpl; split; intros H; try reflexivity; discriminate. Qed.

(** In WIFI emulation a date on display is redrawn as a date. *)
Lemma updateDisplayValue_date_wifi (g : Globals) :
  emulation (info g) = WIFI -> currentDisplayMode g = MODE_DATE ->
  exists buf, updateDisplayValue g = set_displayBuffer buf g.
Proof.
  intros He Hm. unfold updateDisplayValue. rewrite Hm, He. simpl.
  eexists. reflexivity.
Qed.

(** While the date is on display the blanking logic only redraws, and the
    manual override logic only falls through to it. *)
Lemma normalBlanking_date (w d : bool) (g : Globals) :
  currentDisplayMode g = MODE_DATE ->
  normalBlanking w d g = updateDisplayValue g.
Proof. intros Hm. unfold normalBlanking. rewrite Hm. reflexivity. Qed.

Lemma manualOverrideLogic_date (w d : bool) (g : Globals) :
  currentDisplayMode g = MODE_DATE ->
  manualOverrideLogic w d g = updateDisplayValue g.
Proof.
  intros Hm. unfold manualOverrideLogic. rewrite Hm. simpl.
  destruct (manualOverride g); apply normalBlanking_date; exact Hm.
Qed.

Lemma dateLogicWifi_counting (g : Globals) :
  currentDisplayMode g = MODE_DATE -> 0 < datecounter g ->
  dateLogicWifi g = set_datecounter (datecounter g - 1) g.
Proof.
  intros Hm Hd. unfold dateLogicWifi. rewrite Hm.
  apply Z.ltb_lt in Hd. rewrite Hd. reflexivity.
Qed.

(** C5 -- display mode precedence in WIFI emulation: with
    [currentDisplayMode = MODE_DATE] and [datecounter > 0], whatever the time
    source reads and whatever the override and blanking flags are,
    [updateDisplayStateIfNeeded] leaves the mode at MODE_DATE, decrements the
    countdown by one and leaves the override flags and the message index
    alone. *)
Theorem date_countdown_precedence (tz : Timezone) (g : Globals) :
  emulation (info g) = WIFI ->
  currentDisplayMode g = MODE_DATE ->
  0 < datecounter g ->
  currentDisplayMode (updateDisplayStateIfNeeded tz g) = MODE_DATE
  /\ datecounter (updateDisplayStateIfNeeded tz g) = datecounter g - 1
  /\ manualOverride (updateDisplayStateIfNeeded tz g) = manualOverride g
  /\ overrideForBlank (updateDisplayStateIfNeeded tz g) = overrideForBlank g
  /\ touchoverride (updateDisplayStateIfNeeded tz g) = touchoverride g
  /\ messageindex (updateDisplayStateIfNeeded tz g) = messageindex g.
Proof.
  intros He Hm Hd.
  destruct (refreshStrings_frame tz g)
    as (Fi & Fm & Fd & Fo & Fb & Ft & Fx & _).
  rewrite updateDisplayStateIfNeeded_blocks. cbv zeta.
  rewrite Fi, He. change (WIFI =? MK5017) with false. cbv iota.
  rewrite dateLogicWifi_counting by (rewrite ?Fm, ?Fd; assumption).
  rewrite manualOverrideLogic_date by (simpl; rewrite Fm; exact Hm).
  destruct (updateDisplayValue_date_wifi
              (set_datecounter (datecounter (refreshStrings tz g) - 1)
                 (refreshStrings tz g))) as [buf Hbuf].
  { simpl. rewrite Fi. exact He. }
  { simpl. rewrite Fm. exact Hm. }
  rewrite Hbuf. simpl.
  rewrite Fm, Fd, Fo, Fb, Ft, Fx. repeat split; assumption.
Qed.

Lemma date_countdown_precedence_witness :
  currentDisplayMode (updateDisplayStateIfNeeded mondayEvening dateCountdown3)
  = MODE_DATE
  /\ datecounter (updateDisplayStateIfNeeded mondayEvening dateCountdown3) = 2.
Proof.
  destruct (date_countdown_precedence mondayEvening dateCountdown3)
    as (Hmode & Hcount & _); [reflexivity | reflexivity | by_eval |].
  split; [exact Hmode | exact Hcount].
Defined.

(** The evening of [mondayEvening] is inside a blank window: with the time
    showing, the same call blanks the display. *)
Lemma mondayEvening_blanks :
  currentDisplayMode
    (updateDisplayStateIfNeeded mondayEvening
       (set_currentDisplayMode MODE_TIME boot)) = MODE_MESSAGE
  /\ messageindex
       (updateDisplayStateIfNeeded mondayEvening
          (set_currentDisplayMode MODE_TIME boot)) = 9.
Proof. split; reflexivity. Qed.

(** When the countdown has run out the date reverts to the time (here
    inside the display window). *)
Lemma date_countdown_expired :
  currentDisplayMode
    (updateDisplayStateIfNeeded (mkTz 12 0 30 3 9 "Monday")
       (set_currentDisplayMode MODE_DATE boot)) = MODE_TIME.
Proof. reflexivity. Qed.

(** *** Auto-date on the GC-1092D *)

(** The MK5017 branch for a GC-1092D outside edit mode. *)
Lemma updateDisplayStateIfNeeded_1092D (tz : Timezone) (g : Globals) :
  emulation (info g) = MK5017 ->
  model (info g) = MODEL_GC_1092D ->
  inEditMode g = false ->
  updateDisplayStateIfNeeded tz g
  = dateLogic1092D (autoDateStep tz (refreshStrings tz g)).
Proof.
  intros He Hm Hi.
  destruct (refreshStrings_frame tz g) as (Fi & _ & _ & _ & _ & _ & _ & _ & Fe).
  rewrite updateDisplayStateIfNeeded_blocks. cbv zeta.
  rewrite Fi, Fe, He, Hm, Hi. reflexivity.
Qed.

(** Auto-date on, no touch override: the two statements together set the
    mode from the ones digit of the seconds and touch nothing else of the
    countdown. *)
Lemma autoDate_no_touch (tz : Timezone) (g : Globals) :
  autoDate g = true -> touchoverride g = false ->
  currentDisplayMode (dateLogic1092D (autoDateStep tz g))
  = (if (tz_second tz mod 10 =? 8) || (tz_second tz mod 10 =? 9)
     then MODE_DATE else MODE_TIME)
  /\ datecounter (dateLogic1092D (autoDateStep tz g)) = datecounter g
  /\ touchoverride (dateLogic1092D (autoDateStep tz g)) = false.
Proof.
  intros Ha Ht.
  assert (Hstep : autoDate (autoDateStep tz g) = true
                  /\ touchoverride (autoDateStep tz g) = false
                  /\ datecounter (autoDateStep tz g) = datecounter g
                  /\ currentDisplayMode (autoDateStep tz g)
                     = (if (tz_second tz mod 10 =? 8)
                           || (tz_second tz mod 10 =? 9)
                        then MODE_DATE else MODE_TIME)).
  { unfold autoDateStep. rewrite Ha, Ht. simpl.
    destruct ((tz_second tz mod 10 =? 8) || (tz_second tz mod 10 =? 9)).
    - repeat split; assumption.
    - destruct (currentDisplayMode g) eqn:E; simpl;
        repeat split; assumption. }
  destruct Hstep as (Sa & St & Sd & Sm).
  unfold dateLogic1092D. rewrite Sa, St. simpl.
  rewrite !Bool.andb_false_r. repeat split; assumption.
Qed.

(** Auto-date on, touch override active: the first statement can only turn
    the date on; the second counts down while the countdown is above 1 and
    otherwise reverts a displayed date to the time and ends the override. *)
Lemma autoDate_touch (tz : Timezone) (g : Globals) :
  autoDate g = true -> touchoverride g = true ->
  (1 < datecounter g ->
   currentDisplayMode (dateLogic1092D (autoDateStep tz g))
   = (if (tz_second tz mod 10 =? 8) || (tz_second tz mod 10 =? 9)
      then MODE_DATE else currentDisplayMode g)
   /\ datecounter (dateLogic1092D (autoDateStep tz g)) = datecounter g - 1
   /\ touchoverride (dateLogic1092D (autoDateStep tz g)) = true)
  /\ (datecounter g <= 1 ->
      currentDisplayMode g = MODE_DATE
      \/ tz_second tz mod 10 = 8 \/ tz_second tz mod 10 = 9 ->
      currentDisplayMode (dateLogic1092D (autoDateStep tz g)) = MODE_TIME
      /\ datecounter (dateLogic1092D (autoDateStep tz g)) = 0
      /\ touchoverride (dateLogic1092D (autoDateStep tz g)) = false).
Proof.
  intros Ha Ht.
  assert (Hstep : autoDate (autoDateStep tz g) = true
                  /\ touchoverride (autoDateStep tz g) = true
                  /\ datecounter (autoDateStep tz g) = datecounter g
                  /\ currentDisplayMode (autoDateStep tz g)
                     = (if (tz_second tz mod 10 =? 8)
                           || (tz_second tz mod 10 =? 9)
                        then MODE_DATE else currentDisplayMode g)).
  { unfold autoDateStep. rewrite Ha, Ht. simpl.
    rewrite Bool.andb_false_r.
    destruct ((tz_second tz mod 10 =? 8) || (tz_second tz mod 10 =? 9));
      repeat split; assumption. }
  destruct Hstep as (Sa & St & Sd & Sm).
  split.
  - intros Hd. unfold dateLogic1092D. rewrite Sa, St, Sd.
    apply Z.ltb_lt in Hd. rewrite Hd. simpl.
    rewrite ?Sm, ?Sd, ?St. repeat split.
  - intros Hd Hshown. unfold dateLogic1092D. rewrite Sa, St, Sd.
    apply Z.ltb_ge in Hd. rewrite Hd. simpl.
    assert (Hdate : currentDisplayMode (autoDateStep tz g) = MODE_DATE).
    { rewrite Sm.
      destruct ((tz_second tz mod 10 =? 8) || (tz_second tz mod 10 =? 9))
        eqn:E; [reflexivity |].
      apply Bool.orb_false_elim in E. destruct E as [E8 E9].
      apply Z.eqb_neq in E8. apply Z.eqb_neq in E9.
      destruct Hshown as [H | [H | H]]; [exact H | contradiction ..]. }
    rewrite Hdate. simpl. rewrite ?St. repeat split.
Qed.

(** C7 (as amended) -- auto-date on the GC-1092D in MK5017 emulation, with
    auto-date active and outside edit mode.  Without a touch override the
    sequencer sets the mode to MODE_DATE when the ones digit of the seconds
    is 8 or 9 and to MODE_TIME for every other second, and leaves the
    countdown alone.  With a touch override the countdown decides instead:
    above 1 it is decremented and the mode is not reverted; at 1 or below a
    date on display (or turned on by this call) reverts to MODE_TIME, the
    countdown is zeroed and the override ends. *)
Theorem autodate_ones_digit (tz : Timezone) (g : Globals) :
  emulation (info g) = MK5017 ->
  model (info g) = MODEL_GC_1092D ->
  autoDate g = true ->
  inEditMode g = false ->
  (touchoverride g = false ->
   (tz_second tz mod 10 = 8 \/ tz_second tz mod 10 = 9 ->
    currentDisplayMode (updateDisplayStateIfNeeded tz g) = MODE_DATE)
   /\ (tz_second tz mod 10 <> 8 -> tz_second tz mod 10 <> 9 ->
       currentDisplayMode (updateDisplayStateIfNeeded tz g) = MODE_TIME)
   /\ datecounter (updateDisplayStateIfNeeded tz g) = datecounter g
   /\ touchoverride (updateDisplayStateIfNeeded tz g) = false)
  /\ (touchoverride g = true ->
      (1 < datecounter g ->
       currentDisplayMode (updateDisplayStateIfNeeded tz g)
       = (if (tz_second tz mod 10 =? 8) || (tz_second tz mod 10 =? 9)
          then MODE_DATE else currentDisplayMode g)
       /\ datecounter (updateDisplayStateIfNeeded tz g) = datecounter g - 1
       /\ touchoverride (updateDisplayStateIfNeeded tz g) = true)
      /\ (datecounter g <= 1 ->
          currentDisplayMode g = MODE_DATE
          \/ tz_second tz mod 10 = 8 \/ tz_second tz mod 10 = 9 ->
          currentDisplayMode (updateDisplayStateIfNeeded tz g) = MODE_TIME
          /\ datecounter (updateDisplayStateIfNeeded tz g) = 0
          /\ touchoverride (updateDisplayStateIfNeeded tz g) = false)).
Proof.
  intros He Hm Ha Hi.
  rewrite (updateDisplayStateIfNeeded_1092D tz g He Hm Hi).
  destruct (refreshStrings_frame tz g)
    as (_ & Fm & Fd & _ & _ & Ft & _ & Fa & _).
  split.
  - intros Ht.
    destruct (autoDate_no_touch tz (refreshStrings tz g)) as (Hmode & Hd & Hto);
      [rewrite Fa; exact Ha | rewrite Ft; exact Ht |].
    rewrite Hmode, Hd, Hto, Fd.
    split; [| split; [| split; reflexivity]].
    + intros [H | H]; rewrite H; reflexivity.
    + intros H8 H9. apply Z.eqb_neq in H8. apply Z.eqb_neq in H9.
      rewrite H8, H9. reflexivity.
  - intros Ht.
    destruct (autoDate_touch tz (refreshStrings tz g)) as (Hcount & Hrevert);
      [rewrite Fa; exact Ha | rewrite Ft; exact Ht |].
    rewrite Fm, Fd in Hcount, Hrevert.
    split; assumption.
Qed.

Lemma autodate_ones_digit_witness :
  currentDisplayMode (updateDisplayStateIfNeeded (sevenOClock 8) autoDate1092D)
  = MODE_DATE
  /\ currentDisplayMode
       (updateDisplayStateIfNeeded (sevenOClock 49) autoDate1092D) = MODE_DATE
  /\ currentDisplayMode
       (updateDisplayStateIfNeeded (sevenOClock 50)
          (set_currentDisplayMode MODE_DATE autoDate1092D)) = MODE_TIME
  /\ currentDisplayMode
       (updateDisplayStateIfNeeded (sevenOClock 50)
          (set_datecounter 1
             (set_touchoverride true
                (set_currentDisplayMode MODE_DATE autoDate1092D))))
     = MODE_TIME.
Proof.
  destruct (autodate_ones_digit (sevenOClock 8) autoDate1092D)
    as (H8 & _); try reflexivity.
  destruct H8 as (H8 & _); [reflexivity |].
  destruct (autodate_ones_digit (sevenOClock 49) autoDate1092D)
    as (H49 & _); try reflexivity.
  destruct H49 as (H49 & _); [reflexivity |].
  destruct (autodate_ones_digit (sevenOClock 50)
              (set_currentDisplayMode MODE_DATE autoDate1092D))
    as (H50 & _); try reflexivity.
  destruct H50 as (_ & H50 & _); [reflexivity |].
  destruct (autodate_ones_digit (sevenOClock 50)
              (set_datecounter 1
                 (set_touchoverride true
                    (set_currentDisplayMode MODE_DATE autoDate1092D))))
    as (_ & Htouch); try reflexivity.
  destruct Htouch as (_ & Hrev); [reflexivity |].
  destruct Hrev as (Hrev & _); [by_eval | left; reflexivity |].
  split; [apply H8; left; reflexivity |].
  split; [apply H49; right; reflexivity |].
  split; [apply H50; by_eval | exact Hrev].
Defined.

(** C7, counterexample -- at 07:00:08 the tens digit of the seconds is 0,
    yet the sequencer turns the date on: the code tests the ones digit. *)
Lemma autodate_tens_digit_counterexample :
  emulation (info autoDate1092D) = MK5017
  /\ model (info autoDate1092D) = MODEL_GC_1092D
  /\ autoDate autoDate1092D = true
  /\ inEditMode autoDate1092D = false
  /\ touchoverride autoDate1092D = false
  /\ tz_second (sevenOClock 8) / 10 mod 10 = 0
  /\ currentDisplayMode
       (updateDisplayStateIfNeeded (sevenOClock 8) autoDate1092D) = MODE_DATE
  /\ ~ autodate_tens_digit_claim.
Proof.
  repeat (split; [reflexivity |]).
  intros Hclaim.
  destruct (Hclaim (sevenOClock 8) autoDate1092D) as [Hdate _];
    try reflexivity; [by_eval |].
  destruct Hdate as [H | H]; [reflexivity | discriminate H | discriminate H].
Qed.

(* ================================================================== *)
(** * Properties of the further functions *)

(** Projections of updated globals are reduced, everything else is left
    folded. *)
Ltac fields :=
  cbn [
        timeBlankingEnabled ontime offtime weekendBlankingEnabled
        weekendDay1 weekendDay2 toneActive datecounter manualOverride
        overrideForBlank touchoverride displayBuffer
        currentDisplayMode messageindex info sw_5 sw_HOLD is24HourMode
        halfSecond topOfSecond timestring hr24 minutes seconds
        datestring setstring displaystring activeTarget inEditMode
        autoDate alarmState alarmEnabled timeSeconds alarmSeconds
        snoozeTargetS pinAM serial rmt set_toneActive set_datecounter
        set_manualOverride set_touchoverride set_displayBuffer
        set_currentDisplayMode set_messageindex set_timestring
        set_datestring set_minutes set_setstring set_displaystring
        set_alarmState set_snoozeTargetS set_pinAM set_serial set_rmt
        set_overrideForBlank set_info set_sw_5 set_sw_HOLD
        set_halfSecond set_topOfSecond set_inEditMode set_autoDate
        set_alarmEnabled set_timeSeconds set_alarmSeconds set_hr24
        set_is24HourMode set_hr24
        set_is24HourMode set_activeTarget println emulation model fst snd ].

(** ** Persisted state: saving and loading *)

Lemma list_set_nth_same (l : list Z) (i : nat) (v : Z) :
  (i < List.length l)%nat -> nth i (list_set l i v) 0 = v.
Proof.
  revert i. induction l as [| x rest IH]; intros i Hi; simpl in Hi.
  - inversion Hi.
  - destruct i as [| i']; simpl; [reflexivity | apply IH; lia].
Qed.

Lemma list_set_nth_other (l : list Z) (i j : nat) (v : Z) :
  i <> j -> nth j (list_set l i v) 0 = nth j l 0.
Proof.
  revert i j. induction l as [| x rest IH]; intros i j Hij.
  - destruct i; reflexivity.
  - destruct i as [| i'], j as [| j']; simpl; try reflexivity.
    + contradiction.
    + apply IH. lia.
Qed.

Lemma list_set_length (l : list Z) (i : nat) (v : Z) :
  List.length (list_set l i v) = List.length l.
Proof.
  revert i. induction l as [| x rest IH]; intros i; [destruct i; reflexivity |].
  destruct i; simpl; [reflexivity | rewrite IH; reflexivity].
Qed.

Lemma uint8_idem (z : Z) : uint8 (uint8 z) = uint8 z.
Proof. unfold uint8. apply Z.mod_mod. lia. Qed.

(** What [loadEEPROM] reads back from the image [saveEEPROM] leaves. *)
Lemma saveEEPROM_image (emu : Emulation) (model : Model)
    (e : EEPROMClass) (g : Globals) :
  (2 <= List.length (eeprom_data e))%nat ->
  eeprom_flash (fst (saveEEPROM emu model e g))
  = eeprom_data (fst (saveEEPROM emu model e g))
  /\ EEPROM_read (eeprom_data (fst (saveEEPROM emu model e g)))
       EEPROM_ADDR_EMULATION = uint8 emu
  /\ EEPROM_read (eeprom_data (fst (saveEEPROM emu model e g)))
       EEPROM_ADDR_MODEL = uint8 model.
Proof.
  intros Hlen. unfold saveEEPROM, EEPROM_commit, EEPROM_write, EEPROM_read.
  simpl. split; [reflexivity |]. split.
  - rewrite list_set_nth_other by discriminate.
    rewrite list_set_nth_same by (unfold EEPROM_ADDR_EMULATION; lia).
    rewrite !uint8_idem. reflexivity.
  - rewrite list_set_nth_same
      by (rewrite list_set_length; unfold EEPROM_ADDR_MODEL; lia).
    rewrite !uint8_idem. reflexivity.
Qed.

(** X1 -- round trip through the byte store: after
    [saveEEPROM(emu, model)] on a store of at least two bytes, [loadEEPROM]
    returns exactly [emu] and [model], from the RAM image and from the
    committed flash image alike, whenever [emu] is a defined emulation and
    [model] a defined model (MODEL_BOGUS included). *)
Theorem saveEEPROM_loadEEPROM_roundtrip (emu : Emulation) (model : Model)
    (e : EEPROMClass) (g : Globals) :
  (2 <= List.length (eeprom_data e))%nat ->
  0 <= emu < EmulationCount ->
  0 <= model < ModelCount ->
  loadEEPROM (eeprom_data (fst (saveEEPROM emu model e g))) = mkInfo emu model
  /\ loadEEPROM (eeprom_flash (fst (saveEEPROM emu model e g)))
     = mkInfo emu model.
Proof.
  intros Hlen He Hm.
  destruct (saveEEPROM_image emu model e g Hlen) as (Hflash & Hre & Hrm).
  rewrite Hflash. split; unfold loadEEPROM; rewrite Hre, Hrm; cbv zeta;
    unfold EmulationCount, ModelCount in *;
    rewrite (uint8_small emu), (uint8_small model) by (simpl; lia);
    change (uint8 2) with 2; change (uint8 5) with 5;
    destruct (emu <? 2) eqn:E1; destruct (model <? 5) eqn:E2;
    try apply Z.ltb_ge in E1; try apply Z.ltb_ge in E2; try lia; reflexivity.
Qed.

Lemma saveEEPROM_loadEEPROM_roundtrip_witness :
  loadEEPROM
    (eeprom_flash
       (fst (saveEEPROM MK5017 MODEL_BOGUS (mkEEPROM [255; 255; 255] []) boot)))
  = mkInfo MK5017 MODEL_BOGUS.
Proof.
  destruct (saveEEPROM_loadEEPROM_roundtrip MK5017 MODEL_BOGUS
              (mkEEPROM [255; 255; 255] []) boot) as (_ & Hflash);
    [simpl; lia | by_eval | by_eval | exact Hflash].
Defined.

(** ** Set-mode editing: hours and minutes *)

Lemma updateDisplayValue_hr24 (g : Globals) :
  hr24 (updateDisplayValue g) = hr24 g.
Proof.
  unfold updateDisplayValue.
  destruct (currentDisplayMode g); try reflexivity.
  destruct ((emulation (info g) =? WIFI) || (model (info g) =? MODEL_GC_1092D));
    reflexivity.
Qed.

Lemma updateStrings_hr24 (g : Globals) : hr24 (updateStrings g) = hr24 g.
Proof.
  unfold updateStrings. cbv zeta. rewrite updateDisplayValue_hr24. simpl.
  destruct (negb (model (info g) =? MODEL_GC_1092D)); reflexivity.
Qed.

Lemma incrementHours_hr24 (g : Globals) :
  hr24 (incrementHours g) = uint8 ((hr24 g + 1) mod 24)
  /\ minutes (incrementHours g) = minutes g.
Proof.
  unfold incrementHours. cbv zeta.
  rewrite updateStrings_minutes, updateStrings_hr24. split; reflexivity.
Qed.

Lemma incrementMinuteTens_minutes (g : Globals) :
  minutes (incrementMinuteTens g) = uint8 ((minutes g + 10) mod 60)
  /\ hr24 (incrementMinuteTens g) = hr24 g.
Proof.
  unfold incrementMinuteTens. cbv zeta.
  rewrite updateStrings_minutes, updateStrings_hr24. split; reflexivity.
Qed.

Lemma incrementMinuteOnes_hr24 (g : Globals) :
  hr24 (incrementMinuteOnes g) = hr24 g.
Proof.
  unfold incrementMinuteOnes. cbv zeta. rewrite updateStrings_hr24. reflexivity.
Qed.

Lemma hours_iter (n : nat) (g : Globals) :
  0 <= hr24 g < 24 ->
  hr24 (Nat.iter n incrementHours g) = (hr24 g + Z.of_nat n) mod 24.
Proof.
  intros Hh. induction n as [| n IH].
  - simpl. rewrite Z.add_0_r, Z.mod_small by lia. reflexivity.
  - rewrite Nat.iter_succ.
    rewrite (proj1 (incrementHours_hr24 _)), IH.
    rewrite uint8_small.
    + rewrite Z.add_mod_idemp_l by lia. f_equal. lia.
    + assert (0 <= ((hr24 g + Z.of_nat n) mod 24 + 1) mod 24 < 24)
        by (apply Z.mod_pos_bound; lia).
      simpl; lia.
Qed.

(** X2 -- hour increment: from any byte value of [hr24] (the unset
    sentinel 255 included) one increment lands in 0..23; from a valid hour
    it gives the next hour with 23 wrapping to 0, the minutes are untouched,
    and 24 increments return to the hour they started from. *)
Theorem incrementHours_wraps (g : Globals) :
  (0 <= hr24 g < 256 -> 0 <= hr24 (incrementHours g) < 24)
  /\ (0 <= hr24 g < 24 ->
      hr24 (incrementHours g) = (if hr24 g =? 23 then 0 else hr24 g + 1)
      /\ hr24 (Nat.iter 24 incrementHours g) = hr24 g)
  /\ minutes (incrementHours g) = minutes g.
Proof.
  destruct (incrementHours_hr24 g) as (Hh & Hm).
  split; [| split; [| exact Hm]].
  - intros Hb. rewrite Hh.
    assert (0 <= (hr24 g + 1) mod 24 < 24) by (apply Z.mod_pos_bound; lia).
    rewrite uint8_small by (simpl; lia). assumption.
  - intros Hv. split.
    + rewrite Hh.
      assert (0 <= (hr24 g + 1) mod 24 < 24) by (apply Z.mod_pos_bound; lia).
      rewrite uint8_small by (simpl; lia).
      destruct (hr24 g =? 23) eqn:E.
      * apply Z.eqb_eq in E. rewrite E. reflexivity.
      * apply Z.eqb_neq in E. apply Z.mod_small. lia.
    + rewrite hours_iter by exact Hv.
      change (Z.of_nat 24) with (1 * 24).
      rewrite Z.mod_add by lia. apply Z.mod_small. exact Hv.
Qed.

Lemma incrementHours_wraps_witness :
  hr24 (incrementHours boot) = 16
  /\ hr24 (incrementHours (set_hr24 23 boot)) = 0
  /\ hr24 (Nat.iter 24 incrementHours (set_hr24 7 boot)) = 7.
Proof.
  destruct (incrementHours_wraps (set_hr24 23 boot)) as (_ & H23 & _).
  destruct (incrementHours_wraps (set_hr24 7 boot)) as (_ & H7 & _).
  split; [reflexivity |].
  split; [apply H23; by_eval | apply H7; by_eval].
Defined.

(** Division and remainder by numerals, for [lia]. *)
Ltac zdivmod := unfold uint8, uint32 in *; Z.div_mod_to_equations; lia.

Lemma minute_tens_iter (n : nat) (g : Globals) :
  0 <= minutes g < 60 ->
  minutes (Nat.iter n incrementMinuteTens g)
  = (minutes g + 10 * Z.of_nat n) mod 60.
Proof.
  intros Hm. induction n as [| n IH].
  - simpl. rewrite Z.add_0_r, Z.mod_small by lia. reflexivity.
  - rewrite Nat.iter_succ.
    rewrite (proj1 (incrementMinuteTens_minutes _)), IH.
    assert (0 <= ((minutes g + 10 * Z.of_nat n) mod 60 + 10) mod 60 < 60)
      by (apply Z.mod_pos_bound; lia).
    rewrite uint8_small by (change (2 ^ 8) with 256; lia).
    rewrite Z.add_mod_idemp_l by lia. f_equal. lia.
Qed.

(** X3 -- minute-tens increment: from any byte value the result is in
    0..59; from a valid minute the ones digit is kept and the tens digit
    advances by one with 5 wrapping to 0, the hour is untouched, and six
    increments return to the minute they started from. *)
Theorem incrementMinuteTens_wraps (g : Globals) :
  (0 <= minutes g < 256 -> 0 <= minutes (incrementMinuteTens g) < 60)
  /\ (0 <= minutes g < 60 ->
      minutes (incrementMinuteTens g) mod 10 = minutes g mod 10
      /\ minutes (incrementMinuteTens g) / 10 = (minutes g / 10 + 1) mod 6
      /\ minutes (Nat.iter 6 incrementMinuteTens g) = minutes g)
  /\ hr24 (incrementMinuteTens g) = hr24 g.
Proof.
  destruct (incrementMinuteTens_minutes g) as (Hm & Hh).
  split; [| split; [| exact Hh]].
  - intros Hb. rewrite Hm. zdivmod.
  - intros Hv. split; [| split].
    + rewrite Hm. zdivmod.
    + rewrite Hm. zdivmod.
    + rewrite minute_tens_iter by exact Hv.
      change (10 * Z.of_nat 6) with (1 * 60).
      rewrite Z.mod_add by lia. apply Z.mod_small. exact Hv.
Qed.

Lemma incrementMinuteTens_wraps_witness :
  minutes (incrementMinuteTens (set_minutes 57 boot)) = 7
  /\ minutes (Nat.iter 6 incrementMinuteTens (set_minutes 57 boot)) = 57.
Proof.
  destruct (incrementMinuteTens_wraps (set_minutes 57 boot)) as (_ & Hv & _).
  destruct Hv as (_ & _ & Hsix); [by_eval |].
  split; [reflexivity | exact Hsix].
Defined.

(** X4 -- the two minute increments together: on a valid minute both keep
    the minute in 0..59, each changes only its own digit, so they commute,
    and ten ones-increments return to the minute they started from. *)
Theorem minute_increments_commute (g : Globals) :
  0 <= minutes g < 60 ->
  0 <= minutes (incrementMinuteOnes g) < 60
  /\ 0 <= minutes (incrementMinuteTens g) < 60
  /\ minutes (incrementMinuteOnes (incrementMinuteTens g))
     = minutes (incrementMinuteTens (incrementMinuteOnes g))
  /\ minutes (incrementMinuteOnes g) / 10 = minutes g / 10
  /\ minutes (incrementMinuteTens g) mod 10 = minutes g mod 10
  /\ minutes (Nat.iter 10 incrementMinuteOnes g) = minutes g.
Proof.
  intros Hv.
  assert (Hones : forall h, 0 <= minutes h < 60 ->
                    minutes (incrementMinuteOnes h)
                    = minutes h / 10 * 10 + (minutes h mod 10 + 1) mod 10).
  { intros h Hh. rewrite incrementMinuteOnes_minutes. zdivmod. }
  assert (Htens : forall h, 0 <= minutes h < 60 ->
                    minutes (incrementMinuteTens h) = (minutes h + 10) mod 60).
  { intros h Hh. rewrite (proj1 (incrementMinuteTens_minutes h)). zdivmod. }
  assert (Ho : 0 <= minutes (incrementMinuteOnes g) < 60)
    by (rewrite Hones by exact Hv; zdivmod).
  assert (Ht : 0 <= minutes (incrementMinuteTens g) < 60)
    by (rewrite Htens by exact Hv; zdivmod).
  split; [exact Ho |]. split; [exact Ht |].
  split.
  { rewrite (Hones _ Ht), (Htens _ Ho), (Hones _ Hv), (Htens _ Hv). zdivmod. }
  split; [rewrite Hones by exact Hv; zdivmod |].
  split; [rewrite Htens by exact Hv; zdivmod |].
  assert (Hiter : forall n : nat,
             0 <= minutes (Nat.iter n incrementMinuteOnes g) < 60
             /\ minutes (Nat.iter n incrementMinuteOnes g)
                = minutes g / 10 * 10 + (minutes g mod 10 + Z.of_nat n) mod 10).
  { induction n as [| n [IHr IHe]].
    - simpl. zdivmod.
    - rewrite Nat.iter_succ. rewrite (Hones _ IHr), IHe.
      rewrite Nat2Z.inj_succ. zdivmod. }
  rewrite (proj2 (Hiter 10%nat)). change (Z.of_nat 10) with 10. zdivmod.
Qed.

Lemma minute_increments_commute_witness :
  minutes (incrementMinuteOnes (incrementMinuteTens (set_minutes 59 boot))) = 0
  /\ minutes (incrementMinuteTens (incrementMinuteOnes (set_minutes 59 boot)))
     = 0.
Proof.
  destruct (minute_increments_commute (set_minutes 59 boot))
    as (_ & _ & Hcomm & _); [by_eval |].
  split; [rewrite Hcomm |]; reflexivity.
Defined.

(** ** Set-mode editing: the date *)

Lemma digit_char_value (q : Z) :
  0 <= q <= 9 -> Z.of_nat (nat_of_ascii (digit_char q)) - 48 = q.
Proof.
  intros Hq. unfold digit_char. rewrite nat_ascii_embedding by lia. lia.
Qed.

(** Below 100, [%02d] prints exactly the two decimal digits. *)
Lemma fmt02d_two_digits (n : Z) :
  0 <= n < 100 ->
  fmt02d n
  = String (digit_char (n / 10)) (String (digit_char (n mod 10)) EmptyString).
Proof.
  intros Hn. unfold fmt02d. destruct (n <? 10) eqn:E.
  - apply Z.ltb_lt in E.
    rewrite Z.div_small, Z.mod_small by lia. reflexivity.
  - apply Z.ltb_ge in E. destruct (n <? 100) eqn:E'; [reflexivity |].
    apply Z.ltb_ge in E'. lia.
Qed.

(** Printing with [%02d] and reading back with [toInt] is the identity. *)
Lemma toInt_fmt02d (n : Z) : 0 <= n < 100 -> toInt (fmt02d n) = n.
Proof.
  intros Hn. rewrite fmt02d_two_digits by exact Hn.
  assert (Hq : 0 <= n / 10 <= 9) by zdivmod.
  assert (Hr : 0 <= n mod 10 <= 9) by zdivmod.
  unfold toInt. cbn [toInt_from].
  rewrite !digit_char_value by assumption.
  replace ((0 <=? n / 10) && (n / 10 <=? 9)) with true
    by (symmetry; apply andb_true_intro; split; apply Z.leb_le; lia).
  replace ((0 <=? n mod 10) && (n mod 10 <=? 9)) with true
    by (symmetry; apply andb_true_intro; split; apply Z.leb_le; lia).
  zdivmod.
Qed.

(** The two fields of an "MMDD" string. *)
Lemma substring_MMDD (a b : Z) :
  0 <= a < 100 -> 0 <= b < 100 ->
  substring_lr (fmt02d a ++ fmt02d b) 0 2 = fmt02d a
  /\ substring_lr (fmt02d a ++ fmt02d b) 2 4 = fmt02d b.
Proof.
  intros Ha Hb. rewrite (fmt02d_two_digits a), (fmt02d_two_digits b) by assumption.
  split; reflexivity.
Qed.

Lemma incrementDate_displaystring (m : bool) (g : Globals) (mo d : Z) :
  displaystring g = (fmt02d mo ++ fmt02d d)%string ->
  0 <= mo < 100 -> 0 <= d < 100 ->
  displaystring (fst (incrementDate m g))
  = (if m then
       String.append
         (fmt02d (let mo1 := if 31 <? d + 1 then mo + 1 else mo in
                  if 12 <? mo1 then 1 else mo1))
         (fmt02d (if 31 <? d + 1 then 1 else d + 1))
     else
       String.append (fmt02d (if 12 <? mo + 1 then 1 else mo + 1)) (fmt02d d)).
Proof.
  intros Hs Hmo Hd. unfold incrementDate. rewrite Hs.
  destruct (substring_MMDD mo d Hmo Hd) as (H1 & H2). rewrite H1, H2.
  rewrite !toInt_fmt02d by assumption.
  destruct m; cbv zeta.
  - destruct (31 <? d + 1); reflexivity.
  - reflexivity.
Qed.

Lemma incrementDate_dateChanged (m : bool) (g : Globals) :
  snd (incrementDate m g) = true.
Proof.
  unfold incrementDate. cbv zeta. destruct m.
  - destruct (31 <? toInt (substring_lr (displaystring g) 2 4) + 1);
      match goal with |- context [if ?c then 1 else _] => destruct c end;
      reflexivity.
  - destruct (12 <? toInt (substring_lr (displaystring g) 0 2) + 1);
      reflexivity.
Qed.

(** X5 -- date increment on a valid "MMDD" edit buffer (month 1..12, day
    1..31): the result is again such a buffer and [dateChanged] is set.  The
    day increment counts to 31 in every month and then moves to day 1 of
    the next month, December rolling to January; the month increment keeps
    the day and rolls December to January. *)
Theorem incrementDate_rolls (g : Globals) (mo d : Z) :
  displaystring g = (fmt02d mo ++ fmt02d d)%string ->
  1 <= mo <= 12 -> 1 <= d <= 31 ->
  displaystring (fst (incrementDate true g))
  = String.append
      (fmt02d (if d =? 31 then (if mo =? 12 then 1 else mo + 1) else mo))
      (fmt02d (if d =? 31 then 1 else d + 1))
  /\ displaystring (fst (incrementDate false g))
     = String.append (fmt02d (if mo =? 12 then 1 else mo + 1)) (fmt02d d)
  /\ snd (incrementDate true g) = true
  /\ snd (incrementDate false g) = true
  /\ 1 <= (if d =? 31 then (if mo =? 12 then 1 else mo + 1) else mo) <= 12
  /\ 1 <= (if d =? 31 then 1 else d + 1) <= 31
  /\ 1 <= (if mo =? 12 then 1 else mo + 1) <= 12.
Proof.
  intros Hs Hmo Hd.
  rewrite (incrementDate_displaystring true g mo d Hs) by lia.
  rewrite (incrementDate_displaystring false g mo d Hs) by lia.
  rewrite !incrementDate_dateChanged. cbv zeta.
  destruct (Z.eqb_spec d 31) as [Ed | Ed];
    destruct (Z.eqb_spec mo 12) as [Em | Em]; subst;
    repeat match goal with
      | |- context [?a <? ?b] =>
          first [ replace (a <? b) with true by (symmetry; apply Z.ltb_lt; lia)
                | replace (a <? b) with false by (symmetry; apply Z.ltb_ge; lia) ]
      end;
    repeat split; try reflexivity; lia.
Qed.

Lemma incrementDate_rolls_witness :
  displaystring (fst (incrementDate true (set_displaystring "1231" boot)))
  = "0101"
  /\ displaystring (fst (incrementDate true (set_displaystring "0229" boot)))
     = "0230"
  /\ displaystring (fst (incrementDate false (set_displaystring "1231" boot)))
     = "0131".
Proof.
  destruct (incrementDate_rolls (set_displaystring "1231" boot) 12 31)
    as (Hday & Hmonth & _); [reflexivity | by_eval | by_eval |].
  destruct (incrementDate_rolls (set_displaystring "0229" boot) 2 29)
    as (Hfeb & _); [reflexivity | by_eval | by_eval |].
  split; [exact Hday | split; [exact Hfeb | exact Hmonth]].
Defined.

(** ** Set-mode editing: the increments applied on a pulse *)

(** A redraw writes the display buffer and, when it refuses a date, the
    display mode and the serial console; nothing else. *)
Lemma updateDisplayValue_shape (g : Globals) :
  exists buf mode ser,
    updateDisplayValue g
    = set_serial ser (set_currentDisplayMode mode (set_displayBuffer buf g)).
Proof.
  unfold updateDisplayValue.
  destruct (currentDisplayMode g) eqn:E.
  - eexists _, (currentDisplayMode g), (serial g). reflexivity.
  - destruct ((emulation (info g) =? WIFI)
              || (model (info g) =? MODEL_GC_1092D)).
    + eexists _, (currentDisplayMode g), (serial g). reflexivity.
    + eexists (displayBuffer g), MODE_TIME, _. reflexivity.
  - eexists _, (currentDisplayMode g), (serial g). reflexivity.
  - eexists _, (currentDisplayMode g), (serial g). reflexivity.
Qed.

Lemma updateDisplayValue_frame (g : Globals) :
  editControls (updateDisplayValue g) = editControls g
  /\ messageindex (updateDisplayValue g) = messageindex g
  /\ seconds (updateDisplayValue g) = seconds g
  /\ is24HourMode (updateDisplayValue g) = is24HourMode g.
Proof.
  destruct (updateDisplayValue_shape g) as (buf & mode & ser & ->).
  repeat split.
Qed.

Lemma updateStrings_frame (g : Globals) :
  editControls (updateStrings g) = editControls g
  /\ messageindex (updateStrings g) = messageindex g
  /\ seconds (updateStrings g) = seconds g
  /\ is24HourMode (updateStrings g) = is24HourMode g.
Proof.
  unfold updateStrings. cbv zeta.
  match goal with |- context [updateDisplayValue ?x] =>
    destruct (updateDisplayValue_frame x) as (F1 & F2 & F3 & F4) end.
  rewrite F1, F2, F3, F4. fields.
  destruct (negb (model (info g) =? MODEL_GC_1092D));
    repeat split; reflexivity.
Qed.

(** Outside edit mode, between pulses and while hold is asserted the block
    does nothing. *)
Lemma handleSetMode_increments_idle (sws : Switches) (dc : bool) (g : Globals) :
  inEditMode g = false
  \/ (topOfSecond g = false /\ halfSecond g = false)
  \/ state (sw_HOLD g) = true ->
  handleSetMode_increments sws dc g = (g, dc).
Proof.
  intros H. unfold handleSetMode_increments.
  destruct H as [H | [[H1 H2] | H]].
  - rewrite H. reflexivity.
  - rewrite H1, H2, Bool.andb_false_r. reflexivity.
  - rewrite H. destruct (inEditMode g && (topOfSecond g || halfSecond g));
      reflexivity.
Qed.

(** X6 -- hold freezes the editor: while [sw_HOLD] is asserted
    handleSetMode's increment block changes nothing, whatever the switches
    and pulses are, and the exit test of the time editor is false, so time
    editing cannot be left; the block also does nothing outside edit mode
    and between timing pulses. *)
Theorem hold_freezes_editor (sws : Switches) (dc : bool) (g : Globals) :
  (state (sw_HOLD g) = true ->
   handleSetMode_increments sws dc g = (g, dc)
   /\ (activeTarget g = EDIT_TIME -> exitRequested sws g = false))
  /\ (inEditMode g = false -> handleSetMode_increments sws dc g = (g, dc))
  /\ (topOfSecond g = false -> halfSecond g = false ->
      handleSetMode_increments sws dc g = (g, dc)).
Proof.
  split; [| split].
  - intros Hh. split.
    + apply handleSetMode_increments_idle. right. right. exact Hh.
    + intros Ht. unfold exitRequested. rewrite Ht, Hh.
      apply Bool.andb_false_r.
  - intros Hi. apply handleSetMode_increments_idle. left. exact Hi.
  - intros Ht Hh. apply handleSetMode_increments_idle. right. left.
    split; assumption.
Qed.

Lemma hold_freezes_editor_witness :
  handleSetMode_increments
    (mkSwitches switch0 switch0 (mkSwitch true false true 0 0) switch0
       switch0 switch0)
    false
    (set_sw_HOLD (mkSwitch true false true 0 0)
       (set_topOfSecond true (set_inEditMode true boot)))
  = (set_sw_HOLD (mkSwitch true false true 0 0)
       (set_topOfSecond true (set_inEditMode true boot)), false).
Proof.
  destruct (hold_freezes_editor
              (mkSwitches switch0 switch0 (mkSwitch true false true 0 0)
                 switch0 switch0 switch0)
              false
              (set_sw_HOLD (mkSwitch true false true 0 0)
                 (set_topOfSecond true (set_inEditMode true boot))))
    as (Hhold & _).
  destruct Hhold as (Hfrozen & _); [reflexivity | exact Hfrozen].
Defined.

(** The block in the model editor, with the hour/month switch held. *)
Lemma handleSetMode_increments_model (sws : Switches) (dc : bool) (g : Globals) :
  inEditMode g = true -> activeTarget g = EDIT_MODEL ->
  topOfSecond g = true \/ halfSecond g = true ->
  state (sw_HOLD g) = false ->
  handleSetMode_increments sws dc g
  = (updateDisplayValue
       (if state (sw_3 sws) then
          updateDisplayValue
            (println (String_int (Z.rem (messageindex g + 1) 4))
               (set_messageindex (Z.rem (messageindex g + 1) 4) g))
        else g),
     dc).
Proof.
  intros Hi Ha Hp Hh. unfold handleSetMode_increments.
  rewrite Hi, Ha, Hh.
  replace (topOfSecond g || halfSecond g) with true
    by (destruct Hp as [-> | ->]; [reflexivity | symmetry; apply Bool.orb_true_r]).
  reflexivity.
Qed.

Lemma updateDisplayValue_message (g : Globals) :
  currentDisplayMode g = MODE_MESSAGE ->
  updateDisplayValue g
  = set_displayBuffer
      (map (fun i => chars_at (messagearray_at (messageindex g) i))
         (seq 0 NUM_DIGITS)) g.
Proof. intros Hm. unfold updateDisplayValue. rewrite Hm. reflexivity. Qed.

Lemma model_step (sws : Switches) (dc : bool) (g : Globals) :
  inEditMode g = true -> activeTarget g = EDIT_MODEL ->
  topOfSecond g = true \/ halfSecond g = true ->
  state (sw_HOLD g) = false ->
  state (sw_3 sws) = true ->
  0 <= messageindex g < 4 ->
  editControls (fst (handleSetMode_increments sws dc g)) = editControls g
  /\ messageindex (fst (handleSetMode_increments sws dc g))
     = (messageindex g + 1) mod 4.
Proof.
  intros Hi Ha Hp Hh H3 Hidx.
  rewrite handleSetMode_increments_model by assumption. rewrite H3.
  rewrite Z.rem_mod_nonneg by lia. fields.
  repeat match goal with |- context [updateDisplayValue ?x] =>
    destruct (updateDisplayValue_frame x) as (-> & -> & _)
  end.
  split; reflexivity.
Qed.

Lemma model_steps (sws : Switches) (dc : bool) (n : nat) (g : Globals) :
  inEditMode g = true -> activeTarget g = EDIT_MODEL ->
  topOfSecond g = true \/ halfSecond g = true ->
  state (sw_HOLD g) = false ->
  state (sw_3 sws) = true ->
  0 <= messageindex g < 4 ->
  editControls
    (Nat.iter n (fun h => fst (handleSetMode_increments sws dc h)) g)
  = editControls g
  /\ messageindex
       (Nat.iter n (fun h => fst (handleSetMode_increments sws dc h)) g)
     = (messageindex g + Z.of_nat n) mod 4.
Proof.
  intros Hi Ha Hp Hh H3 Hidx. induction n as [| n [IHc IHm]].
  - simpl. split; [reflexivity |]. rewrite Z.add_0_r, Z.mod_small; lia.
  - rewrite Nat.iter_succ.
    set (h := Nat.iter n (fun h => fst (handleSetMode_increments sws dc h)) g)
      in *.
    unfold editControls in IHc. injection IHc as E1 E2 E3 E4 E5.
    assert (Hp' : topOfSecond h = true \/ halfSecond h = true)
      by (rewrite E3, E4; exact Hp).
    assert (Hidx' : 0 <= messageindex h < 4)
      by (rewrite IHm; apply Z.mod_pos_bound; lia).
    destruct (model_step sws dc h) as (Sc & Sm); try assumption;
      try congruence.
    split.
    + rewrite Sc. unfold editControls. congruence.
    + rewrite Sm, IHm, Nat2Z.inj_succ. zdivmod.
Qed.

(** X7 -- model selection: in the model editor, on a timing pulse with
    hold off and the hour/month switch held, the displayed index advances
    0 -> 1 -> 2 -> 3 -> 0, so it never leaves the four selectable models
    (never the Unset entry), four pulses return to the index they started
    from, and the display buffer holds the name of the new index; with the
    switch released the index stays. *)
Theorem model_edit_cycles (sws : Switches) (dc : bool) (g : Globals) :
  inEditMode g = true -> activeTarget g = EDIT_MODEL ->
  topOfSecond g = true \/ halfSecond g = true ->
  state (sw_HOLD g) = false ->
  0 <= messageindex g < 4 ->
  (state (sw_3 sws) = true ->
   messageindex (fst (handleSetMode_increments sws dc g))
   = (messageindex g + 1) mod 4
   /\ 0 <= messageindex (fst (handleSetMode_increments sws dc g)) < 4
   /\ messageindex
        (Nat.iter 4 (fun h => fst (handleSetMode_increments sws dc h)) g)
      = messageindex g
   /\ (currentDisplayMode g = MODE_MESSAGE ->
       displayBuffer (fst (handleSetMode_increments sws dc g))
       = map (fun i => chars_at
                         (messagearray_at ((messageindex g + 1) mod 4) i))
           (seq 0 NUM_DIGITS)))
  /\ (state (sw_3 sws) = false ->
      messageindex (fst (handleSetMode_increments sws dc g)) = messageindex g)
  /\ snd (handleSetMode_increments sws dc g) = dc.
Proof.
  intros Hi Ha Hp Hh Hidx.
  split; [| split].
  - intros H3.
    destruct (model_step sws dc g Hi Ha Hp Hh H3 Hidx) as (_ & Sm).
    destruct (model_steps sws dc 4 g Hi Ha Hp Hh H3 Hidx) as (_ & S4).
    split; [exact Sm |].
    split; [rewrite Sm; apply Z.mod_pos_bound; lia |].
    split; [rewrite S4; change (Z.of_nat 4) with 4; zdivmod |].
    intros Hmode.
    rewrite handleSetMode_increments_model by assumption. rewrite H3.
    rewrite Z.rem_mod_nonneg by lia. fields.
    rewrite (updateDisplayValue_message
               (println _ (set_messageindex _ g))) by exact Hmode.
    rewrite updateDisplayValue_message by exact Hmode.
    reflexivity.
  - intros H3. rewrite handleSetMode_increments_model by assumption.
    rewrite H3. fields. apply updateDisplayValue_frame.
  - rewrite handleSetMode_increments_model by assumption. reflexivity.
Qed.

Lemma model_edit_cycles_witness :
  messageindex
    (fst (handleSetMode_increments
            (mkSwitches switch0 switch0 (mkSwitch true false true 0 0)
               switch0 switch0 switch0)
            false
            (set_messageindex 3
               (set_halfSecond true
                  (set_inEditMode true
                     (set_activeTarget EDIT_MODEL boot)))))) = 0.
Proof.
  destruct (model_edit_cycles
              (mkSwitches switch0 switch0 (mkSwitch true false true 0 0)
                 switch0 switch0 switch0)
              false
              (set_messageindex 3
                 (set_halfSecond true
                    (set_inEditMode true
                       (set_activeTarget EDIT_MODEL boot)))))
    as (Hheld & _);
    [reflexivity | reflexivity | right; reflexivity | reflexivity | by_eval |].
  destruct Hheld as (Hnext & _); [reflexivity | exact Hnext].
Defined.

Lemma updateStrings_time (g : Globals) :
  hr24 (updateStrings g) = hr24 g
  /\ minutes (updateStrings g) = minutes g
  /\ seconds (updateStrings g) = seconds g.
Proof.
  split; [apply updateStrings_hr24 |].
  split; [apply updateStrings_minutes | apply updateStrings_frame].
Qed.

Lemma updateDisplayValue_time (g : Globals) :
  hr24 (updateDisplayValue g) = hr24 g
  /\ minutes (updateDisplayValue g) = minutes g
  /\ seconds (updateDisplayValue g) = seconds g.
Proof.
  split; [apply updateDisplayValue_hr24 |].
  split; [apply updateDisplayValue_minutes | apply updateDisplayValue_frame].
Qed.

(** X8 -- one edit pulse of the time or alarm editor (hold off): with both
    increment switches held only the minute tens advance; with the hour
    switch alone only the hour advances; with the minute switch alone only
    the minute ones advance; with neither, hour and minute stay.  The
    seconds of the edit buffer never change. *)
Theorem time_edit_pulse (sws : Switches) (dc : bool) (g : Globals) :
  inEditMode g = true ->
  activeTarget g = EDIT_TIME \/ activeTarget g = EDIT_ALARM ->
  topOfSecond g = true \/ halfSecond g = true ->
  state (sw_HOLD g) = false ->
  hr24 (fst (handleSetMode_increments sws dc g))
  = (if state (sw_3 sws) && negb (state (sw_4 sws))
     then uint8 ((hr24 g + 1) mod 24) else hr24 g)
  /\ minutes (fst (handleSetMode_increments sws dc g))
     = (if state (sw_4 sws) then
          if state (sw_3 sws) then uint8 ((minutes g + 10) mod 60)
          else uint8 (uint8 (minutes g / 10) * 10
                      + uint8 ((uint8 (minutes g mod 10) + 1) mod 10))
        else minutes g)
  /\ seconds (fst (handleSetMode_increments sws dc g)) = seconds g
  /\ snd (handleSetMode_increments sws dc g) = dc.
Proof.
  intros Hi Ha Hp Hh.
  assert (E : handleSetMode_increments sws dc g
              = (updateDisplayValue
                   (let g1 := if changed (sw_7 sws)
                              then updateStrings
                                     (set_is24HourMode (state (sw_7 sws)) g)
                              else g in
                    if state (sw_3 sws) && state (sw_4 sws)
                    then incrementMinuteTens g1
                    else if state (sw_3 sws) then incrementHours g1
                    else if state (sw_4 sws) then incrementMinuteOnes g1
                    else g1), dc)).
  { unfold handleSetMode_increments. rewrite Hi, Hh.
    replace (topOfSecond g || halfSecond g) with true
      by (destruct Hp as [-> | ->];
          [reflexivity | symmetry; apply Bool.orb_true_r]).
    destruct Ha as [-> | ->]; reflexivity. }
  rewrite E. cbv zeta. fields.
  destruct (updateDisplayValue_time
              (if state (sw_3 sws) && state (sw_4 sws)
               then incrementMinuteTens
                      (if changed (sw_7 sws)
                       then updateStrings
                              (set_is24HourMode (state (sw_7 sws)) g)
                       else g)
               else if state (sw_3 sws)
                    then incrementHours
                           (if changed (sw_7 sws)
                            then updateStrings
                                   (set_is24HourMode (state (sw_7 sws)) g)
                            else g)
                    else if state (sw_4 sws)
                         then incrementMinuteOnes
                                (if changed (sw_7 sws)
                                 then updateStrings
                                        (set_is24HourMode (state (sw_7 sws)) g)
                                 else g)
                         else if changed (sw_7 sws)
                              then updateStrings
                                     (set_is24HourMode (state (sw_7 sws)) g)
                              else g)) as (-> & -> & ->).
  assert (H7 : forall h, h = (if changed (sw_7 sws)
                              then updateStrings
                                     (set_is24HourMode (state (sw_7 sws)) g)
                              else g) ->
               hr24 h = hr24 g /\ minutes h = minutes g
               /\ seconds h = seconds g).
  { intros h ->. destruct (changed (sw_7 sws)); [| repeat split].
    destruct (updateStrings_time (set_is24HourMode (state (sw_7 sws)) g))
      as (-> & -> & ->). repeat split. }
  destruct (H7 _ eq_refl) as (Eh & Em & Es).
  destruct (state (sw_3 sws)), (state (sw_4 sws)); simpl andb; cbv iota.
  - destruct (incrementMinuteTens_minutes
                (if changed (sw_7 sws)
                 then updateStrings (set_is24HourMode (state (sw_7 sws)) g)
                 else g)) as (-> & ->).
    unfold incrementMinuteTens. cbv zeta.
    rewrite (proj2 (proj2 (updateStrings_time _))). fields.
    rewrite Eh, Em, Es. repeat split.
  - destruct (incrementHours_hr24
                (if changed (sw_7 sws)
                 then updateStrings (set_is24HourMode (state (sw_7 sws)) g)
                 else g)) as (-> & ->).
    unfold incrementHours. cbv zeta.
    rewrite (proj2 (proj2 (updateStrings_time _))). fields.
    rewrite Eh, Em, Es. repeat split.
  - rewrite incrementMinuteOnes_minutes, incrementMinuteOnes_hr24.
    unfold incrementMinuteOnes. cbv zeta.
    rewrite (proj2 (proj2 (updateStrings_time _))). fields.
    rewrite Eh, Em, Es. repeat split.
  - rewrite Eh, Em, Es. repeat split.
Qed.

Lemma time_edit_pulse_witness :
  minutes
    (fst (handleSetMode_increments
            (mkSwitches switch0 switch0 (mkSwitch true false true 0 0)
               (mkSwitch true false true 0 0) switch0 switch0)
            false
            (set_minutes 55
               (set_hr24 23
                  (set_topOfSecond true (set_inEditMode true boot)))))) = 5
  /\ hr24
       (fst (handleSetMode_increments
               (mkSwitches switch0 switch0 (mkSwitch true false true 0 0)
                  (mkSwitch true false true 0 0) switch0 switch0)
               false
               (set_minutes 55
                  (set_hr24 23
                     (set_topOfSecond true (set_inEditMode true boot))))))
     = 23.
Proof.
  destruct (time_edit_pulse
              (mkSwitches switch0 switch0 (mkSwitch true false true 0 0)
                 (mkSwitch true false true 0 0) switch0 switch0)
              false
              (set_minutes 55
                 (set_hr24 23
                    (set_topOfSecond true (set_inEditMode true boot)))))
    as (Hh & Hm & _);
    [reflexivity | left; reflexivity | left; reflexivity | reflexivity |].
  split; [exact Hm | exact Hh].
Defined.

(** ** Switch multiplex reader *)

(** A debounced switch changes its stable state only to the raw level it
    was given. *)
Lemma debounced_state (sw : DebouncedSwitch) (raw : bool) (now : Z) :
  state (debounced sw raw now) <> state sw ->
  state (debounced sw raw now) = raw.
Proof.
  intros Hne. unfold debounced in *.
  destruct (debounceSwitch_cases sw raw now) as [(Hs & _) | (Hs & _)].
  - exact Hs.
  - contradiction.
Qed.

Lemma debounced_raised (sw : DebouncedSwitch) (raw : bool) (now : Z) :
  state sw = false -> state (debounced sw raw now) = true -> raw = true.
Proof.
  intros H0 H1. rewrite <- (debounced_state sw raw now); [exact H1 |].
  rewrite H0, H1. discriminate.
Qed.

(** X9 -- scan phases: a call of CheckSwitches touches only the switches of
    the digit being scanned (1: sw_1, sw_2; 2: sw_3, sw_4; 3: sw_5, sw_6;
    4: sw_7), the others keep every field, a pending [changed] flag
    included; and a switch that changes its stable state takes the level of
    its own sense line (KA for sw_1, sw_3, sw_5, sw_7; KB for sw_2, sw_4,
    sw_6). *)
Theorem CheckSwitches_phases (KA KB rawHold : bool) (now curdigit : Z)
    (sws : Switches) (hd : HoldDetect) (g : Globals) :
  let sws' := fst (fst (CheckSwitches KA KB rawHold now curdigit sws hd g)) in
  let g' := snd (CheckSwitches KA KB rawHold now curdigit sws hd g) in
  (curdigit <> 1 -> sw_1 sws' = sw_1 sws /\ sw_2 sws' = sw_2 sws)
  /\ (curdigit <> 2 -> sw_3 sws' = sw_3 sws /\ sw_4 sws' = sw_4 sws)
  /\ (curdigit <> 3 -> sw_5 g' = sw_5 g /\ sw_6 sws' = sw_6 sws)
  /\ (curdigit <> 4 -> sw_7 sws' = sw_7 sws)
  /\ (state (sw_1 sws') <> state (sw_1 sws) -> state (sw_1 sws') = KA)
  /\ (state (sw_2 sws') <> state (sw_2 sws) -> state (sw_2 sws') = KB)
  /\ (state (sw_3 sws') <> state (sw_3 sws) -> state (sw_3 sws') = KA)
  /\ (state (sw_4 sws') <> state (sw_4 sws) -> state (sw_4 sws') = KB)
  /\ (state (sw_5 g') <> state (sw_5 g) -> state (sw_5 g') = KA)
  /\ (state (sw_6 sws') <> state (sw_6 sws) -> state (sw_6 sws') = KB)
  /\ (state (sw_7 sws') <> state (sw_7 sws) -> state (sw_7 sws') = KA).
Proof.
  cbv zeta. unfold CheckSwitches.
  destruct (Z.eqb_spec curdigit 1) as [E1 | E1];
    [| destruct (Z.eqb_spec curdigit 2) as [E2 | E2];
       [| destruct (Z.eqb_spec curdigit 3) as [E3 | E3];
          [| destruct (Z.eqb_spec curdigit 4) as [E4 | E4]]]];
    fields; cbn [sw_1 sw_2 sw_3 sw_4 sw_6 sw_7];
    repeat split; intros;
    try reflexivity; try (exfalso; lia); try (exfalso; congruence);
    apply debounced_state; assumption.
Qed.

Lemma CheckSwitches_phases_witness :
  sw_1 (fst (fst (CheckSwitches true true false 5000 3
                    (mkSwitches (mkSwitch true true true 0 0) switch0 switch0
                       switch0 switch0 switch0)
                    (mkHold false false 0) boot)))
  = mkSwitch true true true 0 0.
Proof.
  apply (CheckSwitches_phases true true false 5000 3
           (mkSwitches (mkSwitch true true true 0 0) switch0 switch0
              switch0 switch0 switch0)
           (mkHold false false 0) boot).
  discriminate.
Defined.

(** The hold detector after the 60 Hz check of one call. *)
Lemma CheckSwitches_hold (KA KB rawHold : bool) (now curdigit : Z)
    (sws : Switches) (hd : HoldDetect) (g : Globals) :
  let hd' := if negb (Bool.eqb rawHold (hz_lastRead hd))
             then mkHold (Disable_swHOLD hd) rawHold now else hd in
  snd (fst (CheckSwitches KA KB rawHold now curdigit sws hd g)) = hd'
  /\ exists g0,
      sw_HOLD g0 = sw_HOLD g
      /\ snd (CheckSwitches KA KB rawHold now curdigit sws hd g)
         = set_sw_HOLD
             (debounced (sw_HOLD g)
                (if Disable_swHOLD hd' then false
                 else 100000 <? uint32 (now - hz_lastTransition hd'))
                now) g0.
Proof.
  cbv zeta. unfold CheckSwitches.
  destruct (curdigit =? 1); [| destruct (curdigit =? 2);
    [| destruct (curdigit =? 3); [| destruct (curdigit =? 4)]]];
    (split; [reflexivity |]); eexists; (split; [| reflexivity]); reflexivity.
Qed.

Lemma hold_quiet_aux (KA KB rawHold : bool) (now curdigit : Z)
    (sws : Switches) (hd : HoldDetect) (g : Globals) :
  state (sw_HOLD g) = false ->
  state (sw_HOLD (snd (CheckSwitches KA KB rawHold now curdigit sws hd g)))
  = true ->
  Disable_swHOLD hd = false
  /\ rawHold = hz_lastRead hd
  /\ 100000 < uint32 (now - hz_lastTransition hd).
Proof.
  intros H0 H1.
  destruct (CheckSwitches_hold KA KB rawHold now curdigit sws hd g)
    as (_ & g0 & _ & Eg).
  cbv zeta in Eg. rewrite Eg in H1. cbn [sw_HOLD set_sw_HOLD] in H1.
  apply debounced_raised in H1; [| exact H0].
  destruct (Bool.eqb rawHold (hz_lastRead hd)) eqn:Er; simpl in H1.
  - destruct (Disable_swHOLD hd); [discriminate |].
    apply Z.ltb_lt in H1. apply Bool.eqb_prop in Er. auto.
  - destruct (Disable_swHOLD hd); [discriminate |].
    rewrite Z.sub_diag in H1. discriminate.
Qed.

(** X10 -- mains presence: the hold switch can turn on in a call of
    CheckSwitches only if the detector is enabled, the 60 Hz pin showed no
    transition in this call, and its last transition is more than 100000 us
    back (in 32-bit unsigned time). *)
Theorem hold_needs_quiet_line (KA KB rawHold : bool) (now curdigit : Z)
    (sws : Switches) (hd : HoldDetect) (g : Globals) :
  state (sw_HOLD g) = false ->
  state (sw_HOLD (snd (CheckSwitches KA KB rawHold now curdigit sws hd g)))
  = true ->
  Disable_swHOLD hd = false
  /\ rawHold = hz_lastRead hd
  /\ 100000 < uint32 (now - hz_lastTransition hd).
Proof. apply hold_quiet_aux. Qed.

Lemma hold_needs_quiet_line_witness :
  Disable_swHOLD (mkHold false false 0) = false
  /\ 100000 < uint32 (200000 - hz_lastTransition (mkHold false false 0)).
Proof.
  destruct (hold_needs_quiet_line false false false 200000 0 switches0
              (mkHold false false 0)
              (set_sw_HOLD (mkSwitch false false true 100001 0) boot))
    as (Hen & _ & Hq); [reflexivity | reflexivity |].
  split; [exact Hen | exact Hq].
Defined.

Lemma CheckSwitches_disabled (KA KB rawHold : bool) (now curdigit : Z)
    (sws : Switches) (hd : HoldDetect) (g : Globals) :
  Disable_swHOLD hd = true -> state (sw_HOLD g) = false ->
  Disable_swHOLD (snd (fst (CheckSwitches KA KB rawHold now curdigit sws hd g)))
  = true
  /\ state (sw_HOLD (snd (CheckSwitches KA KB rawHold now curdigit sws hd g)))
     = false.
Proof.
  intros Hd H0.
  destruct (CheckSwitches_hold KA KB rawHold now curdigit sws hd g)
    as (Eh & _).
  cbv zeta in Eh. split.
  - rewrite Eh. destruct (negb (Bool.eqb rawHold (hz_lastRead hd)));
      exact Hd.
  - destruct (state (sw_HOLD (snd (CheckSwitches KA KB rawHold now curdigit
                                     sws hd g)))) eqn:E; [| reflexivity].
    destruct (hold_quiet_aux KA KB rawHold now curdigit sws hd g H0 E).
    congruence.
Qed.

(** X11 -- hold detection disabled: with [Disable_swHOLD] set (as in WIFI
    emulation) and the hold switch off, no sequence of calls of
    CheckSwitches, whatever the pins and the clock read, turns the hold
    switch on, and the detector stays disabled. *)
Theorem hold_disabled_stays_off (reads : list SwitchReads) :
  forall (sws : Switches) (hd : HoldDetect) (g : Globals),
    Disable_swHOLD hd = true -> state (sw_HOLD g) = false ->
    state (sw_HOLD (snd (CheckSwitchesRun reads sws hd g))) = false
    /\ Disable_swHOLD (snd (fst (CheckSwitchesRun reads sws hd g))) = true.
Proof.
  induction reads as [| r rest IH]; intros sws hd g Hd H0.
  - simpl. split; assumption.
  - simpl.
    destruct (CheckSwitches_disabled (rd_KA r) (rd_KB r) (rd_hold r)
                (rd_now r) (rd_curdigit r) sws hd g Hd H0) as (Hd' & H0').
    destruct (CheckSwitches (rd_KA r) (rd_KB r) (rd_hold r) (rd_now r)
                (rd_curdigit r) sws hd g) as [[sws' hd'] g'].
    apply IH; assumption.
Qed.

Lemma hold_disabled_stays_off_witness :
  state (sw_HOLD (snd (CheckSwitchesRun
                         [mkReads false false true 0 1;
                          mkReads false false true 200000 2;
                          mkReads false false true 400000 3]
                         switches0 (mkHold true false 0) boot))) = false.
Proof.
  apply (hold_disabled_stays_off
           [mkReads false false true 0 1;
            mkReads false false true 200000 2;
            mkReads false false true 400000 3]
           switches0 (mkHold true false 0) boot); reflexivity.
Defined.

(** ** Display scan *)

Lemma displayTask_pass_next (buffer : list Z) (c : Z) :
  0 <= snd (displayTask_pass buffer c) < 6
  /\ (0 <= c < 6 -> snd (displayTask_pass buffer c) = (c + 1) mod 6).
Proof.
  unfold displayTask_pass. cbv zeta. cbn [snd].
  change (Z.of_nat NUM_DIGITS) with 6.
  destruct (Z.leb_spec 6 (uint8 (c + 1))) as [H | H].
  - split; [lia |]. intros Hc. zdivmod.
  - split; [zdivmod |]. intros Hc. zdivmod.
Qed.

Lemma displayTask_pass_out (buffer : list Z) (c : Z) :
  0 <= c < 6 ->
  fst (displayTask_pass buffer c)
  = [ShiftMSB 0; ShiftMSB 0; Latch;
     ShiftLSB (2 ^ (7 - c)); ShiftMSB (index buffer c 0); Latch].
Proof.
  intros Hc. unfold displayTask_pass. cbv zeta. cbn [fst].
  unfold SEG_INVERT, DIG_INVERT. rewrite !Z.lxor_0_r.
  assert (Ec : c = 0 \/ c = 1 \/ c = 2 \/ c = 3 \/ c = 4 \/ c = 5) by lia.
  destruct Ec as [-> | [-> | [-> | [-> | [-> | ->]]]]]; reflexivity.
Qed.

Lemma displayTask_run_cons (buffer : list Z) (rest : list (list Z)) (c : Z) :
  displayTask_run (buffer :: rest) c
  = ((fst (displayTask_pass buffer c)
      ++ fst (displayTask_run rest (snd (displayTask_pass buffer c))))%list,
     snd (displayTask_run rest (snd (displayTask_pass buffer c)))).
Proof.
  cbn [displayTask_run].
  destruct (displayTask_pass buffer c) as [out c1]. cbn [fst snd].
  destruct (displayTask_run rest c1) as [outs c2]. reflexivity.
Qed.

(** X12 -- display scan: after any pass of the display task the scan index
    is within the six digits, whatever byte it held before.  A pass at an
    index in range blanks the display, then shifts out the select byte of
    that digit (bit 7 - index) and the segment byte the buffer holds for it,
    and advances the index by one with 5 wrapping to 0.  In six consecutive
    passes every digit is driven exactly once, each with the segment byte
    its buffer entry holds at that pass, and the index is back where it
    started. *)
Theorem displayTask_scans_every_digit
  (buffer b0 b1 b2 b3 b4 b5 : list Z) (c : Z) :
  0 <= snd (displayTask_pass buffer c) < 6
  /\ (0 <= c < 6 ->
      displayTask_pass buffer c
      = ([ShiftMSB 0; ShiftMSB 0; Latch;
          ShiftLSB (2 ^ (7 - c)); ShiftMSB (index buffer c 0); Latch],
         (c + 1) mod 6)
      /\ displayTask_run [b0; b1; b2; b3; b4; b5] c
         = (List.concat
              (map (fun '(i, b) =>
                      [ShiftMSB 0; ShiftMSB 0; Latch;
                       ShiftLSB (2 ^ (7 - (c + i) mod 6));
                       ShiftMSB (index b ((c + i) mod 6) 0); Latch])
                 [(0, b0); (1, b1); (2, b2); (3, b3); (4, b4); (5, b5)]),
            c)
      /\ forall d, 0 <= d < 6 ->
           count_occ ShiftOut_eq_dec
             (fst (displayTask_run [b0; b1; b2; b3; b4; b5] c))
             (ShiftLSB (2 ^ (7 - d))) = 1%nat).
Proof.
  destruct (displayTask_pass_next buffer c) as (Hr & Hn).
  split; [exact Hr |]. intros Hc.
  assert (Hpass : forall b k, 0 <= k < 6 ->
            displayTask_pass b k
            = ([ShiftMSB 0; ShiftMSB 0; Latch;
                ShiftLSB (2 ^ (7 - k)); ShiftMSB (index b k 0); Latch],
               (k + 1) mod 6)).
  { intros b k Hk. rewrite (surjective_pairing (displayTask_pass b k)).
    rewrite (displayTask_pass_out b k Hk).
    rewrite (proj2 (displayTask_pass_next b k) Hk). reflexivity. }
  assert (Hrun : displayTask_run [b0; b1; b2; b3; b4; b5] c
            = (List.concat
                 (map (fun '(i, b) =>
                         [ShiftMSB 0; ShiftMSB 0; Latch;
                          ShiftLSB (2 ^ (7 - (c + i) mod 6));
                          ShiftMSB (index b ((c + i) mod 6) 0); Latch])
                    [(0, b0); (1, b1); (2, b2); (3, b3); (4, b4); (5, b5)]),
               c)).
  { rewrite !displayTask_run_cons. cbn [displayTask_run].
    assert (Ec : c = 0 \/ c = 1 \/ c = 2 \/ c = 3 \/ c = 4 \/ c = 5) by lia.
    destruct Ec as [-> | [-> | [-> | [-> | [-> | ->]]]]];
      repeat (rewrite Hpass by (vm_compute; intuition discriminate);
              cbn [fst snd]);
      reflexivity. }
  split; [apply Hpass; exact Hc |].
  split; [exact Hrun |].
  intros d Hd. rewrite Hrun. cbn [fst].
  assert (Ec : c = 0 \/ c = 1 \/ c = 2 \/ c = 3 \/ c = 4 \/ c = 5) by lia.
  assert (Ed : d = 0 \/ d = 1 \/ d = 2 \/ d = 3 \/ d = 4 \/ d = 5) by lia.
  destruct Ec as [-> | [-> | [-> | [-> | [-> | ->]]]]];
    destruct Ed as [-> | [-> | [-> | [-> | [-> | ->]]]]];
    vm_compute; reflexivity.
Qed.

Lemma displayTask_scans_every_digit_witness :
  displayTask_pass [63; 6; 91; 79; 102; 109] 5
  = ([ShiftMSB 0; ShiftMSB 0; Latch; ShiftLSB 4; ShiftMSB 109; Latch], 0)
  /\ count_occ ShiftOut_eq_dec
       (fst (displayTask_run
               [[63; 6; 91; 79; 102; 109]; [63; 6; 91; 79; 102; 109];
                [63; 6; 91; 79; 102; 109]; [63; 6; 91; 79; 102; 109];
                [63; 6; 91; 79; 102; 109]; [63; 6; 91; 79; 102; 109]] 5))
       (ShiftLSB 128) = 1%nat.
Proof.
  destruct (displayTask_scans_every_digit
              [63; 6; 91; 79; 102; 109]
              [63; 6; 91; 79; 102; 109] [63; 6; 91; 79; 102; 109]
              [63; 6; 91; 79; 102; 109] [63; 6; 91; 79; 102; 109]
              [63; 6; 91; 79; 102; 109] [63; 6; 91; 79; 102; 109] 5)
    as (_ & Hin).
  destruct Hin as (Hpass & _ & Hcount); [by_eval |].
  split; [exact Hpass |].
  apply (Hcount 0). by_eval.
Defined.

(** ** Touch and gestures *)

(** X13 -- the touch interrupt: a second interrupt before the main loop has
    taken note of the first changes nothing (gotTouchEvent composed with
    itself is gotTouchEvent), [touchActive] toggles exactly when
    [lastTouchActive] differs from [testingLower], and the direction given
    to the sensor always equals [testingLower] if it did before. *)
Theorem gotTouchEvent_idempotent (t : Touch) :
  gotTouchEvent (gotTouchEvent t) = gotTouchEvent t
  /\ (touchActive (gotTouchEvent t) <> touchActive t <->
      lastTouchActive t <> testingLower t)
  /\ (threshold_lower t = testingLower t ->
      threshold_lower (gotTouchEvent t) = testingLower (gotTouchEvent t)).
Proof.
  unfold gotTouchEvent.
  destruct t as [th ta la tl c e p s w]. cbn.
  destruct la, tl, ta; cbn; repeat split; intros; try reflexivity;
    try assumption; try discriminate; try congruence.
Qed.

Lemma gotTouchEvent_idempotent_witness :
  threshold_lower (gotTouchEvent (mkTouch true false false true 0 0 true false false))
  = false.
Proof.
  destruct (gotTouchEvent_idempotent
              (mkTouch true false false true 0 0 true false false))
    as (_ & _ & Hdir).
  rewrite Hdir; reflexivity.
Defined.

(** The gesture step only records the fused signal, and acts on the
    display only when that signal has just risen. *)
Lemma touchGesture_edge (e : bool) (t : Touch) (g : Globals) :
  lastTouchActive (fst (touchGesture e t g)) = e
  /\ touchActive (fst (touchGesture e t g)) = touchActive t
  /\ testingLower (fst (touchGesture e t g)) = testingLower t
  /\ threshold_lower (fst (touchGesture e t g)) = threshold_lower t
  /\ (lastTouchActive t = true \/ e = false -> snd (touchGesture e t g) = g).
Proof.
  unfold touchGesture.
  destruct (Bool.eqb (lastTouchActive t) e) eqn:E; cbn [negb].
  - apply Bool.eqb_prop in E. cbn. repeat split; try assumption. 
  - apply Bool.eqb_false_iff in E.
    destruct e.
    + assert (Hl : lastTouchActive t = false)
        by (destruct (lastTouchActive t); [exfalso; auto | reflexivity]).
      repeat match goal with |- context [if ?c then _ else _] => destruct c end;
        cbn; repeat split; intros [H | H]; congruence.
    + cbn. repeat split.
Qed.

(** The switch heuristic leaves the sensor's variables alone, and computes
    no touch while sw_2, sw_5 and sw_6 are all off. *)
Lemma computeTouch_core (ms : MillisReads) (sws : Switches) (t : Touch)
    (g : Globals) :
  touchActive (fst (computeTouch ms sws t g)) = touchActive t
  /\ lastTouchActive (fst (computeTouch ms sws t g)) = lastTouchActive t
  /\ testingLower (fst (computeTouch ms sws t g)) = testingLower t
  /\ threshold_lower (fst (computeTouch ms sws t g)) = threshold_lower t.
Proof.
  unfold computeTouch.
  destruct (changed (sw_2 sws) || changed (sw_5 g) || changed (sw_6 sws));
    cbv zeta;
    destruct (negb (state (sw_2 sws) && state (sw_5 g)) && wasD555 t);
    repeat split.
Qed.

Lemma computeTouch_idle (ms : MillisReads) (sws : Switches) (t : Touch)
    (g : Globals) :
  state (sw_2 sws) = false -> state (sw_5 g) = false ->
  state (sw_6 sws) = false ->
  snd (computeTouch ms sws t g) = false.
Proof.
  intros H2 H5 H6. unfold computeTouch. rewrite H2, H5, H6.
  destruct (changed (sw_2 sws) || changed (sw_5 g) || changed (sw_6 sws));
    cbv zeta; cbn [andb negb];
    rewrite ?Bool.andb_false_r; cbn [orb];
    destruct (wasD555 t); cbn [snd];
    repeat match goal with |- context [if ?c then _ else _] => destruct c end;
    reflexivity.
Qed.

(** handleTouchEvent is the gesture step on the fused signal. *)
Lemma handleTouchEvent_gesture (ms : MillisReads) (sws : Switches) (t : Touch)
    (g : Globals) :
  exists t1 computed,
    handleTouchEvent ms sws t g = touchGesture (touchActive t || computed) t1 g
    /\ touchActive t1 = touchActive t
    /\ lastTouchActive t1 = lastTouchActive t
    /\ testingLower t1 = testingLower t
    /\ threshold_lower t1 = threshold_lower t
    /\ (emulation (info g) <> WIFI -> t1 = t /\ computed = false)
    /\ (state (sw_2 sws) = false -> state (sw_5 g) = false ->
        state (sw_6 sws) = false -> computed = false).
Proof.
  unfold handleTouchEvent.
  destruct (Z.eqb_spec (emulation (info g)) WIFI) as [E | E].
  - destruct (computeTouch_core ms sws t g) as (C1 & C2 & C3 & C4).
    pose proof (computeTouch_idle ms sws t g) as Hidle.
    destruct (computeTouch ms sws t g) as [t1 c]. cbn [fst snd] in *.
    exists t1, c. rewrite C1. repeat split; try assumption.
    all: contradiction.
  - exists t, false. repeat split.
Qed.

(** X14 -- touch is edge triggered: a pass of handleTouchEvent changes the
    globals only in the pass in which the fused touch signal rises
    ([lastTouchActive] goes from false to true); while the signal is held,
    when it falls and while it is absent, nothing of the display state
    changes. *)
Theorem touch_acts_on_rising_edge (ms : MillisReads) (sws : Switches)
    (t : Touch) (g : Globals) :
  lastTouchActive t = true
  \/ lastTouchActive (fst (handleTouchEvent ms sws t g)) = false ->
  snd (handleTouchEvent ms sws t g) = g.
Proof.
  intros H.
  destruct (handleTouchEvent_gesture ms sws t g)
    as (t1 & c & E & T1 & T2 & _).
  rewrite E in *.
  destruct (touchGesture_edge (touchActive t || c) t1 g)
    as (Hl & _ & _ & _ & Hg).
  apply Hg. rewrite T2. destruct H as [H | H]; [left; exact H |].
  right. rewrite <- Hl. exact H.
Qed.

Lemma touch_acts_on_rising_edge_witness :
  snd (handleTouchEvent (mkMillis 0 0 0 0) switches0
         (mkTouch false true true false 0 0 true false false)
         (set_currentDisplayMode MODE_TIME boot))
  = set_currentDisplayMode MODE_TIME boot.
Proof.
  apply (touch_acts_on_rising_edge (mkMillis 0 0 0 0) switches0
           (mkTouch false true true false 0 0 true false false)
           (set_currentDisplayMode MODE_TIME boot)).
  left. reflexivity.
Defined.

(** The gesture on a rising edge. *)
Lemma touchGesture_rise (t : Touch) (g : Globals) :
  lastTouchActive t = false ->
  snd (touchGesture true t g)
  = (if DisplayMode_eqb (currentDisplayMode g) MODE_TIME then
       set_datecounter (if emulation (info g) =? WIFI then showdatesec else 5)
         (set_touchoverride true
            (println "Touch event: Show date"
               (set_currentDisplayMode MODE_DATE g)))
     else if (emulation (info g) =? WIFI)
             && DisplayMode_eqb (currentDisplayMode g) MODE_DATE then
       println "Touch event: Blank display"
         (set_messageindex 9
            (set_currentDisplayMode MODE_MESSAGE
               (set_overrideForBlank true (set_manualOverride true g))))
     else if (emulation (info g) =? WIFI)
             && DisplayMode_eqb (currentDisplayMode g) MODE_MESSAGE then
       println "Touch event: Show time"
         (set_currentDisplayMode MODE_TIME
            (set_overrideForBlank false (set_manualOverride true g)))
     else g).
Proof.
  intros Hl. unfold touchGesture. rewrite Hl. cbn [Bool.eqb negb]. fields.
  destruct (currentDisplayMode g); cbn [DisplayMode_eqb];
    destruct (emulation (info g) =? WIFI); reflexivity.
Qed.

(** One tap with the switches off: the first pass sees the rising edge,
    the second the falling edge, and the sensor is armed again. *)
Lemma tap_gesture (ms : MillisReads) (sws : Switches) (t : Touch)
    (g : Globals) :
  state (sw_2 sws) = false -> state (sw_5 g) = false ->
  state (sw_6 sws) = false ->
  armed t ->
  exists t1, lastTouchActive t1 = false
    /\ snd (tap ms sws (t, g)) = snd (touchGesture true t1 g)
    /\ (sw_5 (snd (touchGesture true t1 g)) = sw_5 g ->
        armed (fst (tap ms sws (t, g)))).
Proof.
  intros H2 H5 H6 (Ha & Hl & Ht).
  unfold tap.
  assert (G1 : touchActive (gotTouchEvent t) = true
               /\ lastTouchActive (gotTouchEvent t) = false
               /\ testingLower (gotTouchEvent t) = false).
  { unfold gotTouchEvent. rewrite Hl, Ht, Ha. repeat split. }
  destruct G1 as (A1 & L1 & T1).
  destruct (handleTouchEvent_gesture ms sws (gotTouchEvent t) g)
    as (t1 & c & E & Ta & Tl & Tt & _).
  rewrite A1 in E. cbn [orb] in E. rewrite E.
  destruct (touchGesture_edge true t1 g) as (Gl & Ga & Gt & _).
  destruct (touchGesture true t1 g) as [t2 g2] eqn:Eg.
  cbn [fst snd] in *. cbv beta iota.
  exists t1. split; [congruence |]. rewrite Eg. cbn [snd].
  destruct (handleTouchEvent_gesture ms sws (gotTouchEvent t2) g2)
    as (t3 & c3 & E3 & Ta3 & Tl3 & Tt3 & _ & _ & Hidle).
  assert (G2 : touchActive (gotTouchEvent t2) = false
               /\ lastTouchActive (gotTouchEvent t2) = true
               /\ testingLower (gotTouchEvent t2) = true).
  { unfold gotTouchEvent. rewrite Gl, Gt, Tt, T1, Ga, Ta, A1. repeat split. }
  destruct G2 as (A2 & L2 & T2).
  rewrite E3. cbn [fst snd].
  destruct (touchGesture_edge (touchActive (gotTouchEvent t2) || c3) t3 g2)
    as (Fl & Fa & Ft & _ & Fg).
  split.
  - apply Fg. left. congruence.
  - intros Hsw. rewrite Hidle in * by congruence. rewrite A2 in *.
    cbn [orb] in *. unfold armed. repeat split; congruence.
Qed.

(** X15 -- the touch cycle of WIFI emulation: with the switches sw_2, sw_5
    and sw_6 off, one tap on the sensor moves the display from the time to
    the date (countdown [showdatesec], touch override on), from the date to
    the blank message 9 (manual override forcing blank), and from a message
    to the time (manual override forcing the time); the set display is left
    alone.  The sensor is armed again after every tap, so three taps from
    the time come back to the time. *)
Theorem wifi_touch_cycle (ms1 ms2 ms3 : MillisReads) (sws : Switches)
    (t : Touch) (g : Globals) :
  emulation (info g) = WIFI ->
  state (sw_2 sws) = false -> state (sw_5 g) = false ->
  state (sw_6 sws) = false ->
  armed t ->
  armed (fst (tap ms1 sws (t, g)))
  /\ (currentDisplayMode g = MODE_TIME ->
      currentDisplayMode (snd (tap ms1 sws (t, g))) = MODE_DATE
      /\ datecounter (snd (tap ms1 sws (t, g))) = showdatesec
      /\ touchoverride (snd (tap ms1 sws (t, g))) = true)
  /\ (currentDisplayMode g = MODE_DATE ->
      currentDisplayMode (snd (tap ms1 sws (t, g))) = MODE_MESSAGE
      /\ messageindex (snd (tap ms1 sws (t, g))) = 9
      /\ manualOverride (snd (tap ms1 sws (t, g))) = true
      /\ overrideForBlank (snd (tap ms1 sws (t, g))) = true)
  /\ (currentDisplayMode g = MODE_MESSAGE ->
      currentDisplayMode (snd (tap ms1 sws (t, g))) = MODE_TIME
      /\ manualOverride (snd (tap ms1 sws (t, g))) = true
      /\ overrideForBlank (snd (tap ms1 sws (t, g))) = false)
  /\ (currentDisplayMode g = MODE_SET -> snd (tap ms1 sws (t, g)) = g)
  /\ (currentDisplayMode g = MODE_TIME ->
      currentDisplayMode
        (snd (tap ms3 sws (tap ms2 sws (tap ms1 sws (t, g))))) = MODE_TIME).
Proof.
  intros He H2 H5 H6 Harm.
  assert (Step : forall ms t g,
             emulation (info g) = WIFI -> state (sw_5 g) = false ->
             armed t ->
             armed (fst (tap ms sws (t, g)))
             /\ emulation (info (snd (tap ms sws (t, g)))) = WIFI
             /\ state (sw_5 (snd (tap ms sws (t, g)))) = false
             /\ snd (tap ms sws (t, g))
                = match currentDisplayMode g with
                  | MODE_TIME =>
                      set_datecounter showdatesec
                        (set_touchoverride true
                           (println "Touch event: Show date"
                              (set_currentDisplayMode MODE_DATE g)))
                  | MODE_DATE =>
                      println "Touch event: Blank display"
                        (set_messageindex 9
                           (set_currentDisplayMode MODE_MESSAGE
                              (set_overrideForBlank true
                                 (set_manualOverride true g))))
                  | MODE_MESSAGE =>
                      println "Touch event: Show time"
                        (set_currentDisplayMode MODE_TIME
                           (set_overrideForBlank false
                              (set_manualOverride true g)))
                  | MODE_SET => g
                  end).
  { clear t g He H5 Harm. intros ms t g He H5 Harm.
    destruct (tap_gesture ms sws t g H2 H5 H6 Harm) as (t1 & L1 & Es & Ha).
    rewrite (touchGesture_rise t1 g L1) in Es, Ha.
    rewrite He in Es, Ha. change (WIFI =? WIFI) with true in Es, Ha.
    cbn [andb] in Es, Ha. rewrite Es.
    destruct (currentDisplayMode g); cbn [DisplayMode_eqb] in *;
      (split; [apply Ha; reflexivity |]); repeat split; assumption. }
  destruct (Step ms1 t g He H5 Harm) as (A1 & E1 & S1 & R1).
  split; [exact A1 |].
  split; [intros Hm; rewrite R1, Hm; repeat split |].
  split; [intros Hm; rewrite R1, Hm; repeat split |].
  split; [intros Hm; rewrite R1, Hm; repeat split |].
  split; [intros Hm; rewrite R1, Hm; reflexivity |].
  intros Hm.
  destruct (tap ms1 sws (t, g)) as [ta ga] eqn:T1. cbn [fst snd] in *.
  destruct (Step ms2 ta ga E1 S1 A1) as (A2 & E2 & S2 & R2).
  destruct (tap ms2 sws (ta, ga)) as [tb gb] eqn:T2. cbn [fst snd] in *.
  destruct (Step ms3 tb gb E2 S2 A2) as (_ & _ & _ & R3).
  rewrite R3, R2, R1, Hm. reflexivity.
Qed.

Lemma wifi_touch_cycle_witness :
  currentDisplayMode
    (snd (tap (mkMillis 9000 9000 9000 9000) switches0
            (tap (mkMillis 5000 5000 5000 5000) switches0
               (tap (mkMillis 1000 1000 1000 1000) switches0
                  (mkTouch true false false true 0 0 true false false,
                   set_currentDisplayMode MODE_TIME boot)))))
  = MODE_TIME.
Proof.
  apply (wifi_touch_cycle (mkMillis 1000 1000 1000 1000)
           (mkMillis 5000 5000 5000 5000) (mkMillis 9000 9000 9000 9000)
           switches0 (mkTouch true false false true 0 0 true false false)
           (set_currentDisplayMode MODE_TIME boot));
    try reflexivity.
  repeat split.
Defined.

(** X16 -- touch in MK5017 emulation: the switch heuristic is not run, so
    only the capacitive sensor counts; a rising edge while the time is shown
    switches to the date with a countdown of 5 and the touch override on; in
    every other display mode a pass changes nothing, and in no case are the
    manual override, the blank override or the message index touched. *)
Theorem mk5017_touch_shows_date_only (ms : MillisReads) (sws : Switches)
    (t : Touch) (g : Globals) :
  emulation (info g) = MK5017 ->
  (lastTouchActive t = false -> touchActive t = true ->
   currentDisplayMode g = MODE_TIME ->
   currentDisplayMode (snd (handleTouchEvent ms sws t g)) = MODE_DATE
   /\ datecounter (snd (handleTouchEvent ms sws t g)) = 5
   /\ touchoverride (snd (handleTouchEvent ms sws t g)) = true)
  /\ (currentDisplayMode g <> MODE_TIME ->
      snd (handleTouchEvent ms sws t g) = g)
  /\ manualOverride (snd (handleTouchEvent ms sws t g)) = manualOverride g
  /\ overrideForBlank (snd (handleTouchEvent ms sws t g)) = overrideForBlank g
  /\ messageindex (snd (handleTouchEvent ms sws t g)) = messageindex g
  /\ lastTouchActive (fst (handleTouchEvent ms sws t g)) = touchActive t.
Proof.
  intros He.
  assert (E : handleTouchEvent ms sws t g = touchGesture (touchActive t) t g).
  { unfold handleTouchEvent. rewrite He. change (MK5017 =? WIFI) with false.
    cbv iota beta. rewrite Bool.orb_false_r. reflexivity. }
  rewrite E.
  destruct (touchGesture_edge (touchActive t) t g) as (Gl & _ & _ & _ & Gg).
  assert (Hrise : lastTouchActive t = false -> touchActive t = true ->
                  snd (touchGesture (touchActive t) t g)
                  = if DisplayMode_eqb (currentDisplayMode g) MODE_TIME
                    then set_datecounter 5
                           (set_touchoverride true
                              (println "Touch event: Show date"
                                 (set_currentDisplayMode MODE_DATE g)))
                    else g).
  { intros Hl Ha. rewrite Ha, (touchGesture_rise t g Hl), He.
    change (MK5017 =? WIFI) with false. reflexivity. }
  assert (Hcases : snd (touchGesture (touchActive t) t g) = g
                   \/ (lastTouchActive t = false /\ touchActive t = true)).
  { destruct (lastTouchActive t) eqn:Hl; [left; apply Gg; left; reflexivity |].
    destruct (touchActive t) eqn:Ha; [right; split; reflexivity |].
    left. apply Gg. right. reflexivity. }
  split; [| split; [| split; [| split; [| split]]]].
  - intros Hl Ha Hm. rewrite (Hrise Hl Ha), Hm. repeat split.
  - intros Hm. destruct Hcases as [Hg | (Hl & Ha)]; [exact Hg |].
    rewrite (Hrise Hl Ha).
    destruct (currentDisplayMode g); [contradiction | reflexivity ..].
  - destruct Hcases as [-> | (Hl & Ha)]; [reflexivity |].
    rewrite (Hrise Hl Ha).
    destruct (DisplayMode_eqb (currentDisplayMode g) MODE_TIME); reflexivity.
  - destruct Hcases as [-> | (Hl & Ha)]; [reflexivity |].
    rewrite (Hrise Hl Ha).
    destruct (DisplayMode_eqb (currentDisplayMode g) MODE_TIME); reflexivity.
  - destruct Hcases as [-> | (Hl & Ha)]; [reflexivity |].
    rewrite (Hrise Hl Ha).
    destruct (DisplayMode_eqb (currentDisplayMode g) MODE_TIME); reflexivity.
  - exact Gl.
Qed.

Lemma mk5017_touch_shows_date_only_witness :
  datecounter
    (snd (handleTouchEvent (mkMillis 0 0 0 0) switches0
            (mkTouch false true false false 0 0 true false false)
            (set_info (mkInfo MK5017 MODEL_GC_1092D)
               (set_currentDisplayMode MODE_TIME boot)))) = 5.
Proof.
  destruct (mk5017_touch_shows_date_only (mkMillis 0 0 0 0) switches0
              (mkTouch false true false false 0 0 true false false)
              (set_info (mkInfo MK5017 MODEL_GC_1092D)
                 (set_currentDisplayMode MODE_TIME boot)))
    as (Hrise & _); [reflexivity |].
  destruct Hrise as (_ & Hcount & _); [reflexivity .. | exact Hcount].
Defined.

(** ** Timing pulses *)

(** A reading of the time source within its ranges. *)
Lemma timeOfDay_bound (h m s : Z) :
  0 <= h < 24 -> 0 <= m < 60 -> 0 <= s < 60 ->
  uint32 (uint32 (uint32 h * 3600) + uint32 (uint32 m * 60) + uint32 s)
  = h * 3600 + m * 60 + s
  /\ 0 <= h * 3600 + m * 60 + s < 86400.
Proof.
  intros Hh Hm Hs.
  rewrite (uint32_small h), (uint32_small m), (uint32_small s)
    by (change (2 ^ 32) with 4294967296; lia).
  rewrite (uint32_small (h * 3600)), (uint32_small (m * 60))
    by (change (2 ^ 32) with 4294967296; lia).
  rewrite uint32_small by (change (2 ^ 32) with 4294967296; lia).
  split; [reflexivity | lia].
Qed.

(** The second-change branch, before the half-second test. *)
Lemma handleTimedDispatches_second (tz : Timezone) (m1 m2 : Z) (tm : Timing)
    (g : Globals) :
  exists g1 lastMinute sync,
    handleTimedDispatches true tz m1 m2 tm g
    = (if HALF_OFFSET_US <=? uint32 (m2 - m1)
       then (mkTiming m1 true lastMinute (alarmDT tm),
             set_halfSecond true g1, sync)
       else (mkTiming m1 false lastMinute (alarmDT tm), g1, sync))
    /\ g1 = set_alarmSeconds
              (uint32 (uint32 (uint32 (dt_hour (alarmDT tm)) * 3600)
                       + uint32 (uint32 (dt_minute (alarmDT tm)) * 60)
                       + uint32 (dt_second (alarmDT tm))))
              (set_timeSeconds
                 (uint32 (uint32 (uint32 (tz_hour tz) * 3600)
                          + uint32 (uint32 (tz_minute tz) * 60)
                          + uint32 (tz_second tz)))
                 (set_topOfSecond true (updateDisplayStateIfNeeded tz g))).
Proof.
  unfold handleTimedDispatches.
  destruct (toInt (dateTime tz "s") mod 60 =? 0);
    [destruct (negb (toInt (dateTime tz "i") =? lastMinuteSeen tm)
               && negb (lastMinuteSeen tm =? 0)) |];
    cbv beta iota zeta; cbn [halfSecondFired secondEdgeMicros negb andb
                               lastMinuteSeen alarmDT];
    eexists _, _, _;
    (split; [| reflexivity]);
    destruct (HALF_OFFSET_US <=? uint32 (m2 - m1)); reflexivity.
Qed.

(** X17 -- the clock reading kept for the alarm: after a pass of
    handleTimedDispatches in which the second changed, with the time source
    reading within its ranges, [timeSeconds] is hour * 3600 + minute * 60 +
    second, a time of day below 86400, [alarmSeconds] is the same
    expression of the alarm time, and [topOfSecond] is raised. *)
Theorem timeSeconds_is_time_of_day (tz : Timezone) (m1 m2 : Z) (tm : Timing)
    (g : Globals) :
  0 <= tz_hour tz < 24 -> 0 <= tz_minute tz < 60 -> 0 <= tz_second tz < 60 ->
  timeSeconds (snd (fst (handleTimedDispatches true tz m1 m2 tm g)))
  = tz_hour tz * 3600 + tz_minute tz * 60 + tz_second tz
  /\ 0 <= timeSeconds (snd (fst (handleTimedDispatches true tz m1 m2 tm g))) < 86400
  /\ topOfSecond (snd (fst (handleTimedDispatches true tz m1 m2 tm g))) = true
  /\ (0 <= dt_hour (alarmDT tm) < 24 -> 0 <= dt_minute (alarmDT tm) < 60 ->
      0 <= dt_second (alarmDT tm) < 60 ->
      alarmSeconds (snd (fst (handleTimedDispatches true tz m1 m2 tm g)))
      = dt_hour (alarmDT tm) * 3600 + dt_minute (alarmDT tm) * 60
        + dt_second (alarmDT tm)).
Proof.
  intros Hh Hm Hs.
  destruct (handleTimedDispatches_second tz m1 m2 tm g)
    as (g1 & lm & sync & E & Eg).
  destruct (timeOfDay_bound _ _ _ Hh Hm Hs) as (Et & Hb).
  assert (P : timeSeconds (snd (fst (handleTimedDispatches true tz m1 m2 tm g)))
              = timeSeconds g1
              /\ topOfSecond (snd (fst (handleTimedDispatches true tz m1 m2 tm g)))
                 = topOfSecond g1
              /\ alarmSeconds (snd (fst (handleTimedDispatches true tz m1 m2 tm g)))
                 = alarmSeconds g1).
  { rewrite E. destruct (HALF_OFFSET_US <=? uint32 (m2 - m1)); repeat split. }
  destruct P as (-> & -> & ->). subst g1. fields.
  rewrite Et. repeat split; try lia.
  intros Ah Am As. apply (timeOfDay_bound _ _ _ Ah Am As).
Qed.

Lemma timeSeconds_is_time_of_day_witness :
  timeSeconds
    (snd (fst (handleTimedDispatches true (sevenOClock 8) 1000 1004 timing0
                boot)))
  = 25208.
Proof.
  destruct (timeSeconds_is_time_of_day (sevenOClock 8) 1000 1004 timing0 boot)
    as (Ht & _); [by_eval .. | exact Ht].
Defined.

(** A pass in which the second did not change only runs the half-second
    test. *)
Lemma handleTimedDispatches_no_second (tz : Timezone) (m1 m2 : Z)
    (tm : Timing) (g : Globals) :
  handleTimedDispatches false tz m1 m2 tm g
  = if negb (halfSecondFired tm)
       && (HALF_OFFSET_US <=? uint32 (m2 - secondEdgeMicros tm))
    then (mkTiming (secondEdgeMicros tm) true (lastMinuteSeen tm) (alarmDT tm),
          set_halfSecond true g, false)
    else (tm, g, false).
Proof. reflexivity. Qed.

(** X18 -- the half-second pulse: between two second changes
    handleTimedDispatches raises [halfSecond] in the first pass that comes
    500000 us or more (32-bit unsigned) after the second edge, and marks it
    as fired; once fired, and after the main loop has cleared the pulse, no
    later pass raises it again until the second changes, whatever the clock
    reads; before that time, and once fired, a pass changes nothing. *)
Theorem half_second_fires_once (tz : Timezone) (m1 m2 : Z) (tm : Timing)
    (g : Globals) :
  (halfSecondFired tm = false ->
   HALF_OFFSET_US <= uint32 (m2 - secondEdgeMicros tm) ->
   halfSecond (snd (fst (handleTimedDispatches false tz m1 m2 tm g))) = true
   /\ halfSecondFired (fst (fst (handleTimedDispatches false tz m1 m2 tm g)))
      = true
   /\ forall (tz' : Timezone) (m1' m2' : Z),
       handleTimedDispatches false tz' m1' m2'
         (fst (fst (handleTimedDispatches false tz m1 m2 tm g)))
         (loop_clearPulses
            (snd (fst (handleTimedDispatches false tz m1 m2 tm g))))
       = (fst (fst (handleTimedDispatches false tz m1 m2 tm g)),
          loop_clearPulses
            (snd (fst (handleTimedDispatches false tz m1 m2 tm g))),
          false))
  /\ (halfSecondFired tm = true
      \/ uint32 (m2 - secondEdgeMicros tm) < HALF_OFFSET_US ->
      handleTimedDispatches false tz m1 m2 tm g = (tm, g, false)).
Proof.
  rewrite handleTimedDispatches_no_second.
  split.
  - intros Hf Hel. apply Z.leb_le in Hel. rewrite Hf, Hel. cbn.
    split; [reflexivity |]. split; [reflexivity |].
    intros tz' m1' m2'. reflexivity.
  - intros [Hf | Hel].
    + rewrite Hf. reflexivity.
    + apply Z.leb_gt in Hel. rewrite Hel, Bool.andb_false_r. reflexivity.
Qed.

Lemma half_second_fires_once_witness :
  halfSecond
    (snd (fst (handleTimedDispatches false (sevenOClock 8) 0 600000
                 (mkTiming 100000 false 0 (mkDateTime 7 0 0)) boot))) = true
  /\ handleTimedDispatches false (sevenOClock 8) 0 400000
       (mkTiming 100000 false 0 (mkDateTime 7 0 0)) boot
     = (mkTiming 100000 false 0 (mkDateTime 7 0 0), boot, false).
Proof.
  destruct (half_second_fires_once (sevenOClock 8) 0 600000
              (mkTiming 100000 false 0 (mkDateTime 7 0 0)) boot)
    as (Hfire & _).
  destruct (half_second_fires_once (sevenOClock 8) 0 400000
              (mkTiming 100000 false 0 (mkDateTime 7 0 0)) boot)
    as (_ & Hquiet).
  destruct Hfire as (Hpulse & _); [reflexivity | by_eval |].
  split; [exact Hpulse | apply Hquiet; right; by_eval].
Defined.

(** ** Restart gesture *)

Lemma ResetOn3xTimeSet_cases (now : Z) (p : TimeSetPresses) (g : Globals) :
  0 <= timeSetCount p <= 2 ->
  (snd (ResetOn3xTimeSet now p g) = true <->
   timeSetCount p = 2 /\ uint32 (now - startTime p) <= 5000)
  /\ (snd (ResetOn3xTimeSet now p g) = false ->
      1 <= timeSetCount (fst (fst (ResetOn3xTimeSet now p g))) <= 2)
  /\ (timeSetCount p = 0 \/ 5000 < uint32 (now - startTime p) ->
      fst (fst (ResetOn3xTimeSet now p g)) = mkPresses 1 now)
  /\ (timeSetCount p = 1 -> uint32 (now - startTime p) <= 5000 ->
      fst (fst (ResetOn3xTimeSet now p g)) = mkPresses 2 (startTime p)).
Proof.
  intros Hc. unfold ResetOn3xTimeSet.
  assert (C : timeSetCount p = 0 \/ timeSetCount p = 1 \/ timeSetCount p = 2)
    by lia.
  destruct (Z.leb_spec (uint32 (now - startTime p)) 5000) as [Hw | Hw];
    destruct C as [C | [C | C]]; rewrite C; cbn;
    repeat split; intros; try reflexivity; try discriminate; try lia;
    try (exfalso; intuition lia).
Qed.

(** X19 -- the restart gesture: starting from no recorded press, the
    restart is reached exactly at a third press that comes within 5000 ms
    (32-bit unsigned) of the first of the three; one or two presses never
    restart, and a press later than 5000 ms after the first starts a new
    count of one. *)
Theorem restart_needs_three_presses (t1 t2 t3 : Z) (g : Globals) :
  snd (pressTimeSet [t1] presses0 g) = false
  /\ snd (pressTimeSet [t1; t2] presses0 g) = false
  /\ (uint32 (t2 - t1) <= 5000 ->
      (snd (pressTimeSet [t1; t2; t3] presses0 g) = true <->
       uint32 (t3 - t1) <= 5000))
  /\ (5000 < uint32 (t2 - t1) ->
      snd (pressTimeSet [t1; t2; t3] presses0 g) = false
      /\ fst (fst (pressTimeSet [t1; t2] presses0 g)) = mkPresses 1 t2).
Proof.
  assert (E1 : forall h, ResetOn3xTimeSet t1 presses0 h
                         = (mkPresses 1 t1, h, false)) by reflexivity.
  assert (E2 : forall h, exists h',
             ResetOn3xTimeSet t2 (mkPresses 1 t1) h
             = (if uint32 (t2 - t1) <=? 5000 then mkPresses 2 t1
                else mkPresses 1 t2, h', false)).
  { intros h. unfold ResetOn3xTimeSet. cbn.
    destruct (uint32 (t2 - t1) <=? 5000); eexists; reflexivity. }
  destruct (E2 g) as (g2 & E2g).
  cbn [pressTimeSet]. rewrite E1, E2g. cbv beta iota.
  split; [reflexivity |]. split; [reflexivity |].
  split.
  - intros Hw. apply Z.leb_le in Hw. rewrite Hw.
    unfold ResetOn3xTimeSet. cbn.
    destruct (Z.leb_spec (uint32 (t3 - t1)) 5000) as [H3 | H3]; cbn;
      split; intros; try reflexivity; try discriminate; lia.
  - intros Hw. apply Z.leb_gt in Hw. rewrite Hw. split; [| reflexivity].
    unfold ResetOn3xTimeSet. cbn.
    destruct (uint32 (t3 - t2) <=? 5000); reflexivity.
Qed.

Lemma restart_needs_three_presses_witness :
  snd (pressTimeSet [1000; 2500; 5900] presses0 boot) = true
  /\ snd (pressTimeSet [1000; 2500; 6100] presses0 boot) = false.
Proof.
  destruct (restart_needs_three_presses 1000 2500 5900 boot)
    as (_ & _ & Hin & _).
  split; [apply Hin; by_eval | reflexivity].
Defined.

(** ** OTA mode *)

(** X20 -- OTA session: after ArduinoOTA_begin at time [t0] the session is
    active; a check at time [t] leaves everything as it is while at most
    600000 ms (32-bit unsigned) have passed, and afterwards ends the session,
    shuts the access point down and, only in WIFI emulation, returns the
    network stack to station mode; a check on an ended session does
    nothing. *)
Theorem ota_session_times_out (t0 t : Z) (o : Ota) (g : Globals) :
  otaModeActive (fst (ArduinoOTA_begin t0 o g)) = true
  /\ (uint32 (t - t0) <= otaTimeout ->
      checkOtaTimeout t (fst (ArduinoOTA_begin t0 o g))
        (snd (ArduinoOTA_begin t0 o g))
      = ArduinoOTA_begin t0 o g)
  /\ (otaTimeout < uint32 (t - t0) ->
      otaModeActive
        (fst (checkOtaTimeout t (fst (ArduinoOTA_begin t0 o g))
                (snd (ArduinoOTA_begin t0 o g)))) = false
      /\ wifi (fst (checkOtaTimeout t (fst (ArduinoOTA_begin t0 o g))
                      (snd (ArduinoOTA_begin t0 o g))))
         = (wifi (fst (ArduinoOTA_begin t0 o g))
            ++ WiFi_softAPdisconnect
               :: (if emulation (info g) =? WIFI
                   then [WiFi_mode_STA; WiFi_begin] else []))%list)
  /\ (otaModeActive o = false -> forall t', checkOtaTimeout t' o g = (o, g)).
Proof.
  split; [reflexivity |]. split; [| split].
  - intros H. apply Z.leb_le in H. unfold checkOtaTimeout, ArduinoOTA_begin.
    cbn [fst snd otaModeActive otaStartTime andb].
    apply Z.leb_le in H. apply Z.ltb_ge in H. rewrite H. reflexivity.
  - intros H. apply Z.ltb_lt in H. unfold checkOtaTimeout, ArduinoOTA_begin.
    cbn [fst snd otaModeActive otaStartTime andb]. rewrite H. fields.
    cbn [fst otaModeActive wifi].
    split; [reflexivity |].
    destruct (emulation (info g) =? WIFI); cbn [wifi];
      rewrite <- ?app_assoc; reflexivity.
  - intros H t'. unfold checkOtaTimeout. rewrite H. reflexivity.
Qed.

Lemma ota_session_times_out_witness :
  checkOtaTimeout 660000 (fst (ArduinoOTA_begin 60000 (mkOta false 0 []) boot))
    (snd (ArduinoOTA_begin 60000 (mkOta false 0 []) boot))
  = ArduinoOTA_begin 60000 (mkOta false 0 []) boot
  /\ otaModeActive
       (fst (checkOtaTimeout 660001
               (fst (ArduinoOTA_begin 60000 (mkOta false 0 []) boot))
               (snd (ArduinoOTA_begin 60000 (mkOta false 0 []) boot))))
     = false.
Proof.
  destruct (ota_session_times_out 60000 660000 (mkOta false 0 []) boot)
    as (_ & Hkeep & _).
  destruct (ota_session_times_out 60000 660001 (mkOta false 0 []) boot)
    as (_ & _ & Hend & _).
  split; [apply Hkeep; by_eval |].
  destruct Hend as (Hoff & _); [by_eval | exact Hoff].
Defined.

(** ** Alarm engine in the main loop *)

Lemma alarmToneDriver_silent (g : Globals) :
  alarmState g <> ALARM_SOUNDING -> toneActive (alarmToneDriver g) = false.
Proof.
  intros Hne. unfold alarmToneDriver.
  apply AlarmState_eqb_neq in Hne. rewrite Hne. simpl.
  apply alarmToneStop_inactive.
Qed.

Lemma alarmToneStop_enabled (g : Globals) :
  alarmEnabled (alarmToneStop g) = alarmEnabled g.
Proof. unfold alarmToneStop. destruct (toneActive g); reflexivity. Qed.

(** [updateAlarm] never changes [alarmEnabled], goes to IDLE when the alarm
    is disabled, and is in SOUNDING afterwards only if it is enabled. *)
Lemma updateAlarm_enabled (g : Globals) :
  alarmEnabled (updateAlarm g) = alarmEnabled g
  /\ (alarmEnabled g = false -> alarmState (updateAlarm g) = ALARM_IDLE)
  /\ (alarmState (updateAlarm g) = ALARM_SOUNDING -> alarmEnabled g = true).
Proof.
  unfold updateAlarm.
  destruct (alarmState g) eqn:Es; destruct (alarmEnabled g) eqn:Ee;
    cbn [negb];
    repeat match goal with
      | |- context [if ?c then _ else _] => destruct c
      end;
    fields; rewrite ?alarmToneStop_enabled,
                    ?(proj1 (alarmToneStop_alarm _)), ?Es, ?Ee;
    repeat split; intros; try reflexivity; try assumption; try discriminate.
Qed.

Lemma alarmToneDriver_enabled (g : Globals) :
  alarmEnabled (alarmToneDriver g) = alarmEnabled g.
Proof.
  unfold alarmToneDriver, alarmToneStart, alarmToneStop.
  repeat match goal with
    | |- context [if ?c then _ else _] => destruct c eqn:?
    end; reflexivity.
Qed.

(** What [updateAlarm] does to the tone: nothing, except where it leaves
    SOUNDING for IDLE, which stops it. *)
Lemma updateAlarm_tone (g : Globals) :
  (toneActive (updateAlarm g) = toneActive g
   /\ rmt (updateAlarm g) = rmt g)
  \/ (alarmState (updateAlarm g) = ALARM_IDLE
      /\ toneActive (updateAlarm g) = false
      /\ rmt (updateAlarm g)
         = if toneActive g then (rmt g ++ [RmtTxStop])%list else rmt g).
Proof.
  unfold updateAlarm.
  destruct (alarmState g) eqn:Es; destruct (alarmEnabled g) eqn:Ee;
    cbn [negb];
    repeat match goal with
      | |- context [if ?c then _ else _] =>
          lazymatch c with
          | toneActive _ => fail
          | _ => destruct c
          end
      end;
    fields;
    first [ left; split; reflexivity
          | right; rewrite alarmToneStop_inactive, alarmToneStop_rmt;
            repeat split; reflexivity ].
Qed.

(** The tone after the driver has run on what [updateAlarm] left in a state
    other than SOUNDING: off, the burst cut if one was marked as playing. *)
Lemma alarm_pass_quiet (g : Globals) :
  alarmState (updateAlarm g) <> ALARM_SOUNDING ->
  toneActive (alarmToneDriver (updateAlarm g)) = false
  /\ rmt (alarmToneDriver (updateAlarm g))
     = if toneActive g then (rmt g ++ [RmtTxStop])%list else rmt g.
Proof.
  intros Hne. rewrite (alarmToneDriver_other _ Hne).
  split; [apply alarmToneStop_inactive |].
  rewrite alarmToneStop_rmt.
  destruct (updateAlarm_tone g) as [(Ht & Hr) | (_ & Ht & Hr)];
    rewrite Ht, Hr; reflexivity.
Qed.

Lemma updateAlarm_mirrors (g : Globals) :
  toneActive g = rmtPlaying (rmt g) ->
  toneActive (updateAlarm g) = rmtPlaying (rmt (updateAlarm g)).
Proof.
  intros H.
  destruct (updateAlarm_tone g) as [(Ht & Hr) | (_ & Ht & Hr)];
    rewrite Ht, Hr; [exact H |].
  destruct (toneActive g); [rewrite rmtPlaying_snoc; reflexivity | exact H].
Qed.

(** X21 -- one pass of the alarm engine in the main loop ([updateAlarm]
    followed by [alarmToneDriver], run only in MK5017 emulation and not on
    the GC-1092D).  Whenever the pass ends in a state other than SOUNDING
    the tone is off: [toneActive] is false and the pulse peripheral has
    received one stop command if a burst was marked as playing, nothing
    otherwise; with the alarm disabled this is so from any state, the pass
    ending in IDLE.  The tone is on after a pass only in SOUNDING with the
    alarm enabled.  An armed alarm whose time has come sounds in the same
    pass; if the pass carries the top-of-second pulse the burst starts, with
    one play command to the peripheral unless one was marked as playing.
    The flag keeps mirroring the peripheral over the pass, so that after a
    pass that ends outside SOUNDING the last command the peripheral has
    received is never a play command.  In WIFI emulation or on the GC-1092D
    the pass changes nothing. *)
Theorem alarm_pass_in_loop (g : Globals) :
  emulation (info g) = MK5017 -> model (info g) <> MODEL_GC_1092D ->
  loop_alarm g = alarmToneDriver (updateAlarm g)
  /\ (alarmState (loop_alarm g) <> ALARM_SOUNDING ->
      toneActive (loop_alarm g) = false
      /\ rmt (loop_alarm g)
         = if toneActive g then (rmt g ++ [RmtTxStop])%list else rmt g)
  /\ (alarmEnabled g = false ->
      alarmState (loop_alarm g) = ALARM_IDLE
      /\ toneActive (loop_alarm g) = false
      /\ rmt (loop_alarm g)
         = if toneActive g then (rmt g ++ [RmtTxStop])%list else rmt g)
  /\ (toneActive (loop_alarm g) = true ->
      alarmState (loop_alarm g) = ALARM_SOUNDING /\ alarmEnabled g = true)
  /\ (alarmState g = ALARM_ARMED -> alarmEnabled g = true ->
      timeSeconds g = alarmSeconds g ->
      alarmState (loop_alarm g) = ALARM_SOUNDING
      /\ (topOfSecond g = true -> halfSecond g = false ->
          toneActive (loop_alarm g) = true
          /\ rmt (loop_alarm g)
             = if toneActive g then rmt g
               else (rmt g ++ [RmtWriteItems])%list))
  /\ (toneActive g = rmtPlaying (rmt g) ->
      toneActive (loop_alarm g) = rmtPlaying (rmt (loop_alarm g))
      /\ (alarmState (loop_alarm g) <> ALARM_SOUNDING ->
          rmtPlaying (rmt (loop_alarm g)) = false))
  /\ forall h, emulation (info h) = WIFI \/ model (info h) = MODEL_GC_1092D ->
               loop_alarm h = h.
Proof.
  intros He Hm.
  assert (E : loop_alarm g = alarmToneDriver (updateAlarm g)).
  { unfold loop_alarm. rewrite He. change (MK5017 =? MK5017) with true.
    apply Z.eqb_neq in Hm. rewrite Hm. reflexivity. }
  destruct (updateAlarm_enabled g) as (Ue & Uidle & Usound).
  split; [exact E |]. rewrite E.
  split; [| split; [| split; [| split; [| split]]]].
  - rewrite alarmToneDriver_alarmState. apply alarm_pass_quiet.
  - intros Hd. rewrite alarmToneDriver_alarmState.
    split; [apply Uidle; exact Hd |].
    apply alarm_pass_quiet. rewrite (Uidle Hd). discriminate.
  - intros Ht. rewrite alarmToneDriver_alarmState.
    destruct (alarmState (updateAlarm g)) eqn:Es;
      try (rewrite alarmToneDriver_silent in Ht;
           [discriminate | rewrite Es; discriminate]).
    split; [reflexivity | apply Usound; reflexivity].
  - intros Hs Hen Heq.
    assert (U : updateAlarm g
                = println "ALARM_SOUNDING" (set_alarmState ALARM_SOUNDING g)).
    { unfold updateAlarm. rewrite Hs, Hen. cbn [negb].
      apply Z.eqb_eq in Heq. rewrite Heq. reflexivity. }
    rewrite alarmToneDriver_alarmState, U.
    split; [reflexivity |]. intros Htop Hhalf.
    rewrite alarmToneDriver_sounding by reflexivity. fields. cbv zeta.
    rewrite Htop, alarmToneStart_pulses. fields. rewrite Hhalf.
    split; [apply alarmToneStart_active |].
    rewrite alarmToneStart_rmt. fields. reflexivity.
  - intros Hmir.
    pose proof (alarmToneDriver_mirrors _ (updateAlarm_mirrors g Hmir)) as Hm'.
    split; [exact Hm' |].
    rewrite alarmToneDriver_alarmState. intros Hne.
    rewrite <- Hm'. apply alarm_pass_quiet, Hne.
  - intros h [Hw | Hd]; unfold loop_alarm.
    + rewrite Hw. reflexivity.
    + rewrite Hd. destruct (emulation (info h) =? MK5017); reflexivity.
Qed.

Lemma alarm_pass_in_loop_witness :
  (alarmState
     (loop_alarm
        (set_info (mkInfo MK5017 MODEL_GC_1005)
           (set_alarmEnabled false
              (set_toneActive true (alarmAt7 ALARM_SOUNDING 25300)))))
   = ALARM_IDLE
   /\ rmt (loop_alarm
             (set_info (mkInfo MK5017 MODEL_GC_1005)
                (set_alarmEnabled false
                   (set_toneActive true (alarmAt7 ALARM_SOUNDING 25300)))))
      = [RmtTxStop])
  /\ toneActive
       (loop_alarm
          (set_info (mkInfo MK5017 MODEL_GC_1005)
             (set_topOfSecond true (alarmAt7 ALARM_ARMED 25200)))) = true
  /\ rmt (loop_alarm
            (set_info (mkInfo MK5017 MODEL_GC_1005)
               (set_snoozeTargetS 25720
                  (set_toneActive true (alarmAt7 ALARM_SNOOZE 25300)))))
     = [RmtTxStop].
Proof.
  destruct (alarm_pass_in_loop
              (set_info (mkInfo MK5017 MODEL_GC_1005)
                 (set_alarmEnabled false
                    (set_toneActive true (alarmAt7 ALARM_SOUNDING 25300)))))
    as (_ & _ & Hoff & _); [reflexivity | discriminate |].
  destruct (alarm_pass_in_loop
              (set_info (mkInfo MK5017 MODEL_GC_1005)
                 (set_topOfSecond true (alarmAt7 ALARM_ARMED 25200))))
    as (_ & _ & _ & _ & Hfire & _); [reflexivity | discriminate |].
  destruct (alarm_pass_in_loop
              (set_info (mkInfo MK5017 MODEL_GC_1005)
                 (set_snoozeTargetS 25720
                    (set_toneActive true (alarmAt7 ALARM_SNOOZE 25300)))))
    as (_ & Hquiet & _); [reflexivity | discriminate |].
  split; [| split].
  - destruct Hoff as (Hidle & _ & Hrmt); [reflexivity |].
    split; [exact Hidle | exact Hrmt].
  - apply Hfire; reflexivity.
  - apply Hquiet. vm_compute. intros H. discriminate H.
Defined.

(** X22 -- waking from snooze: after a snooze requested while sounding at
    the time of day T, with the alarm enabled, [updateAlarm] returns to
    SOUNDING exactly when the clock reading has reached T + 420 and
    otherwise stays in SNOOZE.  The target is not reduced modulo a day, so a
    snooze requested at 23:53:00 or later is ended by no time-of-day
    reading. *)
Theorem snooze_wakes_at_target (g : Globals) (t : Z) :
  alarmState g = ALARM_SOUNDING -> alarmEnabled g = true ->
  0 <= timeSeconds g < 86400 ->
  (alarmState (updateAlarm (set_timeSeconds t (requestSnooze g)))
   = ALARM_SOUNDING <-> timeSeconds g + 420 <= t)
  /\ (t < timeSeconds g + 420 ->
      alarmState (updateAlarm (set_timeSeconds t (requestSnooze g)))
      = ALARM_SNOOZE)
  /\ (85980 <= timeSeconds g -> t < 86400 ->
      alarmState (updateAlarm (set_timeSeconds t (requestSnooze g)))
      = ALARM_SNOOZE).
Proof.
  intros Hs He HT.
  assert (R : requestSnooze g
              = set_alarmState ALARM_SNOOZE
                  (alarmToneStop
                     (set_snoozeTargetS (timeSeconds g + 420)
                        (println "Snooze" g)))).
  { unfold requestSnooze.
    change (alarmState (println "Snooze" g)) with (alarmState g).
    rewrite Hs. cbn [AlarmState_eqb]. cbv zeta.
    change (SNOOZE_MIN * 60) with 420.
    change (timeSeconds (println "Snooze" g)) with (timeSeconds g).
    rewrite (uint32_small (timeSeconds g + 420))
      by (change (2 ^ 32) with 4294967296; lia).
    reflexivity. }
  assert (U : alarmState (updateAlarm (set_timeSeconds t (requestSnooze g)))
              = if timeSeconds g + 420 <=? t
                then ALARM_SOUNDING else ALARM_SNOOZE).
  { rewrite R. unfold updateAlarm. fields.
    rewrite alarmToneStop_enabled,
      (proj1 (proj2 (alarmToneStop_alarm _))). fields.
    rewrite He. cbn [negb].
    destruct (timeSeconds g + 420 <=? t); reflexivity. }
  rewrite U.
  destruct (Z.leb_spec (timeSeconds g + 420) t) as [H | H].
  - split; [split; [intros _; exact H | reflexivity] |].
    split; intros; lia.
  - split; [split; [discriminate | intros; lia] |].
    split; reflexivity.
Qed.

Lemma snooze_wakes_at_target_witness :
  alarmState
    (updateAlarm
       (set_timeSeconds 25680 (requestSnooze (alarmAt7 ALARM_SOUNDING 25260))))
  = ALARM_SOUNDING
  /\ alarmState
       (updateAlarm
          (set_timeSeconds 60
             (requestSnooze
                (set_alarmSeconds 86000 (alarmAt7 ALARM_SOUNDING 86000)))))
     = ALARM_SNOOZE.
Proof.
  destruct (snooze_wakes_at_target (alarmAt7 ALARM_SOUNDING 25260) 25680)
    as (Hwake & _); [reflexivity | reflexivity | by_eval |].
  destruct (snooze_wakes_at_target
              (set_alarmSeconds 86000 (alarmAt7 ALARM_SOUNDING 86000)) 60)
    as (_ & _ & Hlate); [reflexivity | reflexivity | by_eval |].
  split; [apply Hwake; by_eval | apply Hlate; by_eval].
Defined.

(** ** Display renderer and strings *)

Lemma set_displayBuffer_twice (b1 b2 : list Z) (g : Globals) :
  set_displayBuffer b2 (set_displayBuffer b1 g) = set_displayBuffer b2 g.
Proof. reflexivity. Qed.

(** Where a redraw draws, it writes a buffer that does not depend on the
    buffer it replaces. *)
Lemma updateDisplayValue_draws (g : Globals) :
  currentDisplayMode g <> MODE_DATE
  \/ emulation (info g) = WIFI \/ model (info g) = MODEL_GC_1092D ->
  exists B, updateDisplayValue g = set_displayBuffer B g
            /\ forall B0, updateDisplayValue (set_displayBuffer B0 g)
                          = set_displayBuffer B g.
Proof.
  intros H. unfold updateDisplayValue.
  cbn [currentDisplayMode set_displayBuffer info].
  destruct (currentDisplayMode g) eqn:Em.
  - eexists. split; [reflexivity | intros; reflexivity].
  - assert (Hs : (emulation (info g) =? WIFI)
                 || (model (info g) =? MODEL_GC_1092D) = true).
    { destruct H as [H | [H | H]]; [contradiction | |]; rewrite H;
        [reflexivity | apply Bool.orb_true_r]. }
    rewrite Hs. eexists. split; [reflexivity | intros; reflexivity].
  - eexists. split; [reflexivity | intros; reflexivity].
  - eexists. split; [reflexivity | intros; reflexivity].
Qed.

(** X23 -- redraw: [updateDisplayValue] always leaves six entries in the
    display buffer (given six before, which matters only when it refuses a
    date), and except in that case it is idempotent and writes nothing but
    the buffer; a date on a model without date display in MK5017 emulation
    is refused: the mode reverts to the time and the buffer is not
    redrawn. *)
Theorem updateDisplayValue_redraw (g : Globals) :
  (List.length (displayBuffer g) = 6%nat ->
   List.length (displayBuffer (updateDisplayValue g)) = 6%nat)
  /\ (currentDisplayMode g <> MODE_DATE
      \/ emulation (info g) = WIFI \/ model (info g) = MODEL_GC_1092D ->
      updateDisplayValue (updateDisplayValue g) = updateDisplayValue g
      /\ updateDisplayValue g
         = set_displayBuffer (displayBuffer (updateDisplayValue g)) g)
  /\ (currentDisplayMode g = MODE_DATE -> emulation (info g) <> WIFI ->
      model (info g) <> MODEL_GC_1092D ->
      currentDisplayMode (updateDisplayValue g) = MODE_TIME
      /\ displayBuffer (updateDisplayValue g) = displayBuffer g).
Proof.
  split; [| split].
  - intros Hlen. unfold updateDisplayValue.
    destruct (currentDisplayMode g); try reflexivity.
    destruct ((emulation (info g) =? WIFI)
              || (model (info g) =? MODEL_GC_1092D));
      [reflexivity | exact Hlen].
  - intros H.
    destruct (updateDisplayValue_draws g H) as (B & E & Eagain).
    rewrite E at 1. rewrite Eagain, E. split; reflexivity.
  - intros Hm He Hd. unfold updateDisplayValue. rewrite Hm.
    apply Z.eqb_neq in He. apply Z.eqb_neq in Hd. rewrite He, Hd.
    split; reflexivity.
Qed.

Lemma updateDisplayValue_redraw_witness :
  currentDisplayMode
    (updateDisplayValue
       (set_info (mkInfo MK5017 MODEL_GC_1005)
          (set_currentDisplayMode MODE_DATE boot))) = MODE_TIME
  /\ List.length (displayBuffer (updateDisplayValue boot)) = 6%nat.
Proof.
  destruct (updateDisplayValue_redraw
              (set_info (mkInfo MK5017 MODEL_GC_1005)
                 (set_currentDisplayMode MODE_DATE boot)))
    as (_ & _ & Hrefuse).
  destruct Hrefuse as (Hmode & _); [reflexivity | discriminate .. |].
  destruct (updateDisplayValue_redraw boot) as (Hlen & _).
  split; [exact Hmode | apply Hlen; reflexivity].
Defined.

(** Reading a string that starts with a [%02d] field. *)
Lemma toInt_from_fmt02d (acc n : Z) (rest : string) :
  0 <= n < 100 ->
  toInt_from acc (fmt02d n ++ rest) = toInt_from (acc * 100 + n) rest.
Proof.
  intros Hn. rewrite fmt02d_two_digits by exact Hn.
  assert (Hq : 0 <= n / 10 <= 9) by zdivmod.
  assert (Hr : 0 <= n mod 10 <= 9) by zdivmod.
  cbn [String.append toInt_from].
  rewrite !digit_char_value by assumption.
  replace ((0 <=? n / 10) && (n / 10 <=? 9)) with true
    by (symmetry; apply andb_true_intro; split; apply Z.leb_le; lia).
  replace ((0 <=? n mod 10) && (n mod 10 <=? 9)) with true
    by (symmetry; apply andb_true_intro; split; apply Z.leb_le; lia).
  f_equal. zdivmod.
Qed.

Lemma toInt_HHMMSS (h m s : Z) :
  0 <= h < 100 -> 0 <= m < 100 -> 0 <= s < 100 ->
  toInt (fmt02d h ++ fmt02d m ++ fmt02d s) = h * 10000 + m * 100 + s.
Proof.
  intros Hh Hm Hs. unfold toInt.
  rewrite (toInt_from_fmt02d 0 h) by exact Hh.
  rewrite (toInt_from_fmt02d _ m) by exact Hm.
  replace (fmt02d s) with (fmt02d s ++ EmptyString)%string.
  - rewrite (toInt_from_fmt02d _ s) by exact Hs. cbn [toInt_from]. lia.
  - rewrite (fmt02d_two_digits s) by exact Hs. reflexivity.
Qed.

Lemma updateStrings_strings (g : Globals) :
  setstring (updateStrings g)
  = (fmt02d (hr24 g) ++ fmt02d (minutes g) ++ fmt02d (seconds g))%string
  /\ displaystring (updateStrings g)
     = String.append
         (fmt02d (uint8 (if is24HourMode g then hr24 g
                         else if hr24 g mod 12 =? 0 then 12
                              else hr24 g mod 12)))
         (fmt02d (minutes g) ++ fmt02d (seconds g))%string
  /\ (model (info g) <> MODEL_GC_1092D ->
      pinAM (updateStrings g) = negb (12 <=? hr24 g)).
Proof.
  unfold updateStrings. cbv zeta.
  match goal with |- context [updateDisplayValue ?x] =>
    destruct (updateDisplayValue_shape x) as (buf & mode & ser & ->) end.
  fields.
  destruct (Z.eqb_spec (model (info g)) MODEL_GC_1092D) as [E | E];
    cbn [negb]; fields; repeat split; try reflexivity; intros; contradiction.
Qed.

(** X24 -- the editor's strings: for a valid edit buffer (hour 0..23,
    minute and second 0..59) [updateStrings] makes [setstring] the six
    digits HHMMSS that read back as hour * 10000 + minute * 100 + second; in
    24-hour mode [displaystring] is the same, in 12-hour mode its hour field
    reads 12 for hours 0 and 12 and the hour modulo 12 otherwise, so never
    0; and except on the GC-1092D the AM pin is high exactly before noon. *)
Theorem updateStrings_roundtrip (g : Globals) :
  0 <= hr24 g < 24 -> 0 <= minutes g < 60 -> 0 <= seconds g < 60 ->
  toInt (setstring (updateStrings g))
  = hr24 g * 10000 + minutes g * 100 + seconds g
  /\ String.length (setstring (updateStrings g)) = 6%nat
  /\ (is24HourMode g = true ->
      displaystring (updateStrings g) = setstring (updateStrings g))
  /\ (is24HourMode g = false ->
      toInt (displaystring (updateStrings g))
      = (if hr24 g mod 12 =? 0 then 12 else hr24 g mod 12) * 10000
        + minutes g * 100 + seconds g
      /\ 1 <= (if hr24 g mod 12 =? 0 then 12 else hr24 g mod 12) <= 12)
  /\ (model (info g) <> MODEL_GC_1092D ->
      (pinAM (updateStrings g) = true <-> hr24 g < 12)).
Proof.
  intros Hh Hm Hs.
  destruct (updateStrings_strings g) as (Es & Ed & Ep).
  rewrite Es, Ed.
  split; [apply toInt_HHMMSS; lia |].
  split.
  { rewrite (fmt02d_two_digits (hr24 g)), (fmt02d_two_digits (minutes g)),
      (fmt02d_two_digits (seconds g)) by lia. reflexivity. }
  split.
  { intros H24. rewrite H24, uint8_small
      by (change (2 ^ 8) with 256; lia). reflexivity. }
  split.
  { intros H12. rewrite H12.
    assert (Hd : 1 <= (if hr24 g mod 12 =? 0 then 12 else hr24 g mod 12) <= 12).
    { destruct (Z.eqb_spec (hr24 g mod 12) 0); [lia | zdivmod]. }
    rewrite uint8_small by (change (2 ^ 8) with 256; lia).
    split; [apply toInt_HHMMSS; lia | exact Hd]. }
  intros Hmod. rewrite (Ep Hmod).
  destruct (Z.leb_spec 12 (hr24 g)); cbn [negb]; split; intros;
    try reflexivity; try discriminate; lia.
Qed.

Lemma updateStrings_roundtrip_witness :
  toInt (setstring (updateStrings (set_minutes 45 (set_hr24 13 boot)))) = 134500
  /\ toInt (displaystring (updateStrings (set_minutes 45 (set_hr24 13 boot))))
     = 14500.
Proof.
  destruct (updateStrings_roundtrip (set_minutes 45 (set_hr24 13 boot)))
    as (Hset & _ & _ & H12 & _); [by_eval .. |].
  destruct H12 as (Hdisp & _); [reflexivity |].
  split; [exact Hset | exact Hdisp].
Defined.

(** ** Display mode sequencer: blanking and overrides *)

Lemma refreshStrings_shape (tz : Timezone) (g : Globals) :
  exists ts ds, refreshStrings tz g = set_datestring ds (set_timestring ts g).
Proof.
  unfold refreshStrings. destruct (negb (state (sw_HOLD g))).
  - eexists _, _. reflexivity.
  - exists (timestring g), (datestring g). destruct g. reflexivity.
Qed.

(** The two GC-1092D statements write the mode, the countdown and the touch
    override only, and the mode they leave is the old one, the date or the
    time. *)
Lemma dateLogic1092D_shape (tz : Timezone) (g : Globals) :
  exists m d t,
    dateLogic1092D (autoDateStep tz g)
    = set_currentDisplayMode m (set_datecounter d (set_touchoverride t g))
    /\ (m = currentDisplayMode g \/ m = MODE_DATE \/ m = MODE_TIME).
Proof.
  unfold dateLogic1092D, autoDateStep.
  destruct (autoDate g || touchoverride g);
    [destruct ((tz_second tz mod 10 =? 8) || (tz_second tz mod 10 =? 9));
     [| destruct (negb (DisplayMode_eqb (currentDisplayMode g) MODE_TIME)
                  && negb (touchoverride g))] |];
    fields;
    repeat match goal with
      | |- context [if ?c then _ else _] => destruct c; fields
      end;
    try (exists (currentDisplayMode g), (datecounter g), (touchoverride g);
         split; [destruct g; reflexivity | auto]);
    try (eexists _, _, (touchoverride g); split; [reflexivity | auto]; fail);
    try (eexists _, (datecounter g), (touchoverride g);
         split; [reflexivity | auto]; fail);
    try (eexists _, _, _; split; [reflexivity | auto]; fail).
Qed.

(** X25 -- no blanking in MK5017 emulation: whatever the time source reads
    and whatever the schedule and override settings are,
    [updateDisplayStateIfNeeded] leaves the message index, both overrides,
    the display buffer and the serial console alone, and the mode it leaves
    is the old one, the date or the time, so it never turns the display to a
    message; unless the model is the GC-1092D outside edit mode it does not
    change the mode, the countdown or the touch override at all. *)
Theorem sequencer_mk5017_never_blanks (tz : Timezone) (g : Globals) :
  emulation (info g) = MK5017 ->
  messageindex (updateDisplayStateIfNeeded tz g) = messageindex g
  /\ manualOverride (updateDisplayStateIfNeeded tz g) = manualOverride g
  /\ overrideForBlank (updateDisplayStateIfNeeded tz g) = overrideForBlank g
  /\ displayBuffer (updateDisplayStateIfNeeded tz g) = displayBuffer g
  /\ serial (updateDisplayStateIfNeeded tz g) = serial g
  /\ (currentDisplayMode (updateDisplayStateIfNeeded tz g)
      = currentDisplayMode g
      \/ currentDisplayMode (updateDisplayStateIfNeeded tz g) = MODE_DATE
      \/ currentDisplayMode (updateDisplayStateIfNeeded tz g) = MODE_TIME)
  /\ (model (info g) <> MODEL_GC_1092D \/ inEditMode g = true ->
      currentDisplayMode (updateDisplayStateIfNeeded tz g)
      = currentDisplayMode g
      /\ datecounter (updateDisplayStateIfNeeded tz g) = datecounter g
      /\ touchoverride (updateDisplayStateIfNeeded tz g) = touchoverride g).
Proof.
  intros He.
  rewrite updateDisplayStateIfNeeded_blocks. cbv zeta.
  destruct (refreshStrings_frame tz g) as (Fi & _ & _ & _ & _ & _ & _ & _ & Fe).
  rewrite Fi, Fe, He. change (MK5017 =? MK5017) with true. cbv iota.
  destruct (refreshStrings_shape tz g) as (ts & ds & Er).
  destruct (dateLogic1092D_shape tz (refreshStrings tz g))
    as (m & d & t & Ed & Hm).
  rewrite Ed, Er in *.
  destruct (model (info g) =? MODEL_BOGUS);
    [| destruct (Z.eqb_spec (model (info g)) MODEL_GC_1092D) as [E1 | E1];
       destruct (inEditMode g) eqn:Ei]; cbn [andb negb]; fields;
    repeat split; try reflexivity; auto;
    match goal with
    | H : _ \/ _ |- _ => destruct H; [contradiction | discriminate]
    end.
Qed.

Lemma sequencer_mk5017_never_blanks_witness :
  currentDisplayMode
    (updateDisplayStateIfNeeded mondayEvening
       (set_info (mkInfo MK5017 MODEL_GC_1005)
          (set_currentDisplayMode MODE_TIME boot))) = MODE_TIME.
Proof.
  destruct (sequencer_mk5017_never_blanks mondayEvening
              (set_info (mkInfo MK5017 MODEL_GC_1005)
                 (set_currentDisplayMode MODE_TIME boot)))
    as (_ & _ & _ & _ & _ & _ & Hkeep); [reflexivity |].
  destruct Hkeep as (Hmode & _); [left; discriminate | exact Hmode].
Defined.

(** The WIFI branch outside a date display. *)
Lemma sequencer_wifi_no_date (tz : Timezone) (g : Globals) :
  emulation (info g) = WIFI -> currentDisplayMode g <> MODE_DATE ->
  exists ts ds,
    updateDisplayStateIfNeeded tz g
    = manualOverrideLogic (isWeekendNow tz g) (withinDisplayWindowNow tz g)
        (set_datestring ds (set_timestring ts g)).
Proof.
  intros He Hm.
  rewrite updateDisplayStateIfNeeded_blocks. cbv zeta.
  destruct (refreshStrings_frame tz g) as (Fi & Fm & _).
  rewrite Fi, He. change (WIFI =? MK5017) with false. cbv iota.
  assert (Ed : dateLogicWifi (refreshStrings tz g) = refreshStrings tz g).
  { unfold dateLogicWifi. rewrite Fm.
    destruct (currentDisplayMode g); try reflexivity; try contradiction.
    - rewrite Bool.andb_false_r. reflexivity.
    - rewrite Bool.andb_false_r. reflexivity.
    - rewrite Bool.andb_false_r. reflexivity. }
  rewrite Ed.
  destruct (refreshStrings_shape tz g) as (ts & ds & Er). rewrite Er.
  exists ts, ds. reflexivity.
Qed.

Lemma updateDisplayValue_keeps (g : Globals) :
  currentDisplayMode g <> MODE_DATE ->
  currentDisplayMode (updateDisplayValue g) = currentDisplayMode g
  /\ messageindex (updateDisplayValue g) = messageindex g
  /\ manualOverride (updateDisplayValue g) = manualOverride g.
Proof.
  intros Hm.
  destruct (updateDisplayValue_draws g (or_introl Hm)) as (B & -> & _).
  repeat split.
Qed.

(** The blanking logic on a display that shows no date. *)
Lemma normalBlanking_no_date (w d : bool) (g : Globals) :
  currentDisplayMode g <> MODE_DATE ->
  manualOverride (normalBlanking w d g) = manualOverride g
  /\ (overrideForBlank g = false ->
      currentDisplayMode (normalBlanking w d g)
      = (if w || negb d then MODE_MESSAGE else MODE_TIME)
      /\ (w || negb d = true -> messageindex (normalBlanking w d g) = 9))
  /\ (overrideForBlank g = true ->
      currentDisplayMode (normalBlanking w d g) = currentDisplayMode g
      /\ messageindex (normalBlanking w d g) = messageindex g).
Proof.
  intros Hm. unfold normalBlanking.
  apply DisplayMode_eqb_eq in Hm as Hb || idtac.
  assert (Hb : DisplayMode_eqb (currentDisplayMode g) MODE_DATE = false).
  { destruct (currentDisplayMode g); try reflexivity. contradiction. }
  rewrite Hb. cbn [negb andb].
  destruct (overrideForBlank g) eqn:Eo; cbn [negb andb]; cbv zeta.
  - destruct (updateDisplayValue_keeps g Hm) as (K1 & K2 & K3).
    rewrite K1, K2, K3. repeat split; intros; try discriminate; reflexivity.
  - rewrite !Bool.andb_true_r.
    destruct w, d; cbn [negb andb orb];
      match goal with |- context [updateDisplayValue ?x] =>
        destruct (updateDisplayValue_keeps x) as (K1 & K2 & K3);
          [fields; discriminate |]; rewrite K1, K2, K3
      end; fields; repeat split; intros; try discriminate; reflexivity.
Qed.

(** X26 -- the blanking schedule of WIFI emulation: with no manual override
    and no date on display, [updateDisplayStateIfNeeded] shows the blank
    message 9 when today is a configured blank day or the time is outside
    the display window, and the time otherwise; but while [overrideForBlank]
    is still set from an earlier override, the schedule is not applied and
    the mode and message stay as they are. *)
Theorem wifi_blanking_schedule (tz : Timezone) (g : Globals) :
  emulation (info g) = WIFI -> manualOverride g = false ->
  currentDisplayMode g <> MODE_DATE ->
  (overrideForBlank g = false ->
   currentDisplayMode (updateDisplayStateIfNeeded tz g)
   = (if isWeekendNow tz g || negb (withinDisplayWindowNow tz g)
      then MODE_MESSAGE else MODE_TIME)
   /\ (isWeekendNow tz g || negb (withinDisplayWindowNow tz g) = true ->
       messageindex (updateDisplayStateIfNeeded tz g) = 9))
  /\ (overrideForBlank g = true ->
      currentDisplayMode (updateDisplayStateIfNeeded tz g)
      = currentDisplayMode g
      /\ messageindex (updateDisplayStateIfNeeded tz g) = messageindex g).
Proof.
  intros He Ho Hm.
  destruct (sequencer_wifi_no_date tz g He Hm) as (ts & ds & ->).
  unfold manualOverrideLogic. fields. rewrite Ho.
  destruct (normalBlanking_no_date (isWeekendNow tz g)
              (withinDisplayWindowNow tz g)
              (set_datestring ds (set_timestring ts g)) Hm)
    as (_ & Hoff & Hon).
  split; [exact Hoff | exact Hon].
Qed.

Lemma wifi_blanking_schedule_witness :
  currentDisplayMode
    (updateDisplayStateIfNeeded (mkTz 12 0 0 3 9 "Saturday")
       (set_currentDisplayMode MODE_TIME boot)) = MODE_MESSAGE
  /\ currentDisplayMode
       (updateDisplayStateIfNeeded (mkTz 12 0 0 3 9 "Monday")
          (set_currentDisplayMode MODE_MESSAGE boot)) = MODE_TIME
  /\ currentDisplayMode
       (updateDisplayStateIfNeeded (mkTz 12 0 0 3 9 "Monday")
          (set_overrideForBlank true (set_currentDisplayMode MODE_MESSAGE boot)))
     = MODE_MESSAGE.
Proof.
  destruct (wifi_blanking_schedule (mkTz 12 0 0 3 9 "Saturday")
              (set_currentDisplayMode MODE_TIME boot))
    as (Hsat & _); [reflexivity | reflexivity | discriminate |].
  destruct (wifi_blanking_schedule (mkTz 12 0 0 3 9 "Monday")
              (set_currentDisplayMode MODE_MESSAGE boot))
    as (Hmon & _); [reflexivity | reflexivity | discriminate |].
  destruct (wifi_blanking_schedule (mkTz 12 0 0 3 9 "Monday")
              (set_overrideForBlank true
                 (set_currentDisplayMode MODE_MESSAGE boot)))
    as (_ & Hsticky); [reflexivity | reflexivity | discriminate |].
  destruct Hsat as (Hsat & _); [reflexivity |].
  destruct Hmon as (Hmon & _); [reflexivity |].
  destruct Hsticky as (Hsticky & _); [reflexivity |].
  split; [exact Hsat | split; [exact Hmon | exact Hsticky]].
Defined.

(** X27 -- manual override in WIFI emulation, with no date on display: the
    override is cleared in the pass in which the display window agrees with
    what the override forces (forcing blank while outside the window, or
    forcing the time while inside it); until then the pass keeps the
    override and forces its mode, the blank message 9 or the time,
    whatever the blank-day setting says. *)
Theorem manual_override_resolution (tz : Timezone) (g : Globals) :
  emulation (info g) = WIFI -> manualOverride g = true ->
  currentDisplayMode g <> MODE_DATE ->
  (overrideForBlank g = negb (withinDisplayWindowNow tz g) ->
   manualOverride (updateDisplayStateIfNeeded tz g) = false)
  /\ (overrideForBlank g = withinDisplayWindowNow tz g ->
      manualOverride (updateDisplayStateIfNeeded tz g) = true
      /\ currentDisplayMode (updateDisplayStateIfNeeded tz g)
         = (if overrideForBlank g then MODE_MESSAGE else MODE_TIME)
      /\ (overrideForBlank g = true ->
          messageindex (updateDisplayStateIfNeeded tz g) = 9)).
Proof.
  intros He Ho Hm.
  destruct (sequencer_wifi_no_date tz g He Hm) as (ts & ds & ->).
  unfold manualOverrideLogic. fields. rewrite Ho.
  assert (Hb : DisplayMode_eqb (currentDisplayMode g) MODE_DATE = false).
  { destruct (currentDisplayMode g); try reflexivity. contradiction. }
  rewrite Hb.
  split.
  - intros Hw. rewrite Hw.
    destruct (withinDisplayWindowNow tz g); cbn [negb andb orb];
      match goal with |- manualOverride (normalBlanking ?w ?d ?x) = _ =>
        rewrite (proj1 (normalBlanking_no_date w d x Hm))
      end; reflexivity.
  - intros Hw. rewrite Hw.
    destruct (withinDisplayWindowNow tz g); cbn [negb andb orb]; cbv zeta;
      fields;
      match goal with |- context [updateDisplayValue ?x] =>
        destruct (updateDisplayValue_keeps x) as (K1 & K2 & K3);
          [fields; discriminate |]; rewrite K1, K2, K3
      end; fields; rewrite ?Ho;
      repeat split; intros; try discriminate; reflexivity.
Qed.

Lemma manual_override_resolution_witness :
  manualOverride
    (updateDisplayStateIfNeeded mondayEvening
       (set_overrideForBlank true
          (set_manualOverride true
             (set_currentDisplayMode MODE_MESSAGE boot)))) = false
  /\ currentDisplayMode
       (updateDisplayStateIfNeeded mondayEvening
          (set_manualOverride true (set_currentDisplayMode MODE_TIME boot)))
     = MODE_TIME.
Proof.
  destruct (manual_override_resolution mondayEvening
              (set_overrideForBlank true
                 (set_manualOverride true
                    (set_currentDisplayMode MODE_MESSAGE boot))))
    as (Hclear & _); [reflexivity | reflexivity | discriminate |].
  destruct (manual_override_resolution mondayEvening
              (set_manualOverride true (set_currentDisplayMode MODE_TIME boot)))
    as (_ & Hkeep); [reflexivity | reflexivity | discriminate |].
  destruct Hkeep as (_ & Hmode & _); [reflexivity |].
  split; [apply Hclear; reflexivity | exact Hmode].
Defined.
